(** * dnsm: resolution engine and record store

    A shallow embedding of the two core pieces of the dnsm name server:

    - the resolution engine ([HandleRequest], [FindRecord],
      [IsDomainConfigured], [ForwardRequest], [Match]), and
    - the record store [ViperYAMLManager] of [internal/core/DnsManager.go]
      ([AddOrUpdateDomain], [DeleteDomain], [AddRecord], [UpdateRecord],
      [DeleteRecord], [ListDomainsWithPagination], [updateDomainsNode]).

    Go strings are byte strings ([string]); Go [int] is a 64-bit signed
    integer carried as [Z] with its wrap-around written out; the store's
    [map[string]Domain] is a [gmap string Domain]; logging is left out. *)

From Stdlib Require Import ZArith Ascii String Sorting.Sorted Sorting.Permutation.
From stdpp Require Import gmap strings list.

Local Open Scope Z_scope.

(** ** Go's [strings] package, on byte strings *)

Module Strings.

(** [strings.ToLower] on one byte: the ASCII letters [A]-[Z] are moved to
    [a]-[z]; every other byte is kept.  This is what the library does to a
    string of ASCII bytes.  A string with a byte from [0x80] on is mapped
    rune by rune through the Unicode case tables, which are not written out
    here: on such a string [ToLower] below is not the library's function,
    and the statements that depend on how a name is lower-cased are made
    over [lowers_like_the_library]. *)
Definition lower_byte (c : ascii) : ascii :=
  let n := N_of_ascii c in
  if ((65 <=? n) && (n <=? 90))%N then ascii_of_N (n + 32) else c.

(** [c < utf8.RuneSelf]. *)
Definition is_ascii_byte (c : ascii) : bool := (N_of_ascii c <? 128)%N.

Fixpoint isASCII (s : string) : bool :=
  match s with
  | EmptyString => true
  | String c s' => is_ascii_byte c && isASCII s'
  end.

Fixpoint ToLower (s : string) : string :=
  match s with
  | EmptyString => EmptyString
  | String c s' => String (lower_byte c) (ToLower s')
  end.

(** [s[n:]] for [n <= len(s)]. *)
Fixpoint slice_from (n : nat) (s : string) : string :=
  match n, s with
  | O, _ => s
  | S n', String _ s' => slice_from n' s'
  | S _, EmptyString => EmptyString
  end.

(** [s[:n]] for [n <= len(s)]. *)
Fixpoint slice_to (n : nat) (s : string) : string :=
  match n, s with
  | O, _ => EmptyString
  | S n', String c s' => String c (slice_to n' s')
  | S _, EmptyString => EmptyString
  end.

(** [strings.HasPrefix(s, prefix)]:
    [len(s) >= len(prefix) && s[:len(prefix)] == prefix]. *)
Definition HasPrefix (s prefix : string) : bool :=
  (String.length prefix <=? String.length s)%nat
  && String.eqb (slice_to (String.length prefix) s) prefix.

(** [strings.HasSuffix(s, suffix)]:
    [len(s) >= len(suffix) && s[len(s)-len(suffix):] == suffix]. *)
Definition HasSuffix (s suffix : string) : bool :=
  (String.length suffix <=? String.length s)%nat
  && String.eqb (slice_from (String.length s - String.length suffix) s) suffix.

(** [strings.TrimSuffix(s, suffix)]: [s] without the trailing [suffix],
    or [s] itself when it does not end with [suffix]. *)
Definition TrimSuffix (s suffix : string) : string :=
  if HasSuffix s suffix
  then slice_to (String.length s - String.length suffix) s
  else s.

End Strings.

(** ** The engine's matcher: [DNSEngine.Match] *)

(** The normalisation both [Match] and [FindRecord] apply to a name:
    [strings.ToLower(strings.TrimSuffix(name, "."))]. *)
Definition normalize (name : string) : string :=
  Strings.ToLower (Strings.TrimSuffix name ".").

Definition Match (qname rule : string) : bool :=
  let qname := normalize qname in
  let rule := normalize rule in
  if String.eqb qname rule then true
  else if Strings.HasPrefix rule "*" then
         let suffix := Strings.slice_from 1 rule in
         Strings.HasSuffix qname suffix
       else false.

(** ** The matcher over the library's lower-casing

    [strings.ToLower] is library code.  What the statements about names
    with bytes outside ASCII use of it is collected here: it maps the empty
    string to itself, it maps an ASCII byte at the head of a string on its
    own, by [lower_byte], and it neither creates nor removes a leading
    star.  The library's function does all three: it maps a string of ASCII
    bytes byte by byte and every other string rune by rune, an ASCII rune
    as [lower_byte] does, and no rune has the star as its lower case.
    [Strings.ToLower] does them too ([ToLower_lowers_like_the_library]). *)
Definition lowers_like_the_library (ToLower : string -> string) : Prop :=
  ToLower "" = "" /\
  (forall c s, Strings.is_ascii_byte c = true ->
               ToLower (String c s) = String (Strings.lower_byte c) (ToLower s)) /\
  (forall s, Strings.HasPrefix (ToLower s) "*" = Strings.HasPrefix s "*").

Section Lowering.

(** [strings.ToLower]. *)
Variable ToLower : string -> string.

Definition normalize_with (name : string) : string :=
  ToLower (Strings.TrimSuffix name ".").

(** [DNSEngine.Match] over [ToLower]; [Match] is its instance at
    [Strings.ToLower]. *)
Definition Match_with (qname rule : string) : bool :=
  let qname := normalize_with qname in
  let rule := normalize_with rule in
  if String.eqb qname rule then true
  else if Strings.HasPrefix rule "*" then
         let suffix := Strings.slice_from 1 rule in
         Strings.HasSuffix qname suffix
       else false.

End Lowering.

(** ** Go's [net] package: IP literals

    [net.ParseIP], [IP.To4] and [IP.To16] belong to the Go standard library,
    not to the repository; they are written out after the library's
    algorithm.  [net.ParseIP] reads a literal with the parser of
    [net/netip] and refuses a zone: four decimal fields from 0 to 255
    without a leading zero, or up to eight groups of one to four
    hexadecimal digits with at most one [::] and an optional dotted tail.
    An [IP] is a byte slice of length 4 or 16. *)

Module Net.

Definition IP := list Z.

Definition IPv4len : nat := 4.
Definition IPv6len : nat := 16.

(** [net.IPv4(a, b, c, d)]: the 16-byte form [::ffff:a.b.c.d]. *)
Definition IPv4 (a b c d : Z) : IP :=
  [0; 0; 0; 0; 0; 0; 0; 0; 0; 0; 255; 255; a; b; c; d].

Definition byte_at (ip : IP) (i : nat) : Z := nth i ip 0.

Definition isZeros (p : list Z) : bool := forallb (Z.eqb 0) p.

(** [ip.To4()]: the 4-byte form of an IPv4 address, [None] for Go's nil. *)
Definition To4 (ip : IP) : option IP :=
  if (length ip =? IPv4len)%nat then Some ip
  else if (length ip =? IPv6len)%nat && isZeros (take 10 ip)
          && (byte_at ip 10 =? 255) && (byte_at ip 11 =? 255)
       then Some (take 4 (drop 12 ip))
       else None.

(** [ip.To16()]: the 16-byte form; nil only for a slice of a wrong length. *)
Definition To16 (ip : IP) : option IP :=
  if (length ip =? IPv4len)%nat
  then Some (IPv4 (byte_at ip 0) (byte_at ip 1) (byte_at ip 2) (byte_at ip 3))
  else if (length ip =? IPv6len)%nat then Some ip
       else None.

Definition big : Z := 16777215.

Definition code (c : ascii) : Z := Z.of_N (N_of_ascii c).

Definition between (lo hi : string) (c : ascii) : bool :=
  match lo, hi with
  | String l _, String h _ => (code l <=? code c) && (code c <=? code h)
  | _, _ => false
  end.

(** [dtoi]: decimal to integer; number, characters consumed, success. *)
Fixpoint dtoi_loop (s : string) (n : Z) (i : nat) : Z * nat * bool :=
  match s with
  | String c s' =>
      if between "0" "9" c then
        let n' := n * 10 + (code c - 48) in
        if big <=? n' then (big, i, false) else dtoi_loop s' n' (S i)
      else (n, i, true)
  | EmptyString => (n, i, true)
  end.

Definition dtoi (s : string) : Z * nat * bool :=
  match dtoi_loop s 0 0%nat with
  | (n, i, false) => (n, i, false)
  | (n, O, true) => (0, O, false)
  | (n, i, true) => (n, i, true)
  end.

Definition hex_digit (c : ascii) : option Z :=
  if between "0" "9" c then Some (code c - 48)
  else if between "a" "f" c then Some (code c - 97 + 10)
  else if between "A" "F" c then Some (code c - 65 + 10)
  else None.

(** The hexadecimal group at the head of [s], as the group loop of
    [parseIPv6] reads it: the value and the number of digits.  The loop
    fails at a fifth digit ([off > 3]) and at a value over [0xFFFF]; a
    group without a digit fails too. *)
Fixpoint hex_group_loop (s : string) (acc : Z) (off : nat) : option (Z * nat) :=
  match s with
  | String c s' =>
      match hex_digit c with
      | Some d =>
          let acc := acc * 16 + d in
          if (3 <? off)%nat then None
          else if 65535 <? acc then None
          else hex_group_loop s' acc (S off)
      | None => Some (acc, off)
      end
  | EmptyString => Some (acc, off)
  end.

Definition hex_group (s : string) : option (Z * nat) :=
  match hex_group_loop s 0 0%nat with
  | Some (_, O) => None
  | r => r
  end.

Definition first_is (s : string) (c : ascii) : bool :=
  match s with
  | String c' _ => Ascii.eqb c' c
  | EmptyString => false
  end.

(** The four decimal fields of an IPv4 literal, read field by field with
    [dtoi]; [i] counts the fields read.  (The parser of [net/netip] reads
    them in one pass over the characters and accepts the same literals:
    four fields of digits separated by single dots, each at most 255 and
    without a leading zero.) *)
Fixpoint parseIPv4_fields (todo i : nat) (s : string) (p : list Z)
  : option (list Z * string) :=
  match todo with
  | O => Some (p, s)
  | S todo' =>
      if (String.length s =? 0)%nat then None
      else
        let after_dot :=
          if (0 <? i)%nat
          then if first_is s "." then Some (Strings.slice_from 1 s) else None
          else Some s in
        match after_dot with
        | None => None
        | Some s1 =>
            let '(n, c, ok) := dtoi s1 in
            if negb ok || (255 <? n) then None
            else if (1 <? c)%nat && first_is s1 "0" then None
            else parseIPv4_fields todo' (S i) (Strings.slice_from c s1) (p ++ [n])
        end
  end.

Definition parseIPv4 (s : string) : option IP :=
  match parseIPv4_fields 4 0 s [] with
  | Some ([a; b; c; d], EmptyString) => Some (IPv4 a b c d)
  | _ => None
  end.

(** State of the group loop of [parseIPv6]: the write position [i], the
    rest of the input, the 16 bytes, and the position of the [::]. *)
Record v6state := V6 {
  v6_i : nat;
  v6_s : string;
  v6_ip : list Z;
  v6_ellipsis : option nat
}.

Inductive v6step :=
| V6Nil
| V6Break (st : v6state)
| V6Next (st : v6state).

Definition parseIPv6_body (st : v6state) : v6step :=
  let '(V6 i s ip ellipsis) := st in
  match hex_group s with
  | None => V6Nil
  | Some (n, c) =>
  if (c <? String.length s)%nat && first_is (Strings.slice_from c s) "." then
    if (match ellipsis with None => true | Some _ => false end)
       && negb (i =? IPv6len - IPv4len)%nat then V6Nil
    else if (IPv6len <? i + IPv4len)%nat then V6Nil
    else match parseIPv4 s with
         | None => V6Nil
         | Some ip4 =>
             let ip := <[i := byte_at ip4 12]> ip in
             let ip := <[S i := byte_at ip4 13]> ip in
             let ip := <[S (S i) := byte_at ip4 14]> ip in
             let ip := <[S (S (S i)) := byte_at ip4 15]> ip in
             V6Break (V6 (i + IPv4len) EmptyString ip ellipsis)
         end
  else
    let ip := <[i := Z.shiftr n 8]> ip in
    let ip := <[S i := n mod 256]> ip in
    let i := (i + 2)%nat in
    let s := Strings.slice_from c s in
    if (String.length s =? 0)%nat then V6Break (V6 i s ip ellipsis)
    else if negb (first_is s ":") || (String.length s =? 1)%nat then V6Nil
    else
      let s := Strings.slice_from 1 s in
      if first_is s ":" then
        match ellipsis with
        | Some _ => V6Nil
        | None =>
            let s := Strings.slice_from 1 s in
            if (String.length s =? 0)%nat then V6Break (V6 i s ip (Some i))
            else V6Next (V6 i s ip (Some i))
        end
      else V6Next (V6 i s ip ellipsis)
  end.

(** [for i < IPv6len { ... }]: every round advances [i] by two, so eight
    rounds reach [IPv6len]. *)
Fixpoint parseIPv6_loop (rounds : nat) (st : v6state) : option v6state :=
  if (v6_i st <? IPv6len)%nat then
    match rounds with
    | O => Some st
    | S rounds' =>
        match parseIPv6_body st with
        | V6Nil => None
        | V6Break st' => Some st'
        | V6Next st' => parseIPv6_loop rounds' st'
        end
    end
  else Some st.

Definition parseIPv6_finish (st : v6state) : option IP :=
  let '(V6 i s ip ellipsis) := st in
  if negb (String.length s =? 0)%nat then None
  else if (i <? IPv6len)%nat then
    match ellipsis with
    | None => None
    | Some e =>
        let n := (IPv6len - i)%nat in
        Some (take e ip ++ replicate n 0 ++ take (i - e) (drop e ip))
    end
  else match ellipsis with
       | Some _ => None
       | None => Some ip
       end.

Definition parseIPv6 (s : string) : option IP :=
  let zero := replicate IPv6len 0 in
  let start :=
    if (2 <=? String.length s)%nat && first_is s ":"
       && first_is (Strings.slice_from 1 s) ":"
    then V6 0 (Strings.slice_from 2 s) zero (Some 0%nat)
    else V6 0 s zero None in
  match v6_ellipsis start, v6_s start with
  | Some _, EmptyString => Some zero
  | _, _ =>
      match parseIPv6_loop 8 start with
      | None => None
      | Some st => parseIPv6_finish st
      end
  end.

(** [net.ParseIP]: the first [.] or [:] decides which parser reads the
    whole string; a string with neither is not an address. *)
Fixpoint ParseIP_scan (rest whole : string) : option IP :=
  match rest with
  | EmptyString => None
  | String c rest' =>
      if Ascii.eqb c "." then parseIPv4 whole
      else if Ascii.eqb c ":" then parseIPv6 whole
      else ParseIP_scan rest' whole
  end.

Definition ParseIP (s : string) : option IP := ParseIP_scan s s.

End Net.

(** ** The [miekg/dns] message model

    The part of the DNS library the engine touches: the header bits and the
    four sections of [dns.Msg], the resource records the engine builds, and
    [SetReply] / [SetRcode]. *)

Module Dns.

Definition TypeA : Z := 1.
Definition TypeCNAME : Z := 5.
Definition TypeTXT : Z := 16.
Definition TypeAAAA : Z := 28.
Definition ClassINET : Z := 1.

Definition OpcodeQuery : Z := 0.

Definition RcodeSuccess : Z := 0.
Definition RcodeServerFailure : Z := 2.
Definition RcodeNameError : Z := 3.

Record Question := {
  Name : string;
  Qtype : Z;
  Qclass : Z
}.

Record RR_Header := {
  Hdr_Name : string;
  Rrtype : Z;
  Class : Z;
  Ttl : Z
}.

(** [dns.RR]: the four record kinds the engine builds, and every other
    kind (an upstream may return any) with its data kept opaque. *)
Inductive RR :=
| A (Hdr : RR_Header) (a : Net.IP)
| AAAA (Hdr : RR_Header) (aaaa : Net.IP)
| CNAME (Hdr : RR_Header) (Target : string)
| TXT (Hdr : RR_Header) (Txt : list string)
| RFC3597 (Hdr : RR_Header) (Rdata : list Z).

Definition Header (rr : RR) : RR_Header :=
  match rr with
  | A h _ | AAAA h _ | CNAME h _ | TXT h _ | RFC3597 h _ => h
  end.

Record Msg := {
  Id : Z;
  Response : bool;
  Opcode : Z;
  Authoritative : bool;
  Truncated : bool;
  RecursionDesired : bool;
  RecursionAvailable : bool;
  Zero : bool;
  AuthenticatedData : bool;
  CheckingDisabled : bool;
  Rcode : Z;
  Questions : list Question;
  Answer : list RR;
  Ns : list RR;
  Extra : list RR
}.

(** [new(dns.Msg)]: the zero message. *)
Definition new_Msg : Msg :=
  {| Id := 0; Response := false; Opcode := 0; Authoritative := false;
     Truncated := false; RecursionDesired := false;
     RecursionAvailable := false; Zero := false;
     AuthenticatedData := false; CheckingDisabled := false; Rcode := 0;
     Questions := []; Answer := []; Ns := []; Extra := [] |}.

(** [m.SetReply(request)]: copies the id and opcode, sets the response
    bit, copies the rd and cd bits of a standard query, resets the rcode
    and keeps the first question only. *)
Definition SetReply (m request : Msg) : Msg :=
  let is_query := Opcode request =? OpcodeQuery in
  {| Id := Id request;
     Response := true;
     Opcode := Opcode request;
     Authoritative := Authoritative m;
     Truncated := Truncated m;
     RecursionDesired :=
       if is_query then RecursionDesired request else RecursionDesired m;
     RecursionAvailable := RecursionAvailable m;
     Zero := Zero m;
     AuthenticatedData := AuthenticatedData m;
     CheckingDisabled :=
       if is_query then CheckingDisabled request else CheckingDisabled m;
     Rcode := RcodeSuccess;
     Questions :=
       match Questions request with
       | q :: _ => [q]
       | [] => Questions m
       end;
     Answer := Answer m;
     Ns := Ns m;
     Extra := Extra m |}.

Definition set_Rcode (m : Msg) (rcode : Z) : Msg :=
  {| Id := Id m; Response := Response m; Opcode := Opcode m;
     Authoritative := Authoritative m; Truncated := Truncated m;
     RecursionDesired := RecursionDesired m;
     RecursionAvailable := RecursionAvailable m; Zero := Zero m;
     AuthenticatedData := AuthenticatedData m;
     CheckingDisabled := CheckingDisabled m; Rcode := rcode;
     Questions := Questions m; Answer := Answer m; Ns := Ns m;
     Extra := Extra m |}.

(** [m.SetRcode(request, rcode)]: [SetReply] followed by the rcode. *)
Definition SetRcode (m request : Msg) (rcode : Z) : Msg :=
  set_Rcode (SetReply m request) rcode.

Definition set_RecursionAvailable (m : Msg) (ra : bool) : Msg :=
  {| Id := Id m; Response := Response m; Opcode := Opcode m;
     Authoritative := Authoritative m; Truncated := Truncated m;
     RecursionDesired := RecursionDesired m;
     RecursionAvailable := ra; Zero := Zero m;
     AuthenticatedData := AuthenticatedData m;
     CheckingDisabled := CheckingDisabled m; Rcode := Rcode m;
     Questions := Questions m; Answer := Answer m; Ns := Ns m;
     Extra := Extra m |}.

Definition set_Answer (m : Msg) (rrs : list RR) : Msg :=
  {| Id := Id m; Response := Response m; Opcode := Opcode m;
     Authoritative := Authoritative m; Truncated := Truncated m;
     RecursionDesired := RecursionDesired m;
     RecursionAvailable := RecursionAvailable m; Zero := Zero m;
     AuthenticatedData := AuthenticatedData m;
     CheckingDisabled := CheckingDisabled m; Rcode := Rcode m;
     Questions := Questions m; Answer := rrs; Ns := Ns m;
     Extra := Extra m |}.

Definition set_Ns (m : Msg) (rrs : list RR) : Msg :=
  {| Id := Id m; Response := Response m; Opcode := Opcode m;
     Authoritative := Authoritative m; Truncated := Truncated m;
     RecursionDesired := RecursionDesired m;
     RecursionAvailable := RecursionAvailable m; Zero := Zero m;
     AuthenticatedData := AuthenticatedData m;
     CheckingDisabled := CheckingDisabled m; Rcode := Rcode m;
     Questions := Questions m; Answer := Answer m; Ns := rrs;
     Extra := Extra m |}.

Definition set_Extra (m : Msg) (rrs : list RR) : Msg :=
  {| Id := Id m; Response := Response m; Opcode := Opcode m;
     Authoritative := Authoritative m; Truncated := Truncated m;
     RecursionDesired := RecursionDesired m;
     RecursionAvailable := RecursionAvailable m; Zero := Zero m;
     AuthenticatedData := AuthenticatedData m;
     CheckingDisabled := CheckingDisabled m; Rcode := Rcode m;
     Questions := Questions m; Answer := Answer m; Ns := Ns m;
     Extra := rrs |}.

(** [req.Copy()]: a deep copy; as a value it is the message itself. *)
Definition Copy (m : Msg) : Msg := m.

End Dns.

(** ** Configuration: [conf.Record], [conf.Domain], [conf.Config]

    [core.Record] and [core.Domain] of the store declare the same fields,
    so the store below uses the same two types.  [TTL] is a Go [int]. *)

Record DnsRecord := {
  R_Name : string;
  R_Type : string;
  R_Value : string;
  R_TTL : Z
}.

Record Domain := {
  D_Name : string;
  D_Records : list DnsRecord
}.

Record DNSConfig := {
  Port : Z;
  Host : string
}.

(** The sections of [conf.Config] the engine reads. *)
Record Config := {
  Server : DNSConfig;
  Upstream : list string;
  Domains : list Domain
}.

(** [GetUpstream] and [GetDomains] return copies of the slices. *)
Definition GetUpstream (c : Config) : list string := Upstream c.
Definition GetDomains (c : Config) : list Domain := Domains c.

(** ** The resolution engine *)

(** The type switch of the exact pass of [FindRecord]: the record's type
    string against the query type. *)
Definition exact_type_matches (rtype : string) (qtype : Z) : bool :=
  if String.eqb rtype "A" then qtype =? Dns.TypeA
  else if String.eqb rtype "AAAA" then qtype =? Dns.TypeAAAA
  else if String.eqb rtype "CNAME" then qtype =? Dns.TypeCNAME
  else if String.eqb rtype "TXT" then qtype =? Dns.TypeTXT
  else false.

(** The type switch of the wildcard pass: [A] and [AAAA] only. *)
Definition wildcard_type_matches (rtype : string) (qtype : Z) : bool :=
  if String.eqb rtype "A" then qtype =? Dns.TypeA
  else if String.eqb rtype "AAAA" then qtype =? Dns.TypeAAAA
  else false.

(** Test of the first inner loop: the normalised names are equal and the
    type switch returns. *)
Definition exact_hit (qname : string) (qtype : Z) (record : DnsRecord) : bool :=
  String.eqb (normalize (R_Name record)) (normalize qname)
  && exact_type_matches (R_Type record) qtype.

(** Test of the second inner loop. *)
Definition wildcard_hit (qname : string) (qtype : Z) (record : DnsRecord) : bool :=
  Strings.HasPrefix (R_Name record) "*" && Match qname (R_Name record)
  && wildcard_type_matches (R_Type record) qtype.

(** [FindRecord]: for every domain in turn, first the loop over its records
    for an exact match, then the loop over the same records for a wildcard
    match; the first record that passes is returned. *)
Fixpoint FindRecord_domains (domains : list Domain) (qname : string) (qtype : Z)
  : option DnsRecord :=
  match domains with
  | [] => None
  | domainConfig :: rest =>
      match find (exact_hit qname qtype) (D_Records domainConfig) with
      | Some record => Some record
      | None =>
          match find (wildcard_hit qname qtype) (D_Records domainConfig) with
          | Some record => Some record
          | None => FindRecord_domains rest qname qtype
          end
      end
  end.

Definition FindRecord (c : Config) (qname : string) (qtype : Z) : option DnsRecord :=
  FindRecord_domains (GetDomains c) qname qtype.

Definition IsDomainConfigured (c : Config) (qname : string) : bool :=
  existsb (fun domainConfig =>
             existsb (fun record => Match qname (R_Name record))
                     (D_Records domainConfig))
          (GetDomains c).

(** [uint32(record.TTL)]. *)
Definition uint32 (n : Z) : Z := n mod 2 ^ 32.

Definition answer_header (qname : string) (rrtype : Z) (record : DnsRecord)
  : Dns.RR_Header :=
  {| Dns.Hdr_Name := qname; Dns.Rrtype := rrtype; Dns.Class := Dns.ClassINET;
     Dns.Ttl := uint32 (R_TTL record) |}.

(** The switch on [record.Type] in [HandleRequest]: the resource record
    appended to the answer, if any ([foundRecord] is set exactly then). *)
Definition synthesize (qname : string) (qtype : Z) (record : DnsRecord)
  : option Dns.RR :=
  if String.eqb (R_Type record) "A" then
    if qtype =? Dns.TypeA then
      match Net.ParseIP (R_Value record) with
      | Some ip =>
          match Net.To4 ip with
          | Some ip4 => Some (Dns.A (answer_header qname Dns.TypeA record) ip4)
          | None => None
          end
      | None => None
      end
    else None
  else if String.eqb (R_Type record) "AAAA" then
    if qtype =? Dns.TypeAAAA then
      match Net.ParseIP (R_Value record) with
      | Some ip =>
          match Net.To16 ip with
          | Some ip16 => Some (Dns.AAAA (answer_header qname Dns.TypeAAAA record) ip16)
          | None => None
          end
      | None => None
      end
    else None
  else if String.eqb (R_Type record) "CNAME" then
    if qtype =? Dns.TypeCNAME then
      let cnameValue := R_Value record in
      let cnameValue :=
        if negb (Strings.HasSuffix cnameValue ".") then cnameValue +:+ "."
        else cnameValue in
      Some (Dns.CNAME (answer_header qname Dns.TypeCNAME record) cnameValue)
    else None
  else if String.eqb (R_Type record) "TXT" then
    if qtype =? Dns.TypeTXT then
      Some (Dns.TXT (answer_header qname Dns.TypeTXT record) [R_Value record])
    else None
  else None.

(** The outcome of one [client.Exchange]: the response pointer and the
    error. *)
Definition ExchangeResult : Type := option Dns.Msg * option string.

Section Engine.

(** The network is a state the engine does not own: one exchange with an
    upstream yields a result and the next state. *)
Context {World : Type}.
Variable Exchange : World -> Dns.Msg -> string -> ExchangeResult * World.

(** The loop of [ForwardRequest] over the upstream list. *)
Fixpoint ForwardRequest_loop (upstreams : list string) (w : World) (req : Dns.Msg)
  : (option Dns.Msg * option string) * World :=
  match upstreams with
  | [] =>
      ((None,
        Some "failed to get a valid response from any of the configured upstream servers"),
       w)
  | upstream :: rest =>
      let reqCopy := Dns.Copy req in
      let '((resp, err), w') := Exchange w reqCopy upstream in
      match err with
      | Some _ => ForwardRequest_loop rest w' req
      | None =>
          match resp with
          | None => ForwardRequest_loop rest w' req
          | Some r => ((Some r, None), w')
          end
      end
  end.

Definition ForwardRequest (c : Config) (w : World) (req : Dns.Msg)
  : (option Dns.Msg * option string) * World :=
  ForwardRequest_loop (GetUpstream c) w req.

(** [HandleRequest]: the message handed to [w.WriteMsg], and the network
    state after the call. *)
Definition HandleRequest (c : Config) (w : World) (req : Dns.Msg)
  : Dns.Msg * World :=
  let m := Dns.SetReply Dns.new_Msg req in
  let m := Dns.set_RecursionAvailable m true in
  match Dns.Questions req with
  | [] => (m, w)
  | question :: _ =>
      let qname := Dns.Name question in
      let qtype := Dns.Qtype question in
      if IsDomainConfigured c qname then
        let answered :=
          match FindRecord c qname qtype with
          | Some record => synthesize qname qtype record
          | None => None
          end in
        match answered with
        | Some rr => (Dns.set_Answer m (Dns.Answer m ++ [rr]), w)
        | None => (Dns.SetRcode m req Dns.RcodeSuccess, w)
        end
      else
        let '((upstreamResp, err), w') := ForwardRequest c w req in
        match err, upstreamResp with
        | None, Some r =>
            let m := Dns.set_Answer m (Dns.Answer r) in
            let m := Dns.set_Ns m (Dns.Ns r) in
            let m := Dns.set_Extra m (Dns.Extra r) in
            (Dns.set_Rcode m (Dns.Rcode r), w')
        | _, _ =>
            let m := Dns.SetRcode m req Dns.RcodeServerFailure in
            (Dns.set_RecursionAvailable m false, w')
        end
  end.

End Engine.

(** ** The record store: [ViperYAMLManager] *)

(** Go's [int] on a 64-bit platform: arithmetic wraps around. *)
Definition wrap64 (z : Z) : Z := (z + 2 ^ 63) mod 2 ^ 64 - 2 ^ 63.

Definition int_sub (a b : Z) : Z := wrap64 (a - b).
Definition int_add (a b : Z) : Z := wrap64 (a + b).
Definition int_mul (a b : Z) : Z := wrap64 (a * b).

Definition max_int : Z := 2 ^ 63 - 1.
Definition min_int : Z := - 2 ^ 63.

(** A Go call either returns or panics. *)
Inductive GoResult (A : Type) :=
| Returns (a : A)
| Panics.
Arguments Returns {A} a.
Arguments Panics {A}.

(** The errors the store builds with [fmt.Errorf], one constructor per
    message. *)
Inductive StoreError :=
| ErrEmptyDomainName
| ErrDomainNotExist (domainName : string)
| ErrRecordExists (domainName recordName recordType : string)
| ErrRecordNotExist (domainName recordName : string)
| ErrMkdirAll
| ErrOpenFile
| ErrEncode
| ErrReadInConfig.

(** The error classes of the specification. *)
Inductive ErrorKind :=
| ValidationError
| NotFoundError
| ConflictError
| PersistenceError.

Definition kind (e : StoreError) : ErrorKind :=
  match e with
  | ErrEmptyDomainName => ValidationError
  | ErrDomainNotExist _ => NotFoundError
  | ErrRecordNotExist _ _ => NotFoundError
  | ErrRecordExists _ _ _ => ConflictError
  | ErrMkdirAll | ErrOpenFile | ErrEncode | ErrReadInConfig => PersistenceError
  end.

(** What the file system answers to the calls of one [updateDomainsNode]:
    [true] for a nil error. *)
Record FsOutcome := {
  WriteConfig_ok : bool;
  SafeWriteConfig_ok : bool;
  MkdirAll_ok : bool;
  OpenFile_ok : bool;
  Encode_ok : bool;
  ReadInConfig_ok : bool
}.

(** The manager: the in-memory map, the value held by viper under the key
    [domains], and the [domains] list of the configuration file ([None]
    once the file has been truncated and not rewritten). *)
Record ViperYAMLManager := {
  domainMap : gmap string Domain;
  viperDomains : list Domain;
  document : option (list Domain)
}.

Definition with_domainMap (m : ViperYAMLManager) (dm : gmap string Domain)
  : ViperYAMLManager :=
  {| domainMap := dm; viperDomains := viperDomains m; document := document m |}.

(** [for _, domain := range m.domainMap]: Go leaves the order of a map
    iteration open; the model takes the order of [map_to_list]. *)
Definition range_domainMap (m : ViperYAMLManager) : list (string * Domain) :=
  map_to_list (domainMap m).

Definition updateDomainsNode (m : ViperYAMLManager) (fs : FsOutcome)
  : option StoreError * ViperYAMLManager :=
  let domains := (range_domainMap m).*2 in
  let set_ (doc : option (list Domain)) :=
    {| domainMap := domainMap m; viperDomains := domains; document := doc |} in
  let reload (m' : ViperYAMLManager) :=
    if ReadInConfig_ok fs then (None, m') else (Some ErrReadInConfig, m') in
  if WriteConfig_ok fs then reload (set_ (Some domains))
  else if SafeWriteConfig_ok fs then reload (set_ (Some domains))
  else if negb (MkdirAll_ok fs) then (Some ErrMkdirAll, set_ (document m))
  else if negb (OpenFile_ok fs) then (Some ErrOpenFile, set_ (document m))
  else if negb (Encode_ok fs) then (Some ErrEncode, set_ None)
  else reload (set_ (Some domains)).

Definition AddOrUpdateDomain (m : ViperYAMLManager) (fs : FsOutcome) (domain : Domain)
  : option StoreError * ViperYAMLManager :=
  if String.eqb (D_Name domain) "" then (Some ErrEmptyDomainName, m)
  else updateDomainsNode (with_domainMap m (<[D_Name domain := domain]> (domainMap m))) fs.

Definition DeleteDomain (m : ViperYAMLManager) (fs : FsOutcome) (domainName : string)
  : option StoreError * ViperYAMLManager :=
  match domainMap m !! domainName with
  | None => (Some (ErrDomainNotExist domainName), m)
  | Some _ => updateDomainsNode (with_domainMap m (delete domainName (domainMap m))) fs
  end.

Definition GetDomain (m : ViperYAMLManager) (domainName : string)
  : Domain * option StoreError :=
  match domainMap m !! domainName with
  | None => ({| D_Name := ""; D_Records := [] |}, Some (ErrDomainNotExist domainName))
  | Some domain => (domain, None)
  end.

Definition same_name_type (record r : DnsRecord) : bool :=
  String.eqb (R_Name r) (R_Name record) && String.eqb (R_Type r) (R_Type record).

Definition AddRecord (m : ViperYAMLManager) (fs : FsOutcome)
    (domainName : string) (record : DnsRecord)
  : option StoreError * ViperYAMLManager :=
  match domainMap m !! domainName with
  | None => (Some (ErrDomainNotExist domainName), m)
  | Some domain =>
      if existsb (same_name_type record) (D_Records domain)
      then (Some (ErrRecordExists domainName (R_Name record) (R_Type record)), m)
      else
        let domain :=
          {| D_Name := D_Name domain; D_Records := D_Records domain ++ [record] |} in
        updateDomainsNode (with_domainMap m (<[domainName := domain]> (domainMap m))) fs
  end.

(** The index at which the loop of [UpdateRecord] breaks. *)
Fixpoint index_of_name (recordName : string) (records : list DnsRecord) (i : nat)
  : option nat :=
  match records with
  | [] => None
  | r :: rest =>
      if String.eqb (R_Name r) recordName then Some i
      else index_of_name recordName rest (S i)
  end.

Definition UpdateRecord (m : ViperYAMLManager) (fs : FsOutcome)
    (domainName recordName : string) (newRecord : DnsRecord)
  : option StoreError * ViperYAMLManager :=
  match domainMap m !! domainName with
  | None => (Some (ErrDomainNotExist domainName), m)
  | Some domain =>
      match index_of_name recordName (D_Records domain) 0 with
      | None => (Some (ErrRecordNotExist domainName recordName), m)
      | Some i =>
          let domain :=
            {| D_Name := D_Name domain;
               D_Records := <[i := newRecord]> (D_Records domain) |} in
          updateDomainsNode (with_domainMap m (<[domainName := domain]> (domainMap m))) fs
      end
  end.

Definition DeleteRecord (m : ViperYAMLManager) (fs : FsOutcome)
    (domainName recordName : string)
  : option StoreError * ViperYAMLManager :=
  match domainMap m !! domainName with
  | None => (Some (ErrDomainNotExist domainName), m)
  | Some domain =>
      let newRecords :=
        List.filter (fun r => negb (String.eqb (R_Name r) recordName)) (D_Records domain) in
      let found := existsb (fun r => String.eqb (R_Name r) recordName) (D_Records domain) in
      if negb found then (Some (ErrRecordNotExist domainName recordName), m)
      else
        let domain := {| D_Name := D_Name domain; D_Records := newRecords |} in
        updateDomainsNode (with_domainMap m (<[domainName := domain]> (domainMap m))) fs
  end.

Definition GetRecords (m : ViperYAMLManager) (domainName : string)
  : option (list DnsRecord) * option StoreError :=
  match domainMap m !! domainName with
  | None => (None, Some (ErrDomainNotExist domainName))
  | Some domain => (Some (D_Records domain), None)
  end.

Definition ListDomains (m : ViperYAMLManager) : list string :=
  (range_domainMap m).*1.

Record DomainInfo := {
  DI_Name : string;
  RecordCount : Z
}.

Record DomainListResult := {
  Total : Z;
  Page_Domains : list DomainInfo
}.

(** The [less] function handed to [sort.Slice]. *)
Definition less (a b : DomainInfo) : bool :=
  String.ltb (Strings.ToLower (DI_Name a)) (Strings.ToLower (DI_Name b)).

(** [sort.Slice]: the library promises a sorted rearrangement and no more
    (equal elements may come out in any order); the model inserts one
    element after the other, which gives one of the results the library
    may give.  Statements meant for every result are made over
    [ListDomainsWithPagination_from] and [sort_Slice_result]. *)
Fixpoint sort_insert (x : DomainInfo) (l : list DomainInfo) : list DomainInfo :=
  match l with
  | [] => [x]
  | y :: l' => if less y x then y :: sort_insert x l' else x :: y :: l'
  end.

Definition sort_Slice (l : list DomainInfo) : list DomainInfo :=
  foldr sort_insert [] l.

(** [s[start:end]] on a slice whose capacity is its length: a panic unless
    [0 <= start <= end <= len(s)]. *)
Definition slice {A} (s : list A) (start end_ : Z) : GoResult (list A) :=
  if (0 <=? start) && (start <=? end_) && (end_ <=? Z.of_nat (length s))
  then Returns (take (Z.to_nat (end_ - start)) (drop (Z.to_nat start) s))
  else Panics.

Definition domainInfos (m : ViperYAMLManager) : list DomainInfo :=
  map (fun '(name, domain) =>
         {| DI_Name := name; RecordCount := Z.of_nat (length (D_Records domain)) |})
      (range_domainMap m).

Definition ListDomainsWithPagination (m : ViperYAMLManager) (page pageSize : Z)
  : GoResult (DomainListResult * option StoreError) :=
  let page := if page <? 1 then 1 else page in
  let pageSize := if (pageSize <? 1) || (100 <? pageSize) then 20 else pageSize in
  let total := Z.of_nat (size (domainMap m)) in
  let infos := sort_Slice (domainInfos m) in
  let start := int_mul (int_sub page 1) pageSize in
  let end_ := int_add start pageSize in
  let len := Z.of_nat (length infos) in
  if len <=? start then
    Returns ({| Total := total; Page_Domains := [] |}, None)
  else
    let end_ := if len <? end_ then len else end_ in
    match slice infos start end_ with
    | Returns page_items =>
        Returns ({| Total := total; Page_Domains := page_items |}, None)
    | Panics => Panics
    end.

(** [ListDomainsWithPagination] from the slice that [sort.Slice] left.
    The order in which Go ranges over a map is not fixed and [sort.Slice]
    is not stable, so the code does not fix the order of entries whose
    lower-cased names are equal; [infos] is [domainInfos] as the library
    sorted it.  [ListDomainsWithPagination] is the instance at
    [sort_Slice (domainInfos m)]. *)
Definition ListDomainsWithPagination_from (m : ViperYAMLManager) (infos : list DomainInfo)
    (page pageSize : Z) : GoResult (DomainListResult * option StoreError) :=
  let page := if page <? 1 then 1 else page in
  let pageSize := if (pageSize <? 1) || (100 <? pageSize) then 20 else pageSize in
  let total := Z.of_nat (size (domainMap m)) in
  let start := int_mul (int_sub page 1) pageSize in
  let end_ := int_add start pageSize in
  let len := Z.of_nat (length infos) in
  if len <=? start then
    Returns ({| Total := total; Page_Domains := [] |}, None)
  else
    let end_ := if len <? end_ then len else end_ in
    match slice infos start end_ with
    | Returns page_items =>
        Returns ({| Total := total; Page_Domains := page_items |}, None)
    | Panics => Panics
    end.

(** The order [sort.Slice] leaves between neighbours, for the [less] of the
    source over the lower-casing [ToLower]: the later entry's key is not
    below the earlier one's. *)
Definition key_le (ToLower : string -> string) (a b : DomainInfo) : Prop :=
  String.ltb (ToLower (DI_Name b)) (ToLower (DI_Name a)) = false.

(** What [sort.Slice] promises of the slice it leaves: the entries of the
    map, in some order, sorted by [less]. *)
Definition sort_Slice_result (ToLower : string -> string) (m : ViperYAMLManager)
    (infos : list DomainInfo) : Prop :=
  Permutation infos (domainInfos m) /\ Sorted (key_le ToLower) infos.

(** ** Vocabulary of the statements *)

(** The reply the engine starts from: [SetReply] on a fresh message, with
    recursion-available set. *)
Definition reply_start (req : Dns.Msg) : Dns.Msg :=
  Dns.set_RecursionAvailable (Dns.SetReply Dns.new_Msg req) true.

(** The local branch of [HandleRequest]: no exchange with the network. *)
Definition local_reply (c : Config) (req : Dns.Msg) (question : Dns.Question) : Dns.Msg :=
  match FindRecord c (Dns.Name question) (Dns.Qtype question) with
  | Some record =>
      match synthesize (Dns.Name question) (Dns.Qtype question) record with
      | Some rr => Dns.set_Answer (reply_start req) [rr]
      | None => Dns.SetRcode (reply_start req) req Dns.RcodeSuccess
      end
  | None => Dns.SetRcode (reply_start req) req Dns.RcodeSuccess
  end.

(** An exchange fails for the engine when it reports an error or hands
    back a nil response. *)
Definition failed (r : ExchangeResult) : bool :=
  match r with
  | (_, Some _) => true
  | (None, None) => true
  | (Some _, None) => false
  end.

(** The network state after one exchange of a clone of [req] with each of
    [upstreams] in turn, provided every one of them failed. *)
Fixpoint all_fail {World} (Exchange : World -> Dns.Msg -> string -> ExchangeResult * World)
    (upstreams : list string) (w : World) (req : Dns.Msg) : option World :=
  match upstreams with
  | [] => Some w
  | upstream :: rest =>
      let '(r, w') := Exchange w (Dns.Copy req) upstream in
      if failed r then all_fail Exchange rest w' req else None
  end.

(** What the group loop of [parseIPv6] keeps true: sixteen bytes, and a
    [::] recorded at or before the write position. *)
Definition v6_inv (st : Net.v6state) : Prop :=
  length (Net.v6_ip st) = 16%nat /\
  match Net.v6_ellipsis st with
  | Some e => (e <= Net.v6_i st)%nat
  | None => True
  end.

(** All records of the store, in the order of the domains. *)
Definition all_records (domains : list Domain) : list DnsRecord :=
  concat (map D_Records domains).

(** Every write strategy of [updateDomainsNode] fails: the in-place
    rewrite, the create-if-absent write, and the raw rewrite (at the
    directory, at the open, or at the encoding). *)
Definition all_writes_fail (fs : FsOutcome) : bool :=
  negb (WriteConfig_ok fs) && negb (SafeWriteConfig_ok fs)
  && negb (MkdirAll_ok fs && OpenFile_ok fs && Encode_ok fs).

Definition append_record (domain : Domain) (record : DnsRecord) : Domain :=
  {| D_Name := D_Name domain; D_Records := D_Records domain ++ [record] |}.

Definition with_records (domain : Domain) (records : list DnsRecord) : Domain :=
  {| D_Name := D_Name domain; D_Records := records |}.

(** A call on [m] ended in a persistence error with the map [changed] in
    memory, and with a document that is the old one or a truncated file. *)
Definition persistence_failed (m : ViperYAMLManager)
    (result : option StoreError * ViperYAMLManager) (changed : gmap string Domain) : Prop :=
  (exists e, fst result = Some e /\ kind e = PersistenceError) /\
  domainMap (snd result) = changed /\
  (document (snd result) = document m \/ document (snd result) = None).

(** The page and page size after the parameter checks. *)
Definition clamp_page (page : Z) : Z := if page <? 1 then 1 else page.
Definition clamp_pageSize (pageSize : Z) : Z :=
  if (pageSize <? 1) || (100 <? pageSize) then 20 else pageSize.

(** Names in non-decreasing order once lower-cased. *)
Definition name_le (a b : DomainInfo) : Prop :=
  String.leb (Strings.ToLower (DI_Name a)) (Strings.ToLower (DI_Name b)) = true.

(** ** Sample stores, queries and networks *)

(** A standard query for one name and type, as a resolver sends it. *)
Definition query (name : string) (qtype : Z) : Dns.Msg :=
  {| Dns.Id := 4660; Dns.Response := false; Dns.Opcode := Dns.OpcodeQuery;
     Dns.Authoritative := false; Dns.Truncated := false;
     Dns.RecursionDesired := true; Dns.RecursionAvailable := false;
     Dns.Zero := false; Dns.AuthenticatedData := false;
     Dns.CheckingDisabled := false; Dns.Rcode := 0;
     Dns.Questions := [{| Dns.Name := name; Dns.Qtype := qtype; Dns.Qclass := Dns.ClassINET |}];
     Dns.Answer := []; Dns.Ns := []; Dns.Extra := [] |}.

(** A network on which every exchange times out. *)
Definition dead_network (w : unit) (req : Dns.Msg) (upstream : string)
  : ExchangeResult * unit :=
  ((None, Some "i/o timeout"), w).

Definition config_of (upstream : list string) (domains : list Domain) : Config :=
  {| Server := {| Port := 53; Host := "0.0.0.0" |};
     Upstream := upstream; Domains := domains |}.

(** Two domains that both hold an [A] record for [a.test.com]. *)
Definition rec_a_first : DnsRecord :=
  {| R_Name := "a.test.com"; R_Type := "A"; R_Value := "1.1.1.1"; R_TTL := 60 |}.
Definition rec_a_second : DnsRecord :=
  {| R_Name := "a.test.com"; R_Type := "A"; R_Value := "2.2.2.2"; R_TTL := 300 |}.
Definition two_domains_same_name : Config :=
  config_of ["223.5.5.5:53"]
    [ {| D_Name := "test.com"; D_Records := [rec_a_first] |};
      {| D_Name := "lab"; D_Records := [rec_a_second] |} ].

(** A domain whose [AAAA] record holds an IPv4 literal. *)
Definition rec_v6_with_v4_value : DnsRecord :=
  {| R_Name := "v6.test.com"; R_Type := "AAAA"; R_Value := "192.168.1.1"; R_TTL := 300 |}.
Definition aaaa_with_v4_value : Config :=
  config_of ["223.5.5.5:53"]
    [ {| D_Name := "test.com"; D_Records := [rec_v6_with_v4_value] |} ].

(** A domain whose [A] record holds an IPv6 literal. *)
Definition rec_v4_with_v6_value : DnsRecord :=
  {| R_Name := "v4.test.com"; R_Type := "A"; R_Value := "2001:db8::1"; R_TTL := 300 |}.
Definition a_with_v6_value : Config :=
  config_of ["223.5.5.5:53"]
    [ {| D_Name := "test.com"; D_Records := [rec_v4_with_v6_value] |} ].

(** A domain with one [A] record and nothing else under that name. *)
Definition only_an_A_record : Config :=
  config_of ["223.5.5.5:53"]
    [ {| D_Name := "test.com"; D_Records := [rec_a_first] |} ].

(** A zone with a wildcard, listed before its sub-zone. *)
Definition rec_wildcard : DnsRecord :=
  {| R_Name := "*.test.com"; R_Type := "A"; R_Value := "192.168.1.1"; R_TTL := 300 |}.
Definition rec_api : DnsRecord :=
  {| R_Name := "api.dev.test.com"; R_Type := "A"; R_Value := "10.0.0.5"; R_TTL := 60 |}.
Definition zone_before_subzone : Config :=
  config_of ["223.5.5.5:53"]
    [ {| D_Name := "test.com"; D_Records := [rec_wildcard] |};
      {| D_Name := "dev.test.com"; D_Records := [rec_api] |} ].

(** A sample manager: one domain with an [A] record, written to disk. *)
Definition sample_manager : ViperYAMLManager :=
  {| domainMap := {[ "test.com" := {| D_Name := "test.com"; D_Records := [rec_a_first] |} ]};
     viperDomains := [ {| D_Name := "test.com"; D_Records := [rec_a_first] |} ];
     document := Some [ {| D_Name := "test.com"; D_Records := [rec_a_first] |} ] |}.

Definition fs_ok : FsOutcome :=
  {| WriteConfig_ok := true; SafeWriteConfig_ok := true; MkdirAll_ok := true;
     OpenFile_ok := true; Encode_ok := true; ReadInConfig_ok := true |}.

(** A read-only configuration directory: nothing can be written. *)
Definition fs_read_only : FsOutcome :=
  {| WriteConfig_ok := false; SafeWriteConfig_ok := false; MkdirAll_ok := true;
     OpenFile_ok := false; Encode_ok := false; ReadInConfig_ok := true |}.


Definition domain_lab : Domain := {| D_Name := "lab"; D_Records := [rec_a_second] |}.

(** Three domains, stored under names of mixed case. *)
Definition three_domains : ViperYAMLManager :=
  {| domainMap :=
       <["b.org" := {| D_Name := "b.org"; D_Records := [] |}]>
         (<["A.com" := {| D_Name := "A.com"; D_Records := [rec_a_first] |}]>
            {[ "c.net" := {| D_Name := "c.net"; D_Records := [] |} ]});
     viperDomains := [];
     document := None |}.

(** What the second upstream answers. *)
Definition upstream_answer : Dns.Msg :=
  {| Dns.Id := 4660; Dns.Response := true; Dns.Opcode := Dns.OpcodeQuery;
     Dns.Authoritative := false; Dns.Truncated := false;
     Dns.RecursionDesired := true; Dns.RecursionAvailable := true;
     Dns.Zero := false; Dns.AuthenticatedData := false;
     Dns.CheckingDisabled := false; Dns.Rcode := Dns.RcodeSuccess;
     Dns.Questions := [{| Dns.Name := "example.org."; Dns.Qtype := Dns.TypeA;
                          Dns.Qclass := Dns.ClassINET |}];
     Dns.Answer := [Dns.A {| Dns.Hdr_Name := "example.org."; Dns.Rrtype := Dns.TypeA;
                             Dns.Class := Dns.ClassINET; Dns.Ttl := 86400 |}
                          [93; 184; 216; 34]];
     Dns.Ns := [Dns.RFC3597 {| Dns.Hdr_Name := "example.org."; Dns.Rrtype := 2;
                               Dns.Class := Dns.ClassINET; Dns.Ttl := 86400 |}
                            [1; 97; 0]];
     Dns.Extra := [] |}.

(** A network that records which upstream was contacted: the first times
    out, the second answers, any other hands back a nil response. *)
Definition logging_network (w : list string) (req : Dns.Msg) (upstream : string)
  : ExchangeResult * list string :=
  let w' := w ++ [upstream] in
  if String.eqb upstream "10.0.0.1:53" then ((None, Some "i/o timeout"), w')
  else if String.eqb upstream "10.0.0.2:53" then ((Some upstream_answer, None), w')
  else ((None, None), w').

Definition three_upstreams : Config :=
  config_of ["10.0.0.1:53"; "10.0.0.2:53"; "10.0.0.3:53"]
    [ {| D_Name := "test.com"; D_Records := [rec_a_first] |} ].

(** The same store with upstreams that all fail. *)
Definition failing_upstreams : Config :=
  config_of ["10.0.0.1:53"; "10.0.0.3:53"]
    [ {| D_Name := "test.com"; D_Records := [rec_a_first] |} ].

(** A store with a record named [*]. *)
Definition rec_star : DnsRecord :=
  {| R_Name := "*"; R_Type := "A"; R_Value := "10.0.0.9"; R_TTL := 30 |}.
Definition star_config : Config :=
  config_of ["10.0.0.1:53"; "10.0.0.2:53"]
    [ {| D_Name := "catch-all"; D_Records := [rec_star] |} ].

(** A second record for the sample manager. *)
Definition rec_b : DnsRecord :=
  {| R_Name := "b.test.com"; R_Type := "A"; R_Value := "1.1.1.2"; R_TTL := 60 |}.

Definition domain_test_com : Domain :=
  {| D_Name := "test.com"; D_Records := [rec_a_first] |}.

(** ** Vocabulary of the further properties *)

(** A network that keeps a record of every exchange, in order: which
    upstream was contacted and with which message.  What it answers may
    depend on everything exchanged before. *)
Definition recording
    (answer : list (string * Dns.Msg) -> string -> Dns.Msg -> ExchangeResult)
    (w : list (string * Dns.Msg)) (req : Dns.Msg) (upstream : string)
  : ExchangeResult * list (string * Dns.Msg) :=
  (answer w upstream req, w ++ [(upstream, req)]).

(** The query types the engine can answer. *)
Definition answerable (qtype : Z) : bool :=
  (qtype =? Dns.TypeA) || (qtype =? Dns.TypeAAAA)
  || (qtype =? Dns.TypeCNAME) || (qtype =? Dns.TypeTXT).

(** ** The record store: loading *)

(** What the file system and the decoders answer to the calls of one
    [Load]: [true] for a nil error. *)
Record LoadOutcome := {
  ReadFile_ok : bool;
  yaml_Unmarshal_ok : bool;
  UnmarshalKey_ok : bool
}.

(** The three errors of [Load], one constructor per message. *)
Inductive LoadError :=
| ErrReadFile
| ErrParseYAML
| ErrUnmarshalDomains.

(** [NewViperYAMLManager(v, configPath)]: an empty map around the viper
    instance (here the value it holds under [domains]) and the path (here
    the document behind it). *)
Definition NewViperYAMLManager (viperValue : list Domain) (doc : option (list Domain))
  : ViperYAMLManager :=
  {| domainMap := ∅; viperDomains := viperValue; document := doc |}.

(** The loop of [Load]: [m.domainMap[domain.Name] = domain] for every
    decoded domain in turn, starting from an empty map. *)
Definition build_domainMap (domains : list Domain) : gmap string Domain :=
  foldl (fun dm domain => <[D_Name domain := domain]> dm) ∅ domains.

(** [Load]: read the file, parse it, decode the value viper holds under
    [domains], and replace the map.  (The parsed node tree is stored in a
    field nothing else reads; it is left out.) *)
Definition Load (m : ViperYAMLManager) (io : LoadOutcome)
  : option LoadError * ViperYAMLManager :=
  if negb (ReadFile_ok io) then (Some ErrReadFile, m)
  else if negb (yaml_Unmarshal_ok io) then (Some ErrParseYAML, m)
  else if negb (UnmarshalKey_ok io) then (Some ErrUnmarshalDomains, m)
  else (None, with_domainMap m (build_domainMap (viperDomains m))).

(** A new process on a document: [conf.New] reads the document into a fresh
    viper and [NewViperYAMLManager] wraps it. *)
Definition fresh_manager (doc : list Domain) : ViperYAMLManager :=
  NewViperYAMLManager doc (Some doc).

Definition load_ok : LoadOutcome :=
  {| ReadFile_ok := true; yaml_Unmarshal_ok := true; UnmarshalKey_ok := true |}.

(** The five mutating calls of the store, as one type. *)
Inductive Mutation :=
| MAddOrUpdateDomain (domain : Domain)
| MDeleteDomain (domainName : string)
| MAddRecord (domainName : string) (record : DnsRecord)
| MUpdateRecord (domainName recordName : string) (newRecord : DnsRecord)
| MDeleteRecord (domainName recordName : string).

Definition mutate (m : ViperYAMLManager) (fs : FsOutcome) (mu : Mutation)
  : option StoreError * ViperYAMLManager :=
  match mu with
  | MAddOrUpdateDomain domain => AddOrUpdateDomain m fs domain
  | MDeleteDomain domainName => DeleteDomain m fs domainName
  | MAddRecord domainName record => AddRecord m fs domainName record
  | MUpdateRecord domainName recordName newRecord =>
      UpdateRecord m fs domainName recordName newRecord
  | MDeleteRecord domainName recordName => DeleteRecord m fs domainName recordName
  end.

(** Every domain is stored under its own name. *)
Definition keys_are_names (dm : gmap string Domain) : Prop :=
  forall key domain, dm !! key = Some domain -> D_Name domain = key.

(** No two records of a list share both name and type. *)
Definition pairs_unique (records : list DnsRecord) : Prop :=
  NoDup (map (fun r => (R_Name r, R_Type r)) records).

(** The zero value [Domain{}] that [GetDomain] returns with an error. *)
Definition zero_Domain : Domain := {| D_Name := ""; D_Records := [] |}.

(** In every stored domain, no two records share both name and type. *)
Definition stored_pairs_unique (dm : gmap string Domain) : Prop :=
  forall key domain, dm !! key = Some domain -> pairs_unique (D_Records domain).

(** The mutating calls that check or cannot break that uniqueness:
    [UpdateRecord] is not one of them, and [AddOrUpdateDomain] is one only
    for a domain that comes with distinct pairs. *)
Definition keeps_pairs_unique (mu : Mutation) : Prop :=
  match mu with
  | MAddOrUpdateDomain domain => pairs_unique (D_Records domain)
  | MUpdateRecord _ _ _ => False
  | MDeleteDomain _ | MAddRecord _ _ | MDeleteRecord _ _ => True
  end.

(** A manager with two records in one domain. *)
Definition two_records_manager : ViperYAMLManager :=
  {| domainMap :=
       {[ "test.com" := {| D_Name := "test.com"; D_Records := [rec_a_first; rec_b] |} ]};
     viperDomains := [ {| D_Name := "test.com"; D_Records := [rec_a_first; rec_b] |} ];
     document := Some [ {| D_Name := "test.com"; D_Records := [rec_a_first; rec_b] |} ] |}.

(** ** The management handlers ([internal/handler/dns], [internal/utils/resp])

    Every handler answers with HTTP status 200 and a JSON object
    [{code, data, message}]; the model keeps that object.  A handler reads
    path parameters, query parameters and the bound JSON body from the gin
    context; here they are arguments.  The logic layer between the handlers
    and the store passes every call through unchanged. *)

(** [strconv.Atoi] of the Go standard library, by its contract: an
    optional sign, then one or more decimal digits, and a value in the
    range of [int]; [None] for a non-nil error. *)
Fixpoint digits_value (s : string) (acc : Z) : option Z :=
  match s with
  | EmptyString => Some acc
  | String c s' =>
      if Net.between "0" "9" c then digits_value s' (acc * 10 + (Net.code c - 48))
      else None
  end.

Definition Atoi (s : string) : option Z :=
  let '(negative, body) :=
    match s with
    | String c rest =>
        if Ascii.eqb c "-" then (true, rest)
        else if Ascii.eqb c "+" then (false, rest)
        else (false, s)
    | EmptyString => (false, s)
    end in
  match body with
  | EmptyString => None
  | _ =>
      match digits_value body 0 with
      | None => None
      | Some n =>
          let v := if negative : bool then - n else n in
          if (min_int <=? v) && (v <=? max_int) then Some v else None
      end
  end.

(** The value of the [data] field; [NoData] is the empty string the
    helpers other than [RESP_DATA] put there. *)
Inductive Payload :=
| NoData
| DomainNames (items : list string) (total : Z)
| DomainPage (result : DomainListResult)
| OneDomain (domain : Domain)
| Records (items : list DnsRecord) (total : Z).

(** The value of the [message] field: a text, or the text of a store
    error ([err.Error()]). *)
Inductive Message :=
| Text (s : string)
| ErrorOf (e : StoreError).

Record Response := {
  resp_code : Z;
  resp_data : Payload;
  resp_message : Message
}.

(** The outcome of [c.ShouldBindJSON(&req)]. *)
Inductive Bind (A : Type) :=
| Bound (req : A)
| BindError (detail : string).
Arguments Bound {A} req.
Arguments BindError {A} detail.

Module Resp.

Definition RESP (code : Z) (data : Payload) (message : Message) : Response :=
  {| resp_code := code; resp_data := data; resp_message := message |}.
Definition RESP_DATA (data : Payload) : Response := RESP 200 data (Text "success").
Definition RESP_OK : Response := RESP 200 NoData (Text "OK").
Definition RESP_ERROR (code : Z) (message : Message) : Response := RESP code NoData message.
Definition RESP_PARAMS_ERROR (message : Message) : Response := RESP 400 NoData message.
Definition RESP_UNAUTHORIZED (message : Message) : Response := RESP 401 NoData message.

End Resp.

Definition StatusBadRequest : Z := 400.
Definition StatusUnauthorized : Z := 401.
Definition StatusNotFound : Z := 404.
Definition StatusInternalServerError : Z := 500.

Module Handler.

Definition QueryDomain (m : ViperYAMLManager) : Response :=
  let domains := ListDomains m in
  Resp.RESP_DATA (DomainNames domains (Z.of_nat (length domains))).

(** [c.DefaultQuery(key, default)]: the default only when the key is
    absent. *)
Definition DefaultQuery (value : option string) (defaultValue : string) : string :=
  match value with
  | Some v => v
  | None => defaultValue
  end.

Definition page_of (pageStr : string) : Z :=
  match Atoi pageStr with
  | Some page => if page <? 1 then 1 else page
  | None => 1
  end.

Definition pageSize_of (pageSizeStr : string) : Z :=
  match Atoi pageSizeStr with
  | Some pageSize => if (pageSize <? 1) || (100 <? pageSize) then 20 else pageSize
  | None => 20
  end.

Definition QueryDomainWithPagination (m : ViperYAMLManager) (page page_size : option string)
  : GoResult Response :=
  let pageStr := DefaultQuery page "1" in
  let pageSizeStr := DefaultQuery page_size "20" in
  let page := page_of pageStr in
  let pageSize := pageSize_of pageSizeStr in
  match ListDomainsWithPagination m page pageSize with
  | Panics => Panics
  | Returns (result, Some err) =>
      Returns (Resp.RESP_ERROR StatusInternalServerError (ErrorOf err))
  | Returns (result, None) => Returns (Resp.RESP_DATA (DomainPage result))
  end.

(** The same handler from the slice that [sort.Slice] left in the store
    call; [QueryDomainWithPagination] is the instance at
    [sort_Slice (domainInfos m)]. *)
Definition QueryDomainWithPagination_from (m : ViperYAMLManager) (infos : list DomainInfo)
    (page page_size : option string) : GoResult Response :=
  let pageStr := DefaultQuery page "1" in
  let pageSizeStr := DefaultQuery page_size "20" in
  let page := page_of pageStr in
  let pageSize := pageSize_of pageSizeStr in
  match ListDomainsWithPagination_from m infos page pageSize with
  | Panics => Panics
  | Returns (result, Some err) =>
      Returns (Resp.RESP_ERROR StatusInternalServerError (ErrorOf err))
  | Returns (result, None) => Returns (Resp.RESP_DATA (DomainPage result))
  end.

Definition GetDomain (m : ViperYAMLManager) (domainName : string) : Response :=
  if String.eqb domainName "" then Resp.RESP_PARAMS_ERROR (Text "域名参数不能为空")
  else
    match GetDomain m domainName with
    | (_, Some err) => Resp.RESP_ERROR StatusNotFound (ErrorOf err)
    | (domain, None) => Resp.RESP_DATA (OneDomain domain)
    end.

Definition CreateDomain (m : ViperYAMLManager) (fs : FsOutcome) (body : Bind Domain)
  : Response * ViperYAMLManager :=
  match body with
  | BindError detail =>
      (Resp.RESP_PARAMS_ERROR (Text ("请求参数格式错误: " +:+ detail)), m)
  | Bound req =>
      if String.eqb (D_Name req) "" then
        (Resp.RESP_PARAMS_ERROR (Text "域名名称不能为空"), m)
      else
        match AddOrUpdateDomain m fs req with
        | (Some err, m') => (Resp.RESP_ERROR StatusInternalServerError (ErrorOf err), m')
        | (None, m') => (Resp.RESP_OK, m')
        end
  end.

Definition DeleteDomain (m : ViperYAMLManager) (fs : FsOutcome) (domainName : string)
  : Response * ViperYAMLManager :=
  if String.eqb domainName "" then (Resp.RESP_PARAMS_ERROR (Text "域名参数不能为空"), m)
  else
    match DeleteDomain m fs domainName with
    | (Some err, m') => (Resp.RESP_ERROR StatusInternalServerError (ErrorOf err), m')
    | (None, m') => (Resp.RESP_OK, m')
    end.

Definition GetRecords (m : ViperYAMLManager) (domainName : string) : Response :=
  if String.eqb domainName "" then Resp.RESP_PARAMS_ERROR (Text "域名参数不能为空")
  else
    match GetRecords m domainName with
    | (_, Some err) => Resp.RESP_ERROR StatusNotFound (ErrorOf err)
    | (records, None) =>
        let items := match records with Some rs => rs | None => [] end in
        Resp.RESP_DATA (Records items (Z.of_nat (length items)))
    end.

Definition AddRecord (m : ViperYAMLManager) (fs : FsOutcome) (domainName : string)
    (body : Bind DnsRecord) : Response * ViperYAMLManager :=
  if String.eqb domainName "" then (Resp.RESP_PARAMS_ERROR (Text "域名参数不能为空"), m)
  else
    match body with
    | BindError detail =>
        (Resp.RESP_PARAMS_ERROR (Text ("请求参数格式错误: " +:+ detail)), m)
    | Bound req =>
        if String.eqb (R_Name req) "" || String.eqb (R_Type req) ""
           || String.eqb (R_Value req) ""
        then (Resp.RESP_PARAMS_ERROR (Text "记录名称、类型和值不能为空"), m)
        else
          match AddRecord m fs domainName req with
          | (Some err, m') => (Resp.RESP_ERROR StatusInternalServerError (ErrorOf err), m')
          | (None, m') => (Resp.RESP_OK, m')
          end
    end.

Definition UpdateRecord (m : ViperYAMLManager) (fs : FsOutcome)
    (domainName recordName : string) (body : Bind DnsRecord)
  : Response * ViperYAMLManager :=
  if String.eqb domainName "" || String.eqb recordName ""
  then (Resp.RESP_PARAMS_ERROR (Text "域名和记录名称参数不能为空"), m)
  else
    match body with
    | BindError detail =>
        (Resp.RESP_PARAMS_ERROR (Text ("请求参数格式错误: " +:+ detail)), m)
    | Bound req =>
        match UpdateRecord m fs domainName recordName req with
        | (Some err, m') => (Resp.RESP_ERROR StatusInternalServerError (ErrorOf err), m')
        | (None, m') => (Resp.RESP_OK, m')
        end
    end.

Definition DeleteRecord (m : ViperYAMLManager) (fs : FsOutcome)
    (domainName recordName : string) : Response * ViperYAMLManager :=
  if String.eqb domainName "" || String.eqb recordName ""
  then (Resp.RESP_PARAMS_ERROR (Text "域名和记录名称参数不能为空"), m)
  else
    match DeleteRecord m fs domainName recordName with
    | (Some err, m') => (Resp.RESP_ERROR StatusInternalServerError (ErrorOf err), m')
    | (None, m') => (Resp.RESP_OK, m')
    end.

(** The five mutating routes, as one type, and their handlers. *)
Inductive MutatingRequest :=
| PostDomain (body : Bind Domain)
| DeleteDomainRoute (domainName : string)
| PostRecord (domainName : string) (body : Bind DnsRecord)
| PutRecord (domainName recordName : string) (body : Bind DnsRecord)
| DeleteRecordRoute (domainName recordName : string).

Definition serve (m : ViperYAMLManager) (fs : FsOutcome) (request : MutatingRequest)
  : Response * ViperYAMLManager :=
  match request with
  | PostDomain body => CreateDomain m fs body
  | DeleteDomainRoute domainName => DeleteDomain m fs domainName
  | PostRecord domainName body => AddRecord m fs domainName body
  | PutRecord domainName recordName body => UpdateRecord m fs domainName recordName body
  | DeleteRecordRoute domainName recordName => DeleteRecord m fs domainName recordName
  end.

End Handler.

(** Every stored record has a name, a type and a value. *)
Definition record_filled (r : DnsRecord) : Prop :=
  R_Name r <> "" /\ R_Type r <> "" /\ R_Value r <> "".

Definition stored_records_filled (dm : gmap string Domain) : Prop :=
  forall key domain r, dm !! key = Some domain -> In r (D_Records domain) -> record_filled r.

Definition empty_record : DnsRecord :=
  {| R_Name := ""; R_Type := ""; R_Value := ""; R_TTL := 0 |}.

(** ** The authentication middleware ([internal/middleware/auth.go])

    The middleware reads the [Authorization] header ([c.GetHeader] gives
    the empty string when the header is absent) and either answers itself
    and aborts the chain, or stores the user of the token in the context
    and lets the next handler run. *)
Record CustomClaims := {
  UserID : string;
  Username : string
}.

Inductive AuthOutcome :=
| Abort (resp : Response)
| Next (user_id username : string).

Definition bearerPrefix : string := "Bearer ".

Section Middleware.

(** [ctx.JWT.ValidateAccessToken]: the claims of the token, or the text of
    the error. *)
Variable ValidateAccessToken : string -> CustomClaims + string.

Definition Auth (authHeader : string) : AuthOutcome :=
  if String.eqb authHeader "" then
    Abort (Resp.RESP_UNAUTHORIZED (Text "authorization failed"))
  else if (String.length authHeader <? String.length bearerPrefix)%nat
          || negb (Strings.HasPrefix authHeader bearerPrefix) then
    Abort (Resp.RESP_UNAUTHORIZED
             (Text "The token format is incorrect (need: Bearer <token>)."))
  else
    let tokenStr := Strings.slice_from (String.length bearerPrefix) authHeader in
    match ValidateAccessToken tokenStr with
    | inr err => Abort (Resp.RESP_UNAUTHORIZED (Text err))
    | inl claims => Next (UserID claims) (Username claims)
    end.

End Middleware.

(** A validator that accepts one token. *)
Definition one_token (tokenStr : string) : CustomClaims + string :=
  if String.eqb tokenStr "t0"
  then inl {| UserID := "1"; Username := "admin" |}
  else inr "token 格式错误".

(** * Properties *)

(** ** The library models on sample inputs *)

Example ParseIP_v4 : Net.ParseIP "192.168.1.1" = Some (Net.IPv4 192 168 1 1).
Proof. reflexivity. Qed.
Example ParseIP_v4_bad : Net.ParseIP "192.168.1.256" = None.
Proof. reflexivity. Qed.
Example ParseIP_v4_lead : Net.ParseIP "192.168.01.1" = None.
Proof. reflexivity. Qed.
Example ParseIP_v6 : Net.ParseIP "2001:db8::1" = Some [32;1;13;184;0;0;0;0;0;0;0;0;0;0;0;1].
Proof. reflexivity. Qed.
Example ParseIP_v6_any : Net.ParseIP "::" = Some (replicate 16 0).
Proof. reflexivity. Qed.
Example ParseIP_v6_full : Net.ParseIP "1:2:3:4:5:6:7:8" = Some [0;1;0;2;0;3;0;4;0;5;0;6;0;7;0;8].
Proof. reflexivity. Qed.
Example ParseIP_v6_long : Net.ParseIP "1:2:3:4:5:6:7:8:9" = None.
Proof. reflexivity. Qed.
Example ParseIP_v6_mapped : Net.ParseIP "::ffff:1.2.3.4" = Some (Net.IPv4 1 2 3 4).
Proof. reflexivity. Qed.
Example ParseIP_v6_two : Net.ParseIP "1::2::3" = None.
Proof. reflexivity. Qed.
Example ParseIP_v6_tail : Net.ParseIP "fe80::" = Some [254;128;0;0;0;0;0;0;0;0;0;0;0;0;0;0].
Proof. reflexivity. Qed.
Example ParseIP_name : Net.ParseIP "localhost" = None.
Proof. reflexivity. Qed.
Example ParseIP_v6_full_ell : Net.ParseIP "1:2:3:4:5:6:7::8" = None.
Proof. reflexivity. Qed.
Example ParseIP_v6_four_digits : Net.ParseIP "::0001" = Some [0;0;0;0;0;0;0;0;0;0;0;0;0;0;0;1].
Proof. reflexivity. Qed.
Example ParseIP_v6_five_digits : Net.ParseIP "::00001" = None.
Proof. reflexivity. Qed.
Example ParseIP_v6_five_digits_mapped : Net.ParseIP "::0ffff:1.2.3.4" = None.
Proof. reflexivity. Qed.
Example ParseIP_v6_zone : Net.ParseIP "fe80::1%eth0" = None.
Proof. reflexivity. Qed.
Example Match_exact : Match "WWW.Test.com." "www.test.com" = true.
Proof. reflexivity. Qed.
Example Match_wild : Match "a.b.test.com." "*.test.com" = true.
Proof. reflexivity. Qed.
Example Match_other : Match "a.test.org." "*.test.com" = false.
Proof. reflexivity. Qed.
Example normalize_one_dot : normalize "Test.COM.." = "test.com.".
Proof. reflexivity. Qed.

(** ** Byte strings *)

Section StringFacts.

Implicit Types s t p : string.

Lemma app_cons c s t : String c s +:+ t = String c (s +:+ t).
Proof. reflexivity. Qed.

Lemma app_empty_r s : s +:+ "" = s.
Proof. induction s as [|c s IH]; [reflexivity|]. now rewrite app_cons, IH. Qed.

Lemma string_length_app s t :
  String.length (s +:+ t) = (String.length s + String.length t)%nat.
Proof. induction s as [|c s IH]; [reflexivity|]. rewrite app_cons. simpl. now rewrite IH. Qed.

Lemma slice_from_app p s : Strings.slice_from (String.length p) (p +:+ s) = s.
Proof. induction p as [|c p IH]; [now destruct s|]. rewrite app_cons. exact IH. Qed.

Lemma slice_to_app p s : Strings.slice_to (String.length p) (p +:+ s) = p.
Proof.
  induction p as [|c p IH]; [now destruct s|].
  rewrite app_cons. simpl. now rewrite IH.
Qed.

Lemma slice_to_from n s : Strings.slice_to n s +:+ Strings.slice_from n s = s.
Proof.
  revert s. induction n as [|n IH]; intros [|c s]; try reflexivity.
  simpl. now rewrite app_cons, IH.
Qed.

Lemma length_slice_from n s :
  String.length (Strings.slice_from n s) = (String.length s - n)%nat.
Proof. revert s. induction n as [|n IH]; intros [|c s]; simpl; auto. Qed.

(** [HasSuffix] is the plain suffix relation on byte strings. *)
Lemma HasSuffix_spec s suffix :
  Strings.HasSuffix s suffix = true <-> exists p, s = p +:+ suffix.
Proof.
  unfold Strings.HasSuffix. rewrite andb_true_iff, Nat.leb_le, String.eqb_eq. split.
  - intros [_ Hs]. exists (Strings.slice_to (String.length s - String.length suffix) s).
    rewrite <- (slice_to_from (String.length s - String.length suffix) s) at 1.
    now rewrite Hs.
  - intros [p ->]. rewrite string_length_app. split; [lia|].
    replace (String.length p + String.length suffix - String.length suffix)%nat
      with (String.length p) by lia.
    apply slice_from_app.
Qed.

Lemma HasSuffix_false s suffix :
  Strings.HasSuffix s suffix = false <-> ~ exists p, s = p +:+ suffix.
Proof. rewrite <- HasSuffix_spec. now destruct (Strings.HasSuffix s suffix). Qed.

Lemma HasPrefix_spec s prefix :
  Strings.HasPrefix s prefix = true <-> exists t, s = prefix +:+ t.
Proof.
  unfold Strings.HasPrefix. rewrite andb_true_iff, Nat.leb_le, String.eqb_eq. split.
  - intros [_ Hs]. exists (Strings.slice_from (String.length prefix) s).
    rewrite <- (slice_to_from (String.length prefix) s) at 1.
    now rewrite Hs.
  - intros [t ->]. rewrite string_length_app. split; [lia|]. apply slice_to_app.
Qed.

Lemma HasPrefix_star s :
  Strings.HasPrefix s "*" = true <-> exists t, s = String "*" t.
Proof. rewrite HasPrefix_spec. split; intros [t ->]; now exists t. Qed.

Lemma HasSuffix_empty s : Strings.HasSuffix s "" = true.
Proof. apply HasSuffix_spec. exists s. now rewrite app_empty_r. Qed.

(** [TrimSuffix] removes the suffix once, and only when it is there. *)
Lemma TrimSuffix_app p suffix : Strings.TrimSuffix (p +:+ suffix) suffix = p.
Proof.
  unfold Strings.TrimSuffix.
  replace (Strings.HasSuffix (p +:+ suffix) suffix) with true
    by (symmetry; apply HasSuffix_spec; now exists p).
  rewrite string_length_app.
  replace (String.length p + String.length suffix - String.length suffix)%nat
    with (String.length p) by lia.
  apply slice_to_app.
Qed.

Lemma TrimSuffix_none s suffix :
  (~ exists p, s = p +:+ suffix) -> Strings.TrimSuffix s suffix = s.
Proof. intros H. apply HasSuffix_false in H. unfold Strings.TrimSuffix. now rewrite H. Qed.

Lemma lower_byte_star c : Strings.lower_byte c = "*"%char <-> c = "*"%char.
Proof.
  split; [|now intros ->].
  destruct c as [[] [] [] [] [] [] [] []]; vm_compute; congruence.
Qed.

End StringFacts.

Lemma HasPrefix_star_cons c s : Strings.HasPrefix (String c s) "*" = Ascii.eqb c "*".
Proof.
  unfold Strings.HasPrefix. simpl.
  now destruct (Ascii.eqb c "*").
Qed.

Lemma eqb_lower_byte_star c : Ascii.eqb (Strings.lower_byte c) "*" = Ascii.eqb c "*".
Proof.
  destruct (Ascii.eqb_spec c "*") as [->|Hc]; [reflexivity|].
  apply Ascii.eqb_neq. now rewrite lower_byte_star.
Qed.

Lemma Match_exact_true qname rule :
  normalize qname = normalize rule -> Match qname rule = true.
Proof. intros H. unfold Match. rewrite H. now rewrite String.eqb_refl. Qed.

Lemma Match_star_iff qname rule rest :
  normalize rule = String "*" rest ->
  Match qname rule = true <-> exists pre, normalize qname = pre +:+ rest.
Proof.
  intros Hr. unfold Match. rewrite Hr.
  destruct (String.eqb_spec (normalize qname) (String "*" rest)) as [He|_].
  - split; [intros _|reflexivity]. exists "*". now rewrite He.
  - rewrite HasPrefix_star_cons. simpl. apply HasSuffix_spec.
Qed.

Lemma Match_refl name : Match name name = true.
Proof. now apply Match_exact_true. Qed.

(** *** The matcher over the library's lower-casing *)

Lemma ToLower_lowers_like_the_library : lowers_like_the_library Strings.ToLower.
Proof.
  split; [reflexivity|]. split; [reflexivity|].
  intros [|c s]; [reflexivity|]. simpl.
  now rewrite !HasPrefix_star_cons, eqb_lower_byte_star.
Qed.

Lemma Match_with_ToLower qname rule : Match_with Strings.ToLower qname rule = Match qname rule.
Proof. reflexivity. Qed.

(** Stripping the trailing dot neither creates nor removes a leading
    star. *)
Lemma HasPrefix_star_TrimSuffix rule :
  Strings.HasPrefix (Strings.TrimSuffix rule ".") "*" = Strings.HasPrefix rule "*".
Proof.
  destruct (Strings.HasSuffix rule ".") eqn:Hs.
  - apply HasSuffix_spec in Hs as [[|c p] ->]; [reflexivity|].
    rewrite TrimSuffix_app, app_cons. now rewrite !HasPrefix_star_cons.
  - unfold Strings.TrimSuffix. now rewrite Hs.
Qed.

Lemma isASCII_slice_to n s : Strings.isASCII s = true -> Strings.isASCII (Strings.slice_to n s) = true.
Proof.
  revert s. induction n as [|n IH]; intros [|c s]; simpl; auto.
  intros [Hc Hs]%andb_true_iff. rewrite Hc. now apply IH.
Qed.

Lemma isASCII_TrimSuffix s suffix :
  Strings.isASCII s = true -> Strings.isASCII (Strings.TrimSuffix s suffix) = true.
Proof.
  intros Hs. unfold Strings.TrimSuffix.
  destruct (Strings.HasSuffix s suffix); [now apply isASCII_slice_to|exact Hs].
Qed.

Section LoweringFacts.

Variable ToLower : string -> string.
Hypothesis Hlib : lowers_like_the_library ToLower.

(** On a string of ASCII bytes the library's function is the byte-wise
    one. *)
Lemma ToLower_ascii s : Strings.isASCII s = true -> ToLower s = Strings.ToLower s.
Proof.
  destruct Hlib as [Hempty [Hhead _]].
  induction s as [|c s IH]; simpl; [now intros _|].
  intros [Hc Hs]%andb_true_iff. now rewrite (Hhead c s Hc), (IH Hs).
Qed.

Lemma normalize_with_ascii s :
  Strings.isASCII s = true -> normalize_with ToLower s = normalize s.
Proof. intros Hs. unfold normalize_with, normalize. now apply ToLower_ascii, isASCII_TrimSuffix. Qed.

Lemma Match_with_ascii qname rule :
  Strings.isASCII qname = true -> Strings.isASCII rule = true ->
  Match_with ToLower qname rule = Match qname rule.
Proof.
  intros Hq Hr. unfold Match_with, Match.
  now rewrite (normalize_with_ascii qname Hq), (normalize_with_ascii rule Hr).
Qed.

Lemma normalize_with_dot s : normalize_with ToLower (s +:+ ".") = ToLower s.
Proof. unfold normalize_with. now rewrite TrimSuffix_app. Qed.

Lemma normalize_with_nodot s :
  Strings.HasSuffix s "." = false -> normalize_with ToLower s = ToLower s.
Proof. intros H. unfold normalize_with, Strings.TrimSuffix. now rewrite H. Qed.

Lemma normalize_with_keeps_star rule :
  Strings.HasPrefix (normalize_with ToLower rule) "*" = Strings.HasPrefix rule "*".
Proof.
  destruct Hlib as [_ [_ Hstar]]. unfold normalize_with.
  now rewrite Hstar, HasPrefix_star_TrimSuffix.
Qed.

Lemma Match_with_exact_true qname rule :
  normalize_with ToLower qname = normalize_with ToLower rule ->
  Match_with ToLower qname rule = true.
Proof. intros H. unfold Match_with. rewrite H. now rewrite String.eqb_refl. Qed.

Lemma Match_with_star_iff qname rule rest :
  normalize_with ToLower rule = String "*" rest ->
  Match_with ToLower qname rule = true <->
  exists pre, normalize_with ToLower qname = pre +:+ rest.
Proof.
  intros Hr. unfold Match_with. rewrite Hr.
  destruct (String.eqb_spec (normalize_with ToLower qname) (String "*" rest)) as [He|_].
  - split; [intros _|reflexivity]. exists "*". now rewrite He.
  - rewrite HasPrefix_star_cons. simpl. apply HasSuffix_spec.
Qed.

Lemma Match_with_other_false qname rule :
  normalize_with ToLower qname <> normalize_with ToLower rule ->
  Strings.HasPrefix rule "*" = false ->
  Match_with ToLower qname rule = false.
Proof.
  intros Hne Hp. unfold Match_with.
  apply String.eqb_neq in Hne. rewrite Hne.
  now rewrite normalize_with_keeps_star, Hp.
Qed.

End LoweringFacts.

(** C5.  For every lower-casing function that behaves as the library's
    [strings.ToLower] does ([lowers_like_the_library]; on ASCII names it is
    then the byte-wise one, and the matcher is [Match]), and for every pair
    of names: [Match] lower-cases both names and strips one trailing dot
    from each; it is true when the normalised names are equal; when the
    rule starts with a star it is true exactly when the normalised query
    name ends with what follows the star, as a plain byte-string suffix
    with no regard for label boundaries (so [evilfoo.test.com] matches the
    rule [*foo.test.com], in any letter case); in every other case it is
    false. *)
Theorem C5_Match_semantics :
  forall (ToLower : string -> string) (qname rule : string),
    lowers_like_the_library ToLower ->
    (forall s, normalize_with ToLower (s +:+ ".") = ToLower s) /\
    (forall s, Strings.HasSuffix s "." = false -> normalize_with ToLower s = ToLower s) /\
    (forall s, Strings.isASCII s = true -> ToLower s = Strings.ToLower s) /\
    (Strings.isASCII qname = true -> Strings.isASCII rule = true ->
       Match_with ToLower qname rule = Match qname rule) /\
    (normalize_with ToLower qname = normalize_with ToLower rule ->
       Match_with ToLower qname rule = true) /\
    (Strings.HasPrefix rule "*" = true ->
       exists rest, normalize_with ToLower rule = String "*" rest /\
         (Match_with ToLower qname rule = true <->
          exists pre, normalize_with ToLower qname = pre +:+ rest)) /\
    (normalize_with ToLower qname <> normalize_with ToLower rule ->
       Strings.HasPrefix rule "*" = false ->
       Match_with ToLower qname rule = false) /\
    Match_with ToLower "evilfoo.test.com" "*foo.test.com" = true /\
    Match_with ToLower "EvilFoo.Test.COM." "*FOO.test.com" = true /\
    Match_with ToLower "WWW.Example.COM." "www.example.com" = true /\
    Match_with ToLower "a.test.org" "*.test.com" = false.
Proof.
  intros ToLower qname rule Hlib.
  split; [apply normalize_with_dot|].
  split; [apply normalize_with_nodot|].
  split; [now apply ToLower_ascii|].
  split; [now apply Match_with_ascii|].
  split; [apply Match_with_exact_true|].
  split.
  { intros Hp. rewrite <- (normalize_with_keeps_star ToLower Hlib) in Hp.
    apply HasPrefix_star in Hp as [rest Hrest].
    exists rest. split; [exact Hrest|]. now apply Match_with_star_iff. }
  split; [now apply Match_with_other_false|].
  repeat split; rewrite (Match_with_ascii ToLower Hlib) by reflexivity; reflexivity.
Qed.

Lemma Match_star qname : Match qname "*" = true.
Proof.
  apply (Match_star_iff qname "*" ""); [reflexivity|].
  exists (normalize qname). now rewrite app_empty_r.
Qed.

(** ** The engine on a configured name *)

Lemma IsDomainConfigured_true c qname :
  IsDomainConfigured c qname = true <->
  exists d r, In d (Domains c) /\ In r (D_Records d) /\ Match qname (R_Name r) = true.
Proof.
  unfold IsDomainConfigured, GetDomains. rewrite existsb_exists. split.
  - intros [d [Hd Hr]]. apply existsb_exists in Hr as [r [Hr Hm]]. now exists d, r.
  - intros [d [r [Hd [Hr Hm]]]]. exists d. split; [exact Hd|].
    apply existsb_exists. now exists r.
Qed.

Lemma HandleRequest_configured {World} (Exchange : World -> Dns.Msg -> string -> ExchangeResult * World)
    c w req question rest :
  Dns.Questions req = question :: rest ->
  IsDomainConfigured c (Dns.Name question) = true ->
  HandleRequest Exchange c w req = (local_reply c req question, w).
Proof.
  intros Hq Hc. unfold HandleRequest, local_reply. rewrite Hq, Hc.
  destruct (FindRecord c (Dns.Name question) (Dns.Qtype question)) as [record|];
    [|reflexivity].
  now destruct (synthesize (Dns.Name question) (Dns.Qtype question) record).
Qed.

Lemma HandleRequest_no_question {World} (Exchange : World -> Dns.Msg -> string -> ExchangeResult * World)
    c w req :
  Dns.Questions req = [] -> HandleRequest Exchange c w req = (reply_start req, w).
Proof. intros Hq. unfold HandleRequest. now rewrite Hq. Qed.

Lemma local_reply_Rcode c req question :
  Dns.Rcode (local_reply c req question) = Dns.RcodeSuccess.
Proof.
  unfold local_reply.
  destruct (FindRecord c (Dns.Name question) (Dns.Qtype question)) as [record|];
    [|reflexivity].
  now destruct (synthesize (Dns.Name question) (Dns.Qtype question) record).
Qed.

(** C10.  [Match qname "*"] is true for every query name: the text after
    the star is empty and every string ends with the empty string.  So one
    stored record named [*] makes [IsDomainConfigured] true for every query
    name, and [HandleRequest] then never exchanges with an upstream: the
    network state is returned as it was and the reply does not depend on
    the network at all. *)
Theorem C10_star_record_captures_every_name :
  forall (World : Type) (Exchange : World -> Dns.Msg -> string -> ExchangeResult * World)
         (c : Config) (d : Domain) (r : DnsRecord),
    In d (Domains c) -> In r (D_Records d) -> R_Name r = "*" ->
    (forall qname, Match qname "*" = true) /\
    (forall qname, IsDomainConfigured c qname = true) /\
    (forall (w : World) (req : Dns.Msg),
        snd (HandleRequest Exchange c w req) = w /\
        forall Exchange' : World -> Dns.Msg -> string -> ExchangeResult * World,
          HandleRequest Exchange' c w req = HandleRequest Exchange c w req).
Proof.
  intros World Exchange c d r Hd Hr Hname.
  assert (Hconf : forall qname, IsDomainConfigured c qname = true).
  { intros qname. apply IsDomainConfigured_true. exists d, r.
    rewrite Hname. auto using Match_star. }
  split; [exact Match_star|]. split; [exact Hconf|].
  intros w req. destruct (Dns.Questions req) as [|question rest] eqn:Hq.
  - split; [now rewrite HandleRequest_no_question|].
    intros E'. now rewrite !HandleRequest_no_question.
  - split; [now rewrite (HandleRequest_configured _ _ _ _ _ _ Hq (Hconf _))|].
    intros E'. now rewrite !(HandleRequest_configured _ _ _ _ _ _ Hq (Hconf _)).
Qed.

(** ** Forwarding *)

Section Forwarding.

Context {World : Type}.
Variable Exchange : World -> Dns.Msg -> string -> ExchangeResult * World.

Lemma ForwardRequest_loop_first_success pre u post w req w1 resp w2 :
  all_fail Exchange pre w req = Some w1 ->
  Exchange w1 (Dns.Copy req) u = ((Some resp, None), w2) ->
  ForwardRequest_loop Exchange (pre ++ u :: post) w req = ((Some resp, None), w2).
Proof.
  revert w. induction pre as [|p pre IH]; intros w Hpre Hu; simpl in *.
  - injection Hpre as ->. now rewrite Hu.
  - destruct (Exchange w (Dns.Copy req) p) as [[[r|] [e|]] w'];
      simpl in *; try discriminate; now apply IH.
Qed.

Lemma ForwardRequest_loop_all_fail ups w req w' :
  all_fail Exchange ups w req = Some w' ->
  exists e, ForwardRequest_loop Exchange ups w req = ((None, Some e), w').
Proof.
  revert w. induction ups as [|u ups IH]; intros w Hall; simpl in *.
  - injection Hall as ->. eauto.
  - destruct (Exchange w (Dns.Copy req) u) as [[[r|] [e|]] w1];
      simpl in *; try discriminate; now apply IH.
Qed.

(** Every run of the loop is of one of the two kinds. *)
Lemma all_fail_or_first_success ups w req :
  (exists w', all_fail Exchange ups w req = Some w') \/
  (exists pre u post w1 resp w2,
      ups = pre ++ u :: post /\
      all_fail Exchange pre w req = Some w1 /\
      Exchange w1 (Dns.Copy req) u = ((Some resp, None), w2)).
Proof.
  revert w. induction ups as [|u ups IH]; intros w; [left; now exists w|].
  destruct (Exchange w (Dns.Copy req) u) as [[r e] w1] eqn:Hu.
  assert (Hfail : failed (r, e) = true ->
    (exists w', all_fail Exchange (u :: ups) w req = Some w') \/
    (exists pre u0 post w0 resp w2,
        u :: ups = pre ++ u0 :: post /\
        all_fail Exchange pre w req = Some w0 /\
        Exchange w0 (Dns.Copy req) u0 = ((Some resp, None), w2))).
  { intros Hf. destruct (IH w1) as [[w' Hall]|(pre & u0 & post & w0 & resp & w2 & -> & Hpre & Hu0)].
    - left. exists w'. simpl. now rewrite Hu, Hf.
    - right. exists (u :: pre), u0, post, w0, resp, w2. split; [reflexivity|].
      split; [|exact Hu0]. simpl. now rewrite Hu, Hf. }
  destruct e as [e|]; [now apply Hfail; destruct r|].
  destruct r as [resp|]; [|now apply Hfail].
  right. exists [], u, ups, w, resp, w1. auto.
Qed.

Lemma HandleRequest_forwarded c w req question rest :
  Dns.Questions req = question :: rest ->
  IsDomainConfigured c (Dns.Name question) = false ->
  HandleRequest Exchange c w req =
    match ForwardRequest Exchange c w req with
    | ((Some r, None), w') =>
        (Dns.set_Rcode
           (Dns.set_Extra
              (Dns.set_Ns (Dns.set_Answer (reply_start req) (Dns.Answer r)) (Dns.Ns r))
              (Dns.Extra r))
           (Dns.Rcode r), w')
    | (_, w') =>
        (Dns.set_RecursionAvailable
           (Dns.SetRcode (reply_start req) req Dns.RcodeServerFailure) false, w')
    end.
Proof.
  intros Hq Hc. unfold HandleRequest. rewrite Hq, Hc.
  destruct (ForwardRequest Exchange c w req) as [[[r|] [e|]] w']; reflexivity.
Qed.

End Forwarding.

(** C4.  For a query whose name is not locally configured, the upstreams
    are tried in the configured order, each with a clone of the query.
    When the upstreams before [u] all fail and [u] answers with a non-nil
    response and no error, the loop stops at [u] (the network state is the
    one right after that exchange) and the reply carries the response's
    answer, authority and additional sections and its response code
    unchanged.  When every upstream fails, the reply has the server-failure
    code and recursion-available false.  Every run is of one of the two
    kinds. *)
Theorem C4_forwarding_failover :
  forall (World : Type) (Exchange : World -> Dns.Msg -> string -> ExchangeResult * World)
         (c : Config) (w : World) (req : Dns.Msg) (question : Dns.Question)
         (rest : list Dns.Question),
    Dns.Questions req = question :: rest ->
    IsDomainConfigured c (Dns.Name question) = false ->
    (forall pre u post w1 resp w2,
        GetUpstream c = pre ++ u :: post ->
        all_fail Exchange pre w req = Some w1 ->
        Exchange w1 (Dns.Copy req) u = ((Some resp, None), w2) ->
        ForwardRequest Exchange c w req = ((Some resp, None), w2) /\
        snd (HandleRequest Exchange c w req) = w2 /\
        Dns.Answer (fst (HandleRequest Exchange c w req)) = Dns.Answer resp /\
        Dns.Ns (fst (HandleRequest Exchange c w req)) = Dns.Ns resp /\
        Dns.Extra (fst (HandleRequest Exchange c w req)) = Dns.Extra resp /\
        Dns.Rcode (fst (HandleRequest Exchange c w req)) = Dns.Rcode resp) /\
    (forall w',
        all_fail Exchange (GetUpstream c) w req = Some w' ->
        snd (HandleRequest Exchange c w req) = w' /\
        Dns.Rcode (fst (HandleRequest Exchange c w req)) = Dns.RcodeServerFailure /\
        Dns.RecursionAvailable (fst (HandleRequest Exchange c w req)) = false) /\
    ((exists w', all_fail Exchange (GetUpstream c) w req = Some w') \/
     (exists pre u post w1 resp w2,
        GetUpstream c = pre ++ u :: post /\
        all_fail Exchange pre w req = Some w1 /\
        Exchange w1 (Dns.Copy req) u = ((Some resp, None), w2))).
Proof.
  intros World Exchange c w req question rest Hq Hc.
  pose proof (HandleRequest_forwarded Exchange c w req question rest Hq Hc) as Hh.
  split; [|split].
  - intros pre u post w1 resp w2 Hups Hpre Hu.
    assert (Hf : ForwardRequest Exchange c w req = ((Some resp, None), w2)).
    { unfold ForwardRequest. rewrite Hups.
      eapply ForwardRequest_loop_first_success; eauto. }
    rewrite Hf in Hh. rewrite Hh. simpl. auto 10.
  - intros w' Hall.
    destruct (ForwardRequest_loop_all_fail Exchange _ _ _ _ Hall) as [e Hf].
    fold (ForwardRequest Exchange c w req) in Hf.
    rewrite Hf in Hh. rewrite Hh. simpl. auto.
  - apply all_fail_or_first_success.
Qed.

(** ** [FindRecord]: the search order *)

Lemma find_none_iff {A} (f : A -> bool) (l : list A) :
  find f l = None <-> forall x, In x l -> f x = false.
Proof.
  induction l as [|y l IH]; simpl; [now split|].
  destruct (f y) eqn:Hy; split.
  - discriminate.
  - intros H. specialize (H y (or_introl eq_refl)). congruence.
  - intros Hn x [<-|Hx]; [exact Hy|]. now apply IH.
  - intros H. apply IH. auto.
Qed.

Lemma find_first_hit {A} (f : A -> bool) (before after : list A) (x : A) :
  (forall y, In y before -> f y = false) -> f x = true ->
  find f (before ++ x :: after) = Some x.
Proof.
  intros Hb Hx. induction before as [|y before IH]; simpl.
  - now rewrite Hx.
  - rewrite (Hb y (or_introl eq_refl)). apply IH. intros z Hz. apply Hb. now right.
Qed.

(** Domains none of whose records passes either test are passed over. *)
Lemma FindRecord_domains_skip pre domains qname qtype :
  (forall d r, In d pre -> In r (D_Records d) ->
     exact_hit qname qtype r = false /\ wildcard_hit qname qtype r = false) ->
  FindRecord_domains (pre ++ domains) qname qtype = FindRecord_domains domains qname qtype.
Proof.
  intros Hpre. induction pre as [|d pre IH]; [reflexivity|]. simpl.
  replace (find (exact_hit qname qtype) (D_Records d)) with (@None DnsRecord).
  2:{ symmetry. apply find_none_iff. intros r Hr. now apply (Hpre d r); [left|]. }
  replace (find (wildcard_hit qname qtype) (D_Records d)) with (@None DnsRecord).
  2:{ symmetry. apply find_none_iff. intros r Hr. now apply (Hpre d r); [left|]. }
  apply IH. intros d' r Hd. apply Hpre. now right.
Qed.

(** A record found is a record of the store that passed one of the tests. *)
Lemma FindRecord_domains_sound domains qname qtype record :
  FindRecord_domains domains qname qtype = Some record ->
  exists d, In d domains /\ In record (D_Records d) /\
    (exact_hit qname qtype record = true \/ wildcard_hit qname qtype record = true).
Proof.
  induction domains as [|d domains IH]; [discriminate|]. simpl.
  destruct (find (exact_hit qname qtype) (D_Records d)) as [r|] eqn:He.
  - intros [= ->]. apply find_some in He as [Hin Hhit]. exists d. auto.
  - destruct (find (wildcard_hit qname qtype) (D_Records d)) as [r|] eqn:Hw.
    + intros [= ->]. apply find_some in Hw as [Hin Hhit]. exists d. auto.
    + intros H. destruct (IH H) as [d' [Hd' Hr]]. exists d'. auto.
Qed.

Lemma exact_type_matches_true rtype qtype :
  exact_type_matches rtype qtype = true <->
  (rtype = "A" /\ qtype = Dns.TypeA) \/ (rtype = "AAAA" /\ qtype = Dns.TypeAAAA) \/
  (rtype = "CNAME" /\ qtype = Dns.TypeCNAME) \/ (rtype = "TXT" /\ qtype = Dns.TypeTXT).
Proof.
  unfold exact_type_matches.
  destruct (String.eqb_spec rtype "A") as [->|HA].
  { rewrite Z.eqb_eq. intuition congruence. }
  destruct (String.eqb_spec rtype "AAAA") as [->|HAAAA].
  { rewrite Z.eqb_eq. intuition congruence. }
  destruct (String.eqb_spec rtype "CNAME") as [->|HC].
  { rewrite Z.eqb_eq. intuition congruence. }
  destruct (String.eqb_spec rtype "TXT") as [->|HT].
  { rewrite Z.eqb_eq. intuition congruence. }
  intuition congruence.
Qed.

Lemma wildcard_type_matches_true rtype qtype :
  wildcard_type_matches rtype qtype = true <->
  (rtype = "A" /\ qtype = Dns.TypeA) \/ (rtype = "AAAA" /\ qtype = Dns.TypeAAAA).
Proof.
  unfold wildcard_type_matches.
  destruct (String.eqb_spec rtype "A") as [->|HA].
  { rewrite Z.eqb_eq. intuition congruence. }
  destruct (String.eqb_spec rtype "AAAA") as [->|HAAAA].
  { rewrite Z.eqb_eq. intuition congruence. }
  intuition congruence.
Qed.

(** Whatever [FindRecord] returns has the type the query asks for. *)
Lemma FindRecord_type c qname qtype record :
  FindRecord c qname qtype = Some record ->
  exact_type_matches (R_Type record) qtype = true.
Proof.
  intros H. apply FindRecord_domains_sound in H as [d [_ [_ [H|H]]]].
  - unfold exact_hit in H. now apply andb_true_iff in H.
  - unfold wildcard_hit in H. apply andb_true_iff in H as [_ H].
    apply wildcard_type_matches_true in H. apply exact_type_matches_true. tauto.
Qed.

(** The wildcard pass answers [A] and [AAAA] queries only. *)
Lemma wildcard_hit_types qname qtype record :
  wildcard_hit qname qtype record = true ->
  qtype = Dns.TypeA \/ qtype = Dns.TypeAAAA.
Proof.
  unfold wildcard_hit. rewrite andb_true_iff, wildcard_type_matches_true. tauto.
Qed.

(** ** Answers from the store *)

Lemma exact_hit_self r v t :
  exact_hit r Dns.TypeA {| R_Name := r; R_Type := "A"; R_Value := v; R_TTL := t |} = true.
Proof. unfold exact_hit. simpl. now rewrite String.eqb_refl. Qed.

Lemma uint32_id t : 0 <= t < 2 ^ 32 -> uint32 t = t.
Proof. intros H. unfold uint32. now apply Z.mod_small. Qed.

(** C1, as the code has it.  An [A] record [name=r, value=v, ttl=t] whose
    value parses to an address with a 4-byte form answers the query
    [(r, A)] when it is the first record the search reaches: no record of
    an earlier domain passes the exact or the wildcard test, and no
    earlier record of its own domain passes the exact test.  The reply
    then holds exactly one answer, of type [A], with name [r], the parsed
    address and TTL [uint32(t)], which is [t] for [0 <= t < 2^32]. *)
Theorem C1_first_A_record_answers :
  forall (World : Type) (Exchange : World -> Dns.Msg -> string -> ExchangeResult * World)
         (c : Config) (w : World) (req : Dns.Msg) (qclass : Z) (rest : list Dns.Question)
         (r v : string) (t : Z) (ip ip4 : Net.IP)
         (pre post : list Domain) (d : Domain) (before after : list DnsRecord),
    Dns.Questions req =
      {| Dns.Name := r; Dns.Qtype := Dns.TypeA; Dns.Qclass := qclass |} :: rest ->
    Domains c = pre ++ d :: post ->
    D_Records d =
      before ++ {| R_Name := r; R_Type := "A"; R_Value := v; R_TTL := t |} :: after ->
    (forall d' r', In d' pre -> In r' (D_Records d') ->
       exact_hit r Dns.TypeA r' = false /\ wildcard_hit r Dns.TypeA r' = false) ->
    (forall r', In r' before -> exact_hit r Dns.TypeA r' = false) ->
    Net.ParseIP v = Some ip ->
    Net.To4 ip = Some ip4 ->
    Dns.Answer (fst (HandleRequest Exchange c w req)) =
      [Dns.A {| Dns.Hdr_Name := r; Dns.Rrtype := Dns.TypeA;
                Dns.Class := Dns.ClassINET; Dns.Ttl := uint32 t |} ip4] /\
    Dns.Rcode (fst (HandleRequest Exchange c w req)) = Dns.RcodeSuccess /\
    (0 <= t < 2 ^ 32 -> uint32 t = t).
Proof.
  intros World Exchange c w req qclass rest r v t ip ip4 pre post d before after
         Hq Hdom Hrec Hpre Hbefore Hparse Hto4.
  set (record := {| R_Name := r; R_Type := "A"; R_Value := v; R_TTL := t |}) in *.
  assert (Hconf : IsDomainConfigured c r = true).
  { apply IsDomainConfigured_true. exists d, record. rewrite Hdom, Hrec.
    repeat split; [apply in_elt | apply in_elt | apply Match_refl]. }
  assert (Hfind : FindRecord c r Dns.TypeA = Some record).
  { unfold FindRecord, GetDomains. rewrite Hdom, (FindRecord_domains_skip _ _ _ _ Hpre).
    simpl. rewrite Hrec.
    now rewrite (find_first_hit _ _ _ _ Hbefore (exact_hit_self r v t)). }
  rewrite (HandleRequest_configured Exchange c w req _ _ Hq Hconf).
  unfold local_reply. simpl. rewrite Hfind.
  unfold synthesize. simpl. rewrite Hparse, Hto4. simpl.
  auto using uint32_id.
Qed.

(** C1 at a sample store: the only record, in the only domain. *)
Lemma C1_first_A_record_answers_witness :
  Dns.Answer (fst (HandleRequest dead_network
                     (config_of [] [ {| D_Name := "test.com"; D_Records := [rec_a_first] |} ])
                     tt (query "a.test.com" Dns.TypeA))) =
    [Dns.A {| Dns.Hdr_Name := "a.test.com"; Dns.Rrtype := Dns.TypeA;
              Dns.Class := Dns.ClassINET; Dns.Ttl := uint32 60 |} [1; 1; 1; 1]] /\
  Dns.Rcode (fst (HandleRequest dead_network
                    (config_of [] [ {| D_Name := "test.com"; D_Records := [rec_a_first] |} ])
                    tt (query "a.test.com" Dns.TypeA))) = Dns.RcodeSuccess /\
  (0 <= 60 < 2 ^ 32 -> uint32 60 = 60).
Proof.
  apply (C1_first_A_record_answers unit dead_network
           (config_of [] [ {| D_Name := "test.com"; D_Records := [rec_a_first] |} ])
           tt (query "a.test.com" Dns.TypeA) Dns.ClassINET []
           "a.test.com" "1.1.1.1" 60 (Net.IPv4 1 1 1 1) [1; 1; 1; 1]
           [] [] {| D_Name := "test.com"; D_Records := [rec_a_first] |} [] []).
  - reflexivity.
  - reflexivity.
  - reflexivity.
  - intros d' r' [].
  - intros r' [].
  - reflexivity.
  - reflexivity.
Defined.

(** The claim as first stated fails when two records answer the same name:
    the domain [lab] holds the [A] record [a.test.com -> 2.2.2.2, ttl 300],
    its value parses as an IPv4 literal, and yet the one answer to
    [(a.test.com, A)] carries the address and TTL of the record of the
    domain listed first. *)
Lemma C1_later_record_is_shadowed :
  In rec_a_second (D_Records {| D_Name := "lab"; D_Records := [rec_a_second] |}) /\
  In {| D_Name := "lab"; D_Records := [rec_a_second] |} (Domains two_domains_same_name) /\
  Net.ParseIP (R_Value rec_a_second) = Some (Net.IPv4 2 2 2 2) /\
  Net.To4 (Net.IPv4 2 2 2 2) = Some [2; 2; 2; 2] /\
  Dns.Answer (fst (HandleRequest dead_network two_domains_same_name tt
                     (query "a.test.com" Dns.TypeA))) =
    [Dns.A {| Dns.Hdr_Name := "a.test.com"; Dns.Rrtype := Dns.TypeA;
              Dns.Class := Dns.ClassINET; Dns.Ttl := 60 |} [1; 1; 1; 1]] /\
  [Dns.A {| Dns.Hdr_Name := "a.test.com"; Dns.Rrtype := Dns.TypeA;
            Dns.Class := Dns.ClassINET; Dns.Ttl := 60 |} [1; 1; 1; 1]] <>
  [Dns.A {| Dns.Hdr_Name := "a.test.com"; Dns.Rrtype := Dns.TypeA;
            Dns.Class := Dns.ClassINET; Dns.Ttl := 300 |} [2; 2; 2; 2]].
Proof.
  repeat split; try (simpl; tauto); try reflexivity. discriminate.
Qed.

(** ** Parsed addresses are 16 bytes long *)

Lemma parseIPv4_length s ip : Net.parseIPv4 s = Some ip -> length ip = 16%nat.
Proof.
  unfold Net.parseIPv4.
  destruct (Net.parseIPv4_fields 4 0 s []) as [[[|a [|b [|c [|d [|]]]]] [|]]|];
    try discriminate.
  now intros [= <-].
Qed.

Lemma parseIPv6_body_inv st :
  v6_inv st ->
  match Net.parseIPv6_body st with
  | Net.V6Nil => True
  | Net.V6Break st' | Net.V6Next st' => v6_inv st'
  end.
Proof.
  destruct st as [i s ip ellipsis]. unfold v6_inv, Net.parseIPv6_body. simpl.
  intros [Hlen He].
  repeat case_match; simplify_eq; try exact I; cbn in *; simplify_eq;
    rewrite ?length_insert; (split; [assumption|]); try exact I;
    unfold Net.IPv4len; lia.
Qed.

Lemma parseIPv6_loop_inv rounds st st' :
  v6_inv st -> Net.parseIPv6_loop rounds st = Some st' -> v6_inv st'.
Proof.
  revert st. induction rounds as [|rounds IH]; intros st Hinv; simpl.
  - destruct (Net.v6_i st <? Net.IPv6len)%nat; now intros [= <-].
  - destruct (Net.v6_i st <? Net.IPv6len)%nat; [|now intros [= <-]].
    pose proof (parseIPv6_body_inv st Hinv) as Hbody.
    destruct (Net.parseIPv6_body st) as [|st1|st1]; [discriminate| |].
    + now intros [= <-].
    + now apply IH.
Qed.

Lemma parseIPv6_finish_length st ip :
  v6_inv st -> Net.parseIPv6_finish st = Some ip -> length ip = 16%nat.
Proof.
  destruct st as [i s ip0 ellipsis]. unfold v6_inv, Net.parseIPv6_finish. simpl.
  intros [Hlen He].
  destruct (negb (String.length s =? 0)%nat); [discriminate|].
  destruct (i <? Net.IPv6len)%nat eqn:Hi.
  - destruct ellipsis as [e|]; [|discriminate]. intros [= <-].
    apply Nat.ltb_lt in Hi. unfold Net.IPv6len in *.
    rewrite !length_app, length_replicate, !length_take, length_drop. lia.
  - destruct ellipsis; [discriminate|]. now intros [= <-].
Qed.

Lemma parseIPv6_length s ip : Net.parseIPv6 s = Some ip -> length ip = 16%nat.
Proof.
  assert (Hrun : forall start,
    v6_inv start ->
    match Net.parseIPv6_loop 8 start with
    | None => None
    | Some st => Net.parseIPv6_finish st
    end = Some ip -> length ip = 16%nat).
  { intros start Hstart.
    destruct (Net.parseIPv6_loop 8 start) as [st|] eqn:Hloop; [|discriminate].
    apply parseIPv6_finish_length. eapply parseIPv6_loop_inv; eauto. }
  unfold Net.parseIPv6.
  destruct ((2 <=? String.length s)%nat && Net.first_is s ":"
            && Net.first_is (Strings.slice_from 1 s) ":"); cbn [Net.v6_ellipsis Net.v6_s].
  - destruct (Strings.slice_from 2 s); [now intros [= <-]|].
    apply Hrun. split; simpl; auto.
  - apply Hrun. split; simpl; auto.
Qed.

Lemma ParseIP_length s ip : Net.ParseIP s = Some ip -> length ip = 16%nat.
Proof.
  unfold Net.ParseIP. generalize s at 2 as whole. intros whole.
  induction s as [|c s IH]; simpl; [discriminate|].
  destruct (Ascii.eqb c "."); [apply parseIPv4_length|].
  destruct (Ascii.eqb c ":"); [apply parseIPv6_length|]. exact IH.
Qed.

(** [To16] never rejects what [ParseIP] accepted: the guard of the [AAAA]
    branch only tests that the value parses. *)
Lemma To16_ParseIP s ip : Net.ParseIP s = Some ip -> Net.To16 ip = Some ip.
Proof.
  intros H. apply ParseIP_length in H. unfold Net.To16. now rewrite H.
Qed.

(** ** No data for a configured name *)

Lemma local_reply_Answer_none c req question :
  match FindRecord c (Dns.Name question) (Dns.Qtype question) with
  | Some record => synthesize (Dns.Name question) (Dns.Qtype question) record
  | None => None
  end = None ->
  Dns.Answer (local_reply c req question) = [].
Proof.
  unfold local_reply.
  destruct (FindRecord c (Dns.Name question) (Dns.Qtype question)) as [record|];
    [|reflexivity].
  now intros ->.
Qed.

Lemma synthesize_A_unparsable qname qtype record :
  R_Type record = "A" ->
  (forall ip, Net.ParseIP (R_Value record) = Some ip -> Net.To4 ip = None) ->
  synthesize qname qtype record = None.
Proof.
  intros HA Hbad. unfold synthesize. rewrite HA. simpl.
  destruct (qtype =? Dns.TypeA); [|reflexivity].
  destruct (Net.ParseIP (R_Value record)) as [ip|]; [|reflexivity].
  now rewrite (Hbad ip eq_refl).
Qed.

Lemma synthesize_AAAA_unparsable qname qtype record :
  R_Type record = "AAAA" ->
  Net.ParseIP (R_Value record) = None ->
  synthesize qname qtype record = None.
Proof.
  intros HA Hbad. unfold synthesize. rewrite HA, Hbad. simpl.
  now destruct (qtype =? Dns.TypeAAAA).
Qed.

Lemma synthesize_AAAA_parsable qname record ip :
  R_Type record = "AAAA" ->
  Net.ParseIP (R_Value record) = Some ip ->
  synthesize qname Dns.TypeAAAA record =
    Some (Dns.AAAA (answer_header qname Dns.TypeAAAA record) ip).
Proof.
  intros HA Hip. unfold synthesize. rewrite HA, Hip, (To16_ParseIP _ _ Hip). reflexivity.
Qed.

(** What the code does for a configured name.  The response code is
    success, never name-error.  The answer set is empty when [FindRecord]
    yields no record, when it yields an [A] record whose value is not an IP
    literal with a 4-byte form, and when it yields an [AAAA] record whose
    value is not an IP literal at all.  An [AAAA] record whose value is any
    IP literal, of either family, is answered with the 16-byte form of the
    address: the guard [ip.To16() != nil] of that branch holds of every
    parsed address. *)
Lemma HandleRequest_configured_no_data :
  forall (World : Type) (Exchange : World -> Dns.Msg -> string -> ExchangeResult * World)
         (c : Config) (w : World) (req : Dns.Msg) (question : Dns.Question)
         (rest : list Dns.Question),
    Dns.Questions req = question :: rest ->
    IsDomainConfigured c (Dns.Name question) = true ->
    Dns.Rcode (fst (HandleRequest Exchange c w req)) = Dns.RcodeSuccess /\
    Dns.Rcode (fst (HandleRequest Exchange c w req)) <> Dns.RcodeNameError /\
    (FindRecord c (Dns.Name question) (Dns.Qtype question) = None ->
       Dns.Answer (fst (HandleRequest Exchange c w req)) = []) /\
    (forall record,
       FindRecord c (Dns.Name question) (Dns.Qtype question) = Some record ->
       R_Type record = "A" ->
       (forall ip, Net.ParseIP (R_Value record) = Some ip -> Net.To4 ip = None) ->
       Dns.Answer (fst (HandleRequest Exchange c w req)) = []) /\
    (forall record,
       FindRecord c (Dns.Name question) (Dns.Qtype question) = Some record ->
       R_Type record = "AAAA" ->
       Net.ParseIP (R_Value record) = None ->
       Dns.Answer (fst (HandleRequest Exchange c w req)) = []) /\
    (forall record ip,
       FindRecord c (Dns.Name question) (Dns.Qtype question) = Some record ->
       R_Type record = "AAAA" ->
       Net.ParseIP (R_Value record) = Some ip ->
       Dns.Answer (fst (HandleRequest Exchange c w req)) =
         [Dns.AAAA (answer_header (Dns.Name question) Dns.TypeAAAA record) ip]).
Proof.
  intros World Exchange c w req question rest Hq Hc.
  rewrite (HandleRequest_configured Exchange c w req _ _ Hq Hc). simpl.
  rewrite local_reply_Rcode.
  split; [reflexivity|]. split; [discriminate|].
  split; [|split; [|split]].
  - intros Hnone. apply local_reply_Answer_none. now rewrite Hnone.
  - intros record Hfind HA Hbad. apply local_reply_Answer_none.
    rewrite Hfind. now apply synthesize_A_unparsable.
  - intros record Hfind HA Hbad. apply local_reply_Answer_none.
    rewrite Hfind. now apply synthesize_AAAA_unparsable.
  - intros record ip Hfind HA Hip.
    pose proof (FindRecord_type _ _ _ _ Hfind) as Ht.
    apply exact_type_matches_true in Ht. rewrite HA in Ht.
    assert (Hqt : Dns.Qtype question = Dns.TypeAAAA)
      by (destruct Ht as [[? _]|[[_ ?]|[[? _]|[? _]]]]; congruence).
    unfold local_reply. rewrite Hfind, Hqt.
    now rewrite (synthesize_AAAA_parsable _ _ _ HA Hip).
Qed.

(** A [TXT] query for a name that only has an [A] record. *)
Lemma HandleRequest_configured_no_data_sample :
  Dns.Rcode (fst (HandleRequest dead_network only_an_A_record tt
                    (query "a.test.com" Dns.TypeTXT))) = Dns.RcodeSuccess /\
  Dns.Answer (fst (HandleRequest dead_network only_an_A_record tt
                     (query "a.test.com" Dns.TypeTXT))) = [].
Proof.
  destruct (HandleRequest_configured_no_data unit dead_network only_an_A_record tt
              (query "a.test.com" Dns.TypeTXT)
              {| Dns.Name := "a.test.com"; Dns.Qtype := Dns.TypeTXT;
                 Dns.Qclass := Dns.ClassINET |} []
              eq_refl eq_refl) as [Hrcode [_ [Hnone _]]].
  split; [exact Hrcode|]. apply Hnone. reflexivity.
Qed.

(** C6 at the failing store.  The [AAAA] record of [v6.test.com] holds the
    IPv4 literal [192.168.1.1], which is no IPv6 literal; the name is
    configured, the response code is success, and the answer set is not
    empty: it holds an [AAAA] record with the IPv4-mapped address.  The
    [A] branch does test the family: the [A] record of [v4.test.com] holds
    an IPv6 literal, [To4] is nil for it, and the answer set is empty. *)
Theorem C6_AAAA_record_with_IPv4_value_is_answered :
  IsDomainConfigured aaaa_with_v4_value "v6.test.com" = true /\
  FindRecord aaaa_with_v4_value "v6.test.com" Dns.TypeAAAA = Some rec_v6_with_v4_value /\
  Net.parseIPv6 (R_Value rec_v6_with_v4_value) = None /\
  Net.parseIPv4 (R_Value rec_v6_with_v4_value) = Some (Net.IPv4 192 168 1 1) /\
  Net.To16 (Net.IPv4 192 168 1 1) = Some (Net.IPv4 192 168 1 1) /\
  Dns.Rcode (fst (HandleRequest dead_network aaaa_with_v4_value tt
                    (query "v6.test.com" Dns.TypeAAAA))) = Dns.RcodeSuccess /\
  Dns.Answer (fst (HandleRequest dead_network aaaa_with_v4_value tt
                     (query "v6.test.com" Dns.TypeAAAA))) =
    [Dns.AAAA {| Dns.Hdr_Name := "v6.test.com"; Dns.Rrtype := Dns.TypeAAAA;
                 Dns.Class := Dns.ClassINET; Dns.Ttl := 300 |}
              [0; 0; 0; 0; 0; 0; 0; 0; 0; 0; 255; 255; 192; 168; 1; 1]] /\
  Dns.Answer (fst (HandleRequest dead_network aaaa_with_v4_value tt
                     (query "v6.test.com" Dns.TypeAAAA))) <> [] /\
  FindRecord a_with_v6_value "v4.test.com" Dns.TypeA = Some rec_v4_with_v6_value /\
  Net.ParseIP (R_Value rec_v4_with_v6_value) =
    Some [32; 1; 13; 184; 0; 0; 0; 0; 0; 0; 0; 0; 0; 0; 0; 1] /\
  Net.To4 [32; 1; 13; 184; 0; 0; 0; 0; 0; 0; 0; 0; 0; 0; 0; 1] = None /\
  Dns.Answer (fst (HandleRequest dead_network a_with_v6_value tt
                     (query "v4.test.com" Dns.TypeA))) = [].
Proof.
  repeat split; try reflexivity. discriminate.
Qed.

(** ** The two passes of [FindRecord] *)

Lemma find_app_none {A} (f : A -> bool) (l1 l2 : list A) :
  find f l1 = None -> find f (l1 ++ l2) = find f l2.
Proof.
  induction l1 as [|x l1 IH]; simpl; [reflexivity|].
  destruct (f x); [discriminate|exact IH].
Qed.

Lemma find_app_some {A} (f : A -> bool) (l1 l2 : list A) x :
  find f l1 = Some x -> find f (l1 ++ l2) = Some x.
Proof.
  induction l1 as [|y l1 IH]; simpl; [discriminate|].
  destruct (f y); [trivial|exact IH].
Qed.

(** When the wildcard pass cannot fire in any domain, [FindRecord] is the
    exact pass over all records of all domains. *)
Lemma FindRecord_domains_exact_only domains qname qtype :
  (forall r, In r (all_records domains) -> wildcard_hit qname qtype r = false) ->
  FindRecord_domains domains qname qtype =
    find (exact_hit qname qtype) (all_records domains).
Proof.
  unfold all_records. induction domains as [|d domains IH]; intros Hw; [reflexivity|].
  simpl in *.
  destruct (find (exact_hit qname qtype) (D_Records d)) as [r|] eqn:He.
  - now rewrite (find_app_some _ _ _ _ He).
  - rewrite (find_app_none _ _ _ He).
    replace (find (wildcard_hit qname qtype) (D_Records d)) with (@None DnsRecord).
    + apply IH. intros r Hr. apply Hw, in_or_app. now right.
    + symmetry. apply find_none_iff. intros r Hr. apply Hw, in_or_app. now left.
Qed.

(** A query for a type other than [A] and [AAAA] is answered by the exact
    pass alone: suffix matching never answers a [CNAME] or [TXT] query. *)
Lemma FindRecord_not_address_type c qname qtype :
  qtype <> Dns.TypeA -> qtype <> Dns.TypeAAAA ->
  FindRecord c qname qtype = find (exact_hit qname qtype) (all_records (GetDomains c)).
Proof.
  intros HA HAAAA. apply FindRecord_domains_exact_only. intros r _.
  destruct (wildcard_hit qname qtype r) eqn:Hw; [|reflexivity].
  apply wildcard_hit_types in Hw. tauto.
Qed.

(** When the exact pass finds nothing in any domain, [FindRecord] is the
    wildcard pass over all records of all domains. *)
Lemma FindRecord_domains_wildcard_only domains qname qtype :
  (forall r, In r (all_records domains) -> exact_hit qname qtype r = false) ->
  FindRecord_domains domains qname qtype =
    find (wildcard_hit qname qtype) (all_records domains).
Proof.
  unfold all_records. induction domains as [|d domains IH]; intros Hw; [reflexivity|].
  simpl in *.
  replace (find (exact_hit qname qtype) (D_Records d)) with (@None DnsRecord).
  2:{ symmetry. apply find_none_iff. intros r Hr. apply Hw, in_or_app. now left. }
  destruct (find (wildcard_hit qname qtype) (D_Records d)) as [r|] eqn:He.
  - now rewrite (find_app_some _ _ _ _ He).
  - rewrite (find_app_none _ _ _ He).
    apply IH. intros r Hr. apply Hw, in_or_app. now right.
Qed.

(** Within one domain the exact pass comes first. *)
Lemma FindRecord_one_domain d qname qtype :
  FindRecord_domains [d] qname qtype =
    match find (exact_hit qname qtype) (D_Records d) with
    | Some record => Some record
    | None => find (wildcard_hit qname qtype) (D_Records d)
    end.
Proof.
  simpl. destruct (find (exact_hit qname qtype) (D_Records d)); [reflexivity|].
  now destruct (find (wildcard_hit qname qtype) (D_Records d)).
Qed.

(** C2 at the failing store.  The wildcard pass of the first domain runs
    before the exact pass of the second: the query [(api.dev.test.com, A)]
    has an exact match in the domain [dev.test.com], and [FindRecord]
    returns the wildcard record [*.test.com] of the domain [test.com]. *)
Theorem C2_wildcard_of_earlier_domain_wins :
  In rec_api (all_records (GetDomains zone_before_subzone)) /\
  exact_hit "api.dev.test.com." Dns.TypeA rec_api = true /\
  exact_hit "api.dev.test.com." Dns.TypeA rec_wildcard = false /\
  wildcard_hit "api.dev.test.com." Dns.TypeA rec_wildcard = true /\
  find (exact_hit "api.dev.test.com." Dns.TypeA)
       (all_records (GetDomains zone_before_subzone)) = Some rec_api /\
  FindRecord zone_before_subzone "api.dev.test.com." Dns.TypeA = Some rec_wildcard /\
  Dns.Answer (fst (HandleRequest dead_network zone_before_subzone tt
                     (query "api.dev.test.com." Dns.TypeA))) =
    [Dns.A {| Dns.Hdr_Name := "api.dev.test.com."; Dns.Rrtype := Dns.TypeA;
              Dns.Class := Dns.ClassINET; Dns.Ttl := 300 |} [192; 168; 1; 1]].
Proof.
  repeat split; try reflexivity. simpl. tauto.
Qed.

(** ** The record store *)

Lemma updateDomainsNode_domainMap m fs :
  domainMap (snd (updateDomainsNode m fs)) = domainMap m.
Proof.
  unfold updateDomainsNode.
  destruct (WriteConfig_ok fs), (SafeWriteConfig_ok fs), (MkdirAll_ok fs),
    (OpenFile_ok fs), (Encode_ok fs), (ReadInConfig_ok fs); reflexivity.
Qed.

Lemma updateDomainsNode_fails m fs :
  all_writes_fail fs = true ->
  exists e, fst (updateDomainsNode m fs) = Some e /\ kind e = PersistenceError.
Proof.
  unfold all_writes_fail, updateDomainsNode.
  destruct (WriteConfig_ok fs), (SafeWriteConfig_ok fs), (MkdirAll_ok fs),
    (OpenFile_ok fs), (Encode_ok fs); simpl; try discriminate; intros _; eauto.
Qed.

Lemma updateDomainsNode_written m fs :
  WriteConfig_ok fs = true -> ReadInConfig_ok fs = true ->
  updateDomainsNode m fs =
    (None, {| domainMap := domainMap m;
              viperDomains := (range_domainMap m).*2;
              document := Some (range_domainMap m).*2 |}).
Proof. intros Hw Hr. unfold updateDomainsNode. now rewrite Hw, Hr. Qed.

Lemma updateDomainsNode_None m fs m' :
  updateDomainsNode m fs = (None, m') ->
  viperDomains m' = (range_domainMap m').*2 /\
  document m' = Some (range_domainMap m').*2.
Proof.
  unfold updateDomainsNode.
  destruct (WriteConfig_ok fs), (SafeWriteConfig_ok fs), (MkdirAll_ok fs),
    (OpenFile_ok fs), (Encode_ok fs), (ReadInConfig_ok fs); simpl;
    intros [= <-]; auto.
Qed.

Lemma updateDomainsNode_Some m fs err m' :
  updateDomainsNode m fs = (Some err, m') -> kind err = PersistenceError.
Proof.
  unfold updateDomainsNode.
  destruct (WriteConfig_ok fs), (SafeWriteConfig_ok fs), (MkdirAll_ok fs),
    (OpenFile_ok fs), (Encode_ok fs), (ReadInConfig_ok fs); simpl;
    intros [= <- <-]; auto.
Qed.

Lemma existsb_same_name_type record records :
  existsb (same_name_type record) records = true <->
  exists r, In r records /\ R_Name r = R_Name record /\ R_Type r = R_Type record.
Proof.
  rewrite existsb_exists. unfold same_name_type.
  split; intros [r [Hin H]]; exists r; split; auto.
  - apply andb_true_iff in H. now rewrite !String.eqb_eq in H.
  - apply andb_true_iff. now rewrite !String.eqb_eq.
Qed.

(** C7.  [AddRecord] fails with a not-found error when the domain is
    absent and with a conflict error when the domain already holds a
    record with the same name and type; in both cases the manager is
    returned as it was.  Otherwise the record is appended at the end of the
    domain's record list, the other domains are kept, and the result is
    that of [updateDomainsNode] on the new map: on a successful write the
    document holds the domains of the new map. *)
Theorem C7_AddRecord_contract :
  forall (m : ViperYAMLManager) (fs : FsOutcome) (domainName : string) (record : DnsRecord),
    (domainMap m !! domainName = None ->
       AddRecord m fs domainName record = (Some (ErrDomainNotExist domainName), m) /\
       kind (ErrDomainNotExist domainName) = NotFoundError) /\
    (forall domain,
       domainMap m !! domainName = Some domain ->
       (exists r, In r (D_Records domain) /\
                  R_Name r = R_Name record /\ R_Type r = R_Type record) ->
       AddRecord m fs domainName record =
         (Some (ErrRecordExists domainName (R_Name record) (R_Type record)), m) /\
       kind (ErrRecordExists domainName (R_Name record) (R_Type record)) = ConflictError) /\
    (forall domain,
       domainMap m !! domainName = Some domain ->
       (forall r, In r (D_Records domain) ->
                  ~ (R_Name r = R_Name record /\ R_Type r = R_Type record)) ->
       AddRecord m fs domainName record =
         updateDomainsNode
           (with_domainMap m (<[domainName := append_record domain record]> (domainMap m))) fs /\
       domainMap (snd (AddRecord m fs domainName record)) !! domainName =
         Some (append_record domain record) /\
       (forall other, other <> domainName ->
          domainMap (snd (AddRecord m fs domainName record)) !! other = domainMap m !! other) /\
       (WriteConfig_ok fs = true -> ReadInConfig_ok fs = true ->
          fst (AddRecord m fs domainName record) = None /\
          document (snd (AddRecord m fs domainName record)) =
            Some (map_to_list (<[domainName := append_record domain record]> (domainMap m))).*2)).
Proof.
  intros m fs domainName record. unfold AddRecord. split; [|split].
  - now intros ->.
  - intros domain -> Hdup. apply existsb_same_name_type in Hdup. now rewrite Hdup.
  - intros domain -> Hfresh.
    destruct (existsb (same_name_type record) (D_Records domain)) eqn:Hex.
    { apply existsb_same_name_type in Hex as [r [Hin Hr]]. now destruct (Hfresh r Hin). }
    fold (append_record domain record).
    split; [reflexivity|]. rewrite updateDomainsNode_domainMap. simpl.
    split; [apply lookup_insert_eq|].
    split; [intros other Hne; now apply lookup_insert_ne|].
    intros Hw Hr. now rewrite (updateDomainsNode_written _ _ Hw Hr).
Qed.

Lemma index_of_name_none recordName records i :
  index_of_name recordName records i = None <->
  forall r, In r records -> R_Name r <> recordName.
Proof.
  revert i. induction records as [|x records IH]; intros i; simpl; [now split|].
  destruct (String.eqb_spec (R_Name x) recordName) as [He|Hne]; split.
  - discriminate.
  - intros H. now destruct (H x (or_introl eq_refl)).
  - intros H r [<-|Hr]; [exact Hne|]. now apply (IH (S i)).
  - intros H. apply IH. auto.
Qed.




(** ** Persistence failures *)

Lemma updateDomainsNode_document_on_failure m fs :
  all_writes_fail fs = true ->
  document (snd (updateDomainsNode m fs)) = document m \/
  document (snd (updateDomainsNode m fs)) = None.
Proof.
  unfold all_writes_fail, updateDomainsNode.
  destruct (WriteConfig_ok fs), (SafeWriteConfig_ok fs), (MkdirAll_ok fs),
    (OpenFile_ok fs), (Encode_ok fs); simpl; try discriminate; auto.
Qed.

Lemma updateDomainsNode_persistence_failed m dm fs :
  all_writes_fail fs = true ->
  persistence_failed m (updateDomainsNode (with_domainMap m dm) fs) dm.
Proof.
  intros Hfail. unfold persistence_failed.
  split; [now apply updateDomainsNode_fails|].
  split; [apply updateDomainsNode_domainMap|].
  apply (updateDomainsNode_document_on_failure (with_domainMap m dm) fs Hfail).
Qed.

(** A call that is rejected by its checks returns the manager as it was. *)
Lemma rejected_calls_change_nothing m fs :
  (forall domain, D_Name domain = "" ->
     AddOrUpdateDomain m fs domain = (Some ErrEmptyDomainName, m)) /\
  (forall domainName, domainMap m !! domainName = None ->
     DeleteDomain m fs domainName = (Some (ErrDomainNotExist domainName), m) /\
     (forall record,
        AddRecord m fs domainName record = (Some (ErrDomainNotExist domainName), m)) /\
     (forall recordName newRecord,
        UpdateRecord m fs domainName recordName newRecord =
          (Some (ErrDomainNotExist domainName), m)) /\
     (forall recordName,
        DeleteRecord m fs domainName recordName = (Some (ErrDomainNotExist domainName), m))) /\
  (forall domainName domain, domainMap m !! domainName = Some domain ->
     (forall record,
        existsb (same_name_type record) (D_Records domain) = true ->
        AddRecord m fs domainName record =
          (Some (ErrRecordExists domainName (R_Name record) (R_Type record)), m)) /\
     (forall recordName newRecord,
        index_of_name recordName (D_Records domain) 0 = None ->
        UpdateRecord m fs domainName recordName newRecord =
          (Some (ErrRecordNotExist domainName recordName), m)) /\
     (forall recordName,
        existsb (fun r => String.eqb (R_Name r) recordName) (D_Records domain) = false ->
        DeleteRecord m fs domainName recordName =
          (Some (ErrRecordNotExist domainName recordName), m))).
Proof.
  split; [|split].
  - intros domain Hname. unfold AddOrUpdateDomain. now rewrite Hname.
  - intros domainName Hd.
    unfold DeleteDomain, AddRecord, UpdateRecord, DeleteRecord. rewrite Hd. auto.
  - intros domainName domain Hd.
    unfold AddRecord, UpdateRecord, DeleteRecord. rewrite Hd.
    split; [|split].
    + now intros record ->.
    + now intros recordName newRecord ->.
    + now intros recordName ->.
Qed.

(** C3, as the code has it.  Every mutating operation changes the
    in-memory map first and persists afterwards, and nothing is rolled
    back: when all write strategies fail, a call that passed its checks
    returns a persistence error, the document is not advanced, and the map
    holds the change (the domain inserted or removed, the record appended,
    replaced or removed).  The manager is returned as it was when the call
    is rejected by its checks. *)
Theorem C3_failed_persistence_keeps_the_change :
  forall (m : ViperYAMLManager) (fs : FsOutcome),
    all_writes_fail fs = true ->
    (forall domain,
       D_Name domain <> "" ->
       persistence_failed m (AddOrUpdateDomain m fs domain)
         (<[D_Name domain := domain]> (domainMap m))) /\
    (forall domainName domain,
       domainMap m !! domainName = Some domain ->
       persistence_failed m (DeleteDomain m fs domainName)
         (delete domainName (domainMap m))) /\
    (forall domainName domain record,
       domainMap m !! domainName = Some domain ->
       existsb (same_name_type record) (D_Records domain) = false ->
       persistence_failed m (AddRecord m fs domainName record)
         (<[domainName := append_record domain record]> (domainMap m))) /\
    (forall domainName domain recordName newRecord i,
       domainMap m !! domainName = Some domain ->
       index_of_name recordName (D_Records domain) 0 = Some i ->
       persistence_failed m (UpdateRecord m fs domainName recordName newRecord)
         (<[domainName := with_records domain (<[i := newRecord]> (D_Records domain))]>
            (domainMap m))) /\
    (forall domainName domain recordName,
       domainMap m !! domainName = Some domain ->
       existsb (fun r => String.eqb (R_Name r) recordName) (D_Records domain) = true ->
       persistence_failed m (DeleteRecord m fs domainName recordName)
         (<[domainName :=
              with_records domain
                (List.filter (fun r => negb (String.eqb (R_Name r) recordName))
                             (D_Records domain))]>
            (domainMap m))) /\
    (forall domain, D_Name domain = "" ->
       AddOrUpdateDomain m fs domain = (Some ErrEmptyDomainName, m)) /\
    (forall domainName, domainMap m !! domainName = None ->
       DeleteDomain m fs domainName = (Some (ErrDomainNotExist domainName), m) /\
       (forall record,
          AddRecord m fs domainName record = (Some (ErrDomainNotExist domainName), m)) /\
       (forall recordName newRecord,
          UpdateRecord m fs domainName recordName newRecord =
            (Some (ErrDomainNotExist domainName), m)) /\
       (forall recordName,
          DeleteRecord m fs domainName recordName =
            (Some (ErrDomainNotExist domainName), m))) /\
    (forall domainName domain, domainMap m !! domainName = Some domain ->
       (forall record,
          existsb (same_name_type record) (D_Records domain) = true ->
          AddRecord m fs domainName record =
            (Some (ErrRecordExists domainName (R_Name record) (R_Type record)), m)) /\
       (forall recordName newRecord,
          index_of_name recordName (D_Records domain) 0 = None ->
          UpdateRecord m fs domainName recordName newRecord =
            (Some (ErrRecordNotExist domainName recordName), m)) /\
       (forall recordName,
          existsb (fun r => String.eqb (R_Name r) recordName) (D_Records domain) = false ->
          DeleteRecord m fs domainName recordName =
            (Some (ErrRecordNotExist domainName recordName), m))).
Proof.
  intros m fs Hfail.
  pose proof (fun dm => updateDomainsNode_persistence_failed m dm fs Hfail) as Hstep.
  split; [|split; [|split; [|split; [|split]]]].
  - intros domain Hname. unfold AddOrUpdateDomain.
    apply String.eqb_neq in Hname. rewrite Hname. apply Hstep.
  - intros domainName domain Hd. unfold DeleteDomain. rewrite Hd. apply Hstep.
  - intros domainName domain record Hd Hfresh. unfold AddRecord.
    rewrite Hd, Hfresh. apply Hstep.
  - intros domainName domain recordName newRecord i Hd Hi. unfold UpdateRecord.
    rewrite Hd, Hi. apply Hstep.
  - intros domainName domain recordName Hd Hfound. unfold DeleteRecord.
    rewrite Hd, Hfound. apply Hstep.
  - apply rejected_calls_change_nothing.
Qed.

(** C3 at a sample store whose configuration directory is read-only. *)
Lemma C3_failed_persistence_keeps_the_change_witness :
  all_writes_fail fs_read_only = true /\
  persistence_failed sample_manager
    (AddOrUpdateDomain sample_manager fs_read_only domain_lab)
    (<[D_Name domain_lab := domain_lab]> (domainMap sample_manager)).
Proof.
  split; [reflexivity|].
  destruct (C3_failed_persistence_keeps_the_change sample_manager fs_read_only eq_refl)
    as [Hadd _].
  apply (Hadd domain_lab). discriminate.
Defined.

(** The claim as first stated fails: with every write strategy failing,
    [AddOrUpdateDomain] returns a persistence error, the document is what
    it was, and the in-memory map has gained the domain. *)
Lemma C3_memory_is_ahead_of_the_document :
  all_writes_fail fs_read_only = true /\
  fst (AddOrUpdateDomain sample_manager fs_read_only domain_lab) = Some ErrOpenFile /\
  kind ErrOpenFile = PersistenceError /\
  document (snd (AddOrUpdateDomain sample_manager fs_read_only domain_lab)) =
    document sample_manager /\
  domainMap sample_manager !! "lab" = None /\
  domainMap (snd (AddOrUpdateDomain sample_manager fs_read_only domain_lab)) !! "lab" =
    Some domain_lab /\
  domainMap (snd (AddOrUpdateDomain sample_manager fs_read_only domain_lab)) <>
    domainMap sample_manager.
Proof.
  repeat split; try (vm_compute; reflexivity).
  intros Heq.
  assert (Hl : domainMap (snd (AddOrUpdateDomain sample_manager fs_read_only domain_lab)) !! "lab"
               = domainMap sample_manager !! "lab") by now rewrite Heq.
  vm_compute in Hl. discriminate.
Qed.

(** ** Pagination *)

Lemma wrap64_small z : min_int <= z <= max_int -> wrap64 z = z.
Proof.
  unfold wrap64, min_int, max_int. intros H.
  rewrite Z.mod_small; lia.
Qed.

Lemma less_false_le x y : less y x = false -> name_le x y.
Proof.
  unfold less, name_le, String.ltb, String.leb.
  rewrite (String.compare_antisym (Strings.ToLower (DI_Name x))).
  now destruct (String.compare (Strings.ToLower (DI_Name y)) (Strings.ToLower (DI_Name x))).
Qed.

Lemma less_true_le x y : less y x = true -> name_le y x.
Proof.
  unfold less, name_le, String.ltb, String.leb.
  now destruct (String.compare (Strings.ToLower (DI_Name y)) (Strings.ToLower (DI_Name x))).
Qed.

Lemma sort_insert_perm x l : Permutation (sort_insert x l) (x :: l).
Proof.
  induction l as [|y l IH]; simpl; [reflexivity|].
  destruct (less y x); [|reflexivity].
  rewrite IH. apply perm_swap.
Qed.

Lemma sort_insert_sorted x l : Sorted name_le l -> Sorted name_le (sort_insert x l).
Proof.
  induction 1 as [|y l Hs IH Hhd]; simpl; [repeat constructor|].
  destruct (less y x) eqn:Hyx.
  - constructor; [exact IH|].
    destruct l as [|z l]; simpl.
    + constructor. now apply less_true_le.
    + destruct (less z x); constructor.
      * now inversion Hhd.
      * now apply less_true_le.
  - constructor; [now constructor|]. constructor. now apply less_false_le.
Qed.

Lemma sort_Slice_perm l : Permutation (sort_Slice l) l.
Proof.
  induction l as [|x l IH]; simpl; [reflexivity|].
  now rewrite sort_insert_perm, IH.
Qed.

Lemma sort_Slice_sorted l : Sorted name_le (sort_Slice l).
Proof. induction l as [|x l IH]; simpl; [constructor|now apply sort_insert_sorted]. Qed.

Lemma sort_Slice_length l : length (sort_Slice l) = length l.
Proof. apply Permutation_length, sort_Slice_perm. Qed.

Lemma domainInfos_length m : length (domainInfos m) = size (domainMap m).
Proof.
  unfold domainInfos, range_domainMap.
  now rewrite length_map, length_map_to_list.
Qed.

(** Every domain of the map is listed once, with its record count. *)
Lemma domainInfos_spec m name count :
  In {| DI_Name := name; RecordCount := count |} (domainInfos m) <->
  exists domain, domainMap m !! name = Some domain /\
                 count = Z.of_nat (length (D_Records domain)).
Proof.
  unfold domainInfos, range_domainMap. rewrite in_map_iff. split.
  - intros [[n d] [Heq Hin]]. injection Heq as -> <-.
    apply list_elem_of_In, elem_of_map_to_list in Hin. eauto.
  - intros [d [Hd ->]]. exists (name, d). split; [reflexivity|].
    now apply list_elem_of_In, elem_of_map_to_list.
Qed.

(** Within the range of [int], [ListDomainsWithPagination] returns the
    requested window of the sorted list, empty when the window starts at or
    beyond the end, and never an error. *)
Lemma ListDomainsWithPagination_in_range m page pageSize :
  (clamp_page page - 1) * clamp_pageSize pageSize + clamp_pageSize pageSize <= max_int ->
  ListDomainsWithPagination m page pageSize =
    Returns
      ({| Total := Z.of_nat (size (domainMap m));
          Page_Domains :=
            take (Z.to_nat (clamp_pageSize pageSize))
                 (drop (Z.to_nat ((clamp_page page - 1) * clamp_pageSize pageSize))
                       (sort_Slice (domainInfos m))) |}, None).
Proof.
  intros Hrange. unfold ListDomainsWithPagination.
  fold (clamp_page page). fold (clamp_pageSize pageSize).
  set (p := clamp_page page) in *. set (ps := clamp_pageSize pageSize) in *.
  set (infos := sort_Slice (domainInfos m)).
  assert (Hp : 1 <= p) by (subst p; unfold clamp_page; destruct (Z.ltb_spec page 1); lia).
  assert (Hps : 1 <= ps <= 100).
  { subst ps. unfold clamp_pageSize.
    destruct (Z.ltb_spec pageSize 1), (Z.ltb_spec 100 pageSize); simpl; lia. }
  assert (Hmax : max_int = 2 ^ 63 - 1) by reflexivity.
  assert (Hmin : min_int = - 2 ^ 63) by reflexivity.
  assert (Hstart : 0 <= (p - 1) * ps) by nia.
  unfold int_mul, int_sub, int_add.
  rewrite (wrap64_small (p - 1)) by nia.
  rewrite (wrap64_small ((p - 1) * ps)) by lia.
  rewrite (wrap64_small ((p - 1) * ps + ps)) by lia.
  set (start := (p - 1) * ps) in *.
  destruct (Z.leb_spec (Z.of_nat (length infos)) start) as [Hbeyond|Hin].
  - do 3 f_equal. rewrite drop_ge by lia. now rewrite take_nil.
  - unfold slice.
    destruct (Z.ltb_spec (Z.of_nat (length infos)) (start + ps)) as [Hcut|Hfull].
    + replace ((0 <=? start) && (start <=? Z.of_nat (length infos))
               && (Z.of_nat (length infos) <=? Z.of_nat (length infos))) with true
        by (symmetry; rewrite !andb_true_iff, !Z.leb_le; lia).
      do 3 f_equal.
      rewrite !take_ge; [reflexivity| |]; rewrite length_drop; lia.
    + replace ((0 <=? start) && (start <=? start + ps)
               && (start + ps <=? Z.of_nat (length infos))) with true
        by (symmetry; rewrite !andb_true_iff, !Z.leb_le; lia).
      do 4 f_equal. lia.
Qed.

(** C8 at the failing inputs.  [(page-1)*pageSize] is computed in [int]
    and wraps around: page [2^62+1] with page size 4 starts at [2^64],
    which is position 0, so the call returns the first page instead of an
    empty one; with page size 2 the start is [-2^63] and the slice
    expression panics.  (The store holds three domains; the first page is
    sorted without regard to case.) *)
Theorem C8_page_offset_wraps_around :
  int_mul (int_sub 4611686018427387905 1) 4 = 0 /\
  ListDomainsWithPagination three_domains 4611686018427387905 4 =
    Returns ({| Total := 3;
                Page_Domains := [ {| DI_Name := "A.com"; RecordCount := 1 |};
                                  {| DI_Name := "b.org"; RecordCount := 0 |};
                                  {| DI_Name := "c.net"; RecordCount := 0 |} ] |}, None) /\
  int_mul (int_sub 4611686018427387905 1) 2 = min_int /\
  ListDomainsWithPagination three_domains 4611686018427387905 2 = Panics /\
  4611686018427387905 <= max_int.
Proof.
  repeat split; try (vm_compute; reflexivity). vm_compute. discriminate.
Qed.

(** ** Sample runs of the forwarding path *)

(** C4 at two sample runs.  In the first the first upstream times out, the
    second answers and the third is never contacted; in the second every
    upstream fails. *)
Lemma C4_forwarding_failover_witness :
  (snd (HandleRequest logging_network three_upstreams [] (query "example.org." Dns.TypeA)) =
     ["10.0.0.1:53"; "10.0.0.2:53"] /\
   Dns.Answer (fst (HandleRequest logging_network three_upstreams []
                      (query "example.org." Dns.TypeA))) = Dns.Answer upstream_answer /\
   Dns.Ns (fst (HandleRequest logging_network three_upstreams []
                  (query "example.org." Dns.TypeA))) = Dns.Ns upstream_answer /\
   Dns.Extra (fst (HandleRequest logging_network three_upstreams []
                     (query "example.org." Dns.TypeA))) = Dns.Extra upstream_answer /\
   Dns.Rcode (fst (HandleRequest logging_network three_upstreams []
                     (query "example.org." Dns.TypeA))) = Dns.Rcode upstream_answer) /\
  (snd (HandleRequest logging_network failing_upstreams [] (query "example.org." Dns.TypeA)) =
     ["10.0.0.1:53"; "10.0.0.3:53"] /\
   Dns.Rcode (fst (HandleRequest logging_network failing_upstreams []
                     (query "example.org." Dns.TypeA))) = Dns.RcodeServerFailure /\
   Dns.RecursionAvailable (fst (HandleRequest logging_network failing_upstreams []
                                  (query "example.org." Dns.TypeA))) = false).
Proof.
  split.
  - destruct (C4_forwarding_failover (list string) logging_network three_upstreams []
                (query "example.org." Dns.TypeA)
                {| Dns.Name := "example.org."; Dns.Qtype := Dns.TypeA;
                   Dns.Qclass := Dns.ClassINET |} []
                eq_refl eq_refl) as [Hfirst _].
    destruct (Hfirst ["10.0.0.1:53"] "10.0.0.2:53" ["10.0.0.3:53"]
                ["10.0.0.1:53"] upstream_answer ["10.0.0.1:53"; "10.0.0.2:53"]
                eq_refl eq_refl eq_refl) as [_ H].
    exact H.
  - destruct (C4_forwarding_failover (list string) logging_network failing_upstreams []
                (query "example.org." Dns.TypeA)
                {| Dns.Name := "example.org."; Dns.Qtype := Dns.TypeA;
                   Dns.Qclass := Dns.ClassINET |} []
                eq_refl eq_refl) as [_ [Hall _]].
    exact (Hall ["10.0.0.1:53"; "10.0.0.3:53"] eq_refl).
Defined.

(** C10 at a sample store: a name of another zone is configured, and the
    query for it contacts no upstream. *)
Lemma C10_star_record_captures_every_name_witness :
  Match "www.example.org." "*" = true /\
  IsDomainConfigured star_config "www.example.org." = true /\
  snd (HandleRequest logging_network star_config [] (query "www.example.org." Dns.TypeA)) = [].
Proof.
  destruct (C10_star_record_captures_every_name (list string) logging_network star_config
              {| D_Name := "catch-all"; D_Records := [rec_star] |} rec_star
              (or_introl eq_refl) (or_introl eq_refl) eq_refl) as [Hm [Hc Hh]].
  split; [apply Hm|]. split; [apply Hc|].
  apply (Hh [] (query "www.example.org." Dns.TypeA)).
Defined.

(** ** Sample runs of the store and of the matcher *)

(** C5 at the byte-wise lower-casing and the sample of the specification,
    in mixed case: the rule starts with a star and the query name ends with
    the rest of the rule in the middle of a label. *)
Lemma C5_Match_semantics_witness :
  Strings.HasPrefix "*Foo.test.com" "*" = true /\
  normalize "EvilFoo.Test.COM." = "evil" +:+ "foo.test.com" /\
  normalize "*Foo.test.com" = String "*" "foo.test.com" /\
  Match "EvilFoo.Test.COM." "*Foo.test.com" = true /\
  Match "WWW.Example.COM." "www.example.com" = true.
Proof.
  destruct (C5_Match_semantics Strings.ToLower "EvilFoo.Test.COM." "*Foo.test.com"
              ToLower_lowers_like_the_library)
    as [_ [_ [_ [_ [_ [Hstar [_ [_ [_ [Hcase _]]]]]]]]]].
  destruct (Hstar eq_refl) as [rest [Hrest Hiff]].
  injection Hrest as <-.
  split; [reflexivity|]. split; [reflexivity|]. split; [reflexivity|].
  split; [|exact Hcase].
  apply Hiff. exists "evil". reflexivity.
Defined.

(** C7 at the sample manager: an unknown domain, a duplicate, and a new
    record. *)
Lemma C7_AddRecord_contract_witness :
  AddRecord sample_manager fs_ok "lab" rec_b = (Some (ErrDomainNotExist "lab"), sample_manager) /\
  AddRecord sample_manager fs_ok "test.com" rec_a_first =
    (Some (ErrRecordExists "test.com" "a.test.com" "A"), sample_manager) /\
  domainMap (snd (AddRecord sample_manager fs_ok "test.com" rec_b)) !! "test.com" =
    Some (append_record domain_test_com rec_b) /\
  fst (AddRecord sample_manager fs_ok "test.com" rec_b) = None.
Proof.
  destruct (C7_AddRecord_contract sample_manager fs_ok "lab" rec_b) as [Habsent _].
  destruct (C7_AddRecord_contract sample_manager fs_ok "test.com" rec_a_first)
    as [_ [Hdup _]].
  destruct (C7_AddRecord_contract sample_manager fs_ok "test.com" rec_b)
    as [_ [_ Hnew]].
  split; [apply Habsent; reflexivity|].
  split.
  { apply (Hdup domain_test_com); [reflexivity|].
    exists rec_a_first. split; [left; reflexivity|split; reflexivity]. }
  assert (Hfresh : forall r, In r (D_Records domain_test_com) ->
            ~ (R_Name r = R_Name rec_b /\ R_Type r = R_Type rec_b)).
  { intros r [<-|[]] [Hname _]. discriminate Hname. }
  destruct (Hnew domain_test_com eq_refl Hfresh) as [_ [Hlookup [_ Hwritten]]].
  split; [exact Hlookup|]. now apply Hwritten.
Defined.



(** * Further properties of the engine *)

Lemma ForwardRequest_loop_result {World}
    (Exchange : World -> Dns.Msg -> string -> ExchangeResult * World) ups w req :
  match all_fail Exchange ups w req with
  | Some w' => exists e, ForwardRequest_loop Exchange ups w req = ((None, Some e), w')
  | None => exists r w', ForwardRequest_loop Exchange ups w req = ((Some r, None), w')
  end.
Proof.
  revert w. induction ups as [|u ups IH]; intros w; simpl; [eauto|].
  destruct (Exchange w (Dns.Copy req) u) as [[[r|] [e|]] w1]; simpl;
    try apply IH. eauto.
Qed.

(** X1.  Whatever the request, the store and the network, the reply of
    [HandleRequest] carries the id and the opcode of the request, has the
    response bit set, repeats the first question and only that one, and
    copies the rd and cd bits of a standard query; a forwarded reply keeps
    the id of the query, not that of the upstream's response. *)
Theorem X1_reply_header :
  forall (World : Type) (Exchange : World -> Dns.Msg -> string -> ExchangeResult * World)
         (c : Config) (w : World) (req : Dns.Msg),
    Dns.Id (fst (HandleRequest Exchange c w req)) = Dns.Id req /\
    Dns.Response (fst (HandleRequest Exchange c w req)) = true /\
    Dns.Opcode (fst (HandleRequest Exchange c w req)) = Dns.Opcode req /\
    Dns.Questions (fst (HandleRequest Exchange c w req)) = take 1 (Dns.Questions req) /\
    (Dns.Opcode req = Dns.OpcodeQuery ->
       Dns.RecursionDesired (fst (HandleRequest Exchange c w req)) = Dns.RecursionDesired req /\
       Dns.CheckingDisabled (fst (HandleRequest Exchange c w req)) = Dns.CheckingDisabled req).
Proof.
  intros World Exchange c w req.
  destruct (Dns.Questions req) as [|question rest] eqn:Hq.
  - rewrite (HandleRequest_no_question Exchange c w req Hq). simpl. rewrite Hq.
    repeat split; try reflexivity;
        match goal with H : Dns.Opcode req = _ |- _ => rewrite H; reflexivity end.
  - destruct (IsDomainConfigured c (Dns.Name question)) eqn:Hc.
    + rewrite (HandleRequest_configured Exchange c w req _ _ Hq Hc). unfold local_reply.
      destruct (FindRecord c (Dns.Name question) (Dns.Qtype question)) as [record|];
        [destruct (synthesize (Dns.Name question) (Dns.Qtype question) record)|];
        simpl; rewrite Hq;
        repeat split; try reflexivity;
        match goal with H : Dns.Opcode req = _ |- _ => rewrite H; reflexivity end.
    + rewrite (HandleRequest_forwarded Exchange c w req _ _ Hq Hc).
      destruct (ForwardRequest Exchange c w req) as [[[r|] [e|]] w'];
        simpl; rewrite Hq;
        repeat split; try reflexivity;
        match goal with H : Dns.Opcode req = _ |- _ => rewrite H; reflexivity end.
Qed.

(** X2.  The reply has recursion-available cleared in one case only: the
    request has a question, its name is not configured, and every upstream
    failed.  Empty requests, local answers and forwarded answers all have
    it set. *)
Theorem X2_recursion_available_cleared_iff :
  forall (World : Type) (Exchange : World -> Dns.Msg -> string -> ExchangeResult * World)
         (c : Config) (w : World) (req : Dns.Msg),
    Dns.RecursionAvailable (fst (HandleRequest Exchange c w req)) = false <->
    exists question rest w',
      Dns.Questions req = question :: rest /\
      IsDomainConfigured c (Dns.Name question) = false /\
      all_fail Exchange (GetUpstream c) w req = Some w'.
Proof.
  intros World Exchange c w req.
  destruct (Dns.Questions req) as [|question rest] eqn:Hq.
  { rewrite (HandleRequest_no_question Exchange c w req Hq). simpl.
    split; [discriminate|]. intros (q & r & w' & Habs & _). discriminate. }
  destruct (IsDomainConfigured c (Dns.Name question)) eqn:Hc.
  { rewrite (HandleRequest_configured Exchange c w req _ _ Hq Hc). unfold local_reply.
    split.
    - destruct (FindRecord c (Dns.Name question) (Dns.Qtype question)) as [record|];
        [destruct (synthesize (Dns.Name question) (Dns.Qtype question) record)|];
        discriminate.
    - intros (q & r & w' & [= <- <-] & Habs & _). congruence. }
  rewrite (HandleRequest_forwarded Exchange c w req _ _ Hq Hc).
  pose proof (ForwardRequest_loop_result Exchange (GetUpstream c) w req) as Hres.
  fold (ForwardRequest Exchange c w req) in Hres.
  destruct (all_fail Exchange (GetUpstream c) w req) as [w1|].
  - destruct Hres as [e ->]. simpl. split; [|reflexivity].
    intros _. exists question, rest, w1. auto.
  - destruct Hres as (r & w1 & ->). simpl. split; [discriminate|].
    intros (q & rs & w' & _ & _ & Habs). discriminate.
Qed.

Lemma synthesize_header qname qtype record rr :
  synthesize qname qtype record = Some rr ->
  Dns.Header rr = answer_header qname qtype record.
Proof.
  unfold synthesize.
  repeat match goal with
         | |- context [if ?b then _ else _] => destruct b eqn:?
         | |- context [match ?x with Some _ => _ | None => _ end] => destruct x
         end;
    try discriminate; intros [= <-]; simpl;
    match goal with H : (qtype =? _) = true |- _ => apply Z.eqb_eq in H; now rewrite H end.
Qed.

(** X3.  A reply built from the store holds at most one answer and
    nothing in the authority and additional sections.  The answer's header
    has the name exactly as the query spelled it (not as the record spells
    it), the type of the query, class IN, and the TTL of the record that
    [FindRecord] returned. *)
Theorem X3_local_answer_matches_the_question :
  forall (World : Type) (Exchange : World -> Dns.Msg -> string -> ExchangeResult * World)
         (c : Config) (w : World) (req : Dns.Msg) (question : Dns.Question)
         (rest : list Dns.Question),
    Dns.Questions req = question :: rest ->
    IsDomainConfigured c (Dns.Name question) = true ->
    Dns.Ns (fst (HandleRequest Exchange c w req)) = [] /\
    Dns.Extra (fst (HandleRequest Exchange c w req)) = [] /\
    (Dns.Answer (fst (HandleRequest Exchange c w req)) = [] \/
     exists rr record,
       Dns.Answer (fst (HandleRequest Exchange c w req)) = [rr] /\
       FindRecord c (Dns.Name question) (Dns.Qtype question) = Some record /\
       Dns.Header rr =
         {| Dns.Hdr_Name := Dns.Name question; Dns.Rrtype := Dns.Qtype question;
            Dns.Class := Dns.ClassINET; Dns.Ttl := uint32 (R_TTL record) |}).
Proof.
  intros World Exchange c w req question rest Hq Hc.
  rewrite (HandleRequest_configured Exchange c w req _ _ Hq Hc). unfold local_reply. simpl.
  destruct (FindRecord c (Dns.Name question) (Dns.Qtype question)) as [record|];
    [|simpl; auto].
  destruct (synthesize (Dns.Name question) (Dns.Qtype question) record) as [rr|] eqn:Hs;
    [|simpl; auto].
  simpl. split; [reflexivity|]. split; [reflexivity|]. right.
  exists rr, record. split; [reflexivity|]. split; [reflexivity|].
  now apply synthesize_header.
Qed.

(** X3 at a sample: the query spells the name in upper case with a
    trailing dot, and so does the answer. *)
Lemma X3_local_answer_matches_the_question_witness :
  Dns.Answer (fst (HandleRequest dead_network only_an_A_record tt
                     (query "A.TEST.com." Dns.TypeA))) =
    [Dns.A {| Dns.Hdr_Name := "A.TEST.com."; Dns.Rrtype := Dns.TypeA;
              Dns.Class := Dns.ClassINET; Dns.Ttl := 60 |} [1; 1; 1; 1]] /\
  Dns.Ns (fst (HandleRequest dead_network only_an_A_record tt
                 (query "A.TEST.com." Dns.TypeA))) = [].
Proof.
  destruct (X3_local_answer_matches_the_question unit dead_network only_an_A_record tt
              (query "A.TEST.com." Dns.TypeA)
              {| Dns.Name := "A.TEST.com."; Dns.Qtype := Dns.TypeA;
                 Dns.Qclass := Dns.ClassINET |} [] eq_refl eq_refl) as [Hns _].
  split; [reflexivity|exact Hns].
Defined.

Lemma exact_hit_Match qname qtype record :
  exact_hit qname qtype record = true -> Match qname (R_Name record) = true.
Proof.
  unfold exact_hit. rewrite andb_true_iff, String.eqb_eq. intros [Hn _].
  now apply Match_exact_true.
Qed.

Lemma wildcard_hit_Match qname qtype record :
  wildcard_hit qname qtype record = true -> Match qname (R_Name record) = true.
Proof. unfold wildcard_hit. rewrite !andb_true_iff. tauto. Qed.

(** X4.  A record that [FindRecord] returns is a record of the store, its
    name matches the query name, and its type string is the one of the
    query type; so the name is then configured: the check that
    [HandleRequest] makes first never hides a record that [FindRecord]
    would find. *)
Theorem X4_found_record_is_configured :
  forall (c : Config) (qname : string) (qtype : Z) (record : DnsRecord),
    FindRecord c qname qtype = Some record ->
    (exists d, In d (Domains c) /\ In record (D_Records d)) /\
    Match qname (R_Name record) = true /\
    ((R_Type record = "A" /\ qtype = Dns.TypeA) \/
     (R_Type record = "AAAA" /\ qtype = Dns.TypeAAAA) \/
     (R_Type record = "CNAME" /\ qtype = Dns.TypeCNAME) \/
     (R_Type record = "TXT" /\ qtype = Dns.TypeTXT)) /\
    IsDomainConfigured c qname = true.
Proof.
  intros c qname qtype record Hfind.
  pose proof (FindRecord_type _ _ _ _ Hfind) as Htype.
  apply exact_type_matches_true in Htype.
  apply FindRecord_domains_sound in Hfind as [d [Hd [Hr Hhit]]].
  assert (Hm : Match qname (R_Name record) = true)
    by (destruct Hhit; eauto using exact_hit_Match, wildcard_hit_Match).
  split; [eauto|]. split; [exact Hm|]. split; [exact Htype|].
  apply IsDomainConfigured_true. eauto.
Qed.

Lemma X4_found_record_is_configured_witness :
  Match "x.y.test.com." (R_Name rec_wildcard) = true /\
  IsDomainConfigured zone_before_subzone "x.y.test.com." = true.
Proof.
  destruct (X4_found_record_is_configured zone_before_subzone "x.y.test.com." Dns.TypeA
              rec_wildcard eq_refl) as [_ [Hm [_ Hc]]].
  split; [exact Hm|exact Hc].
Defined.

Lemma answerable_false qtype :
  answerable qtype = false <->
  qtype <> Dns.TypeA /\ qtype <> Dns.TypeAAAA /\ qtype <> Dns.TypeCNAME /\ qtype <> Dns.TypeTXT.
Proof.
  unfold answerable. rewrite !orb_false_iff, !Z.eqb_neq. tauto.
Qed.

(** X5.  A query of a type other than [A], [AAAA], [CNAME] and [TXT]
    finds no record in any store.  When its name is configured it is
    answered locally with success and no data, and is never handed to an
    upstream, which could have answered it. *)
Theorem X5_other_query_types_get_no_data :
  forall (World : Type) (Exchange : World -> Dns.Msg -> string -> ExchangeResult * World)
         (c : Config) (w : World) (req : Dns.Msg) (question : Dns.Question)
         (rest : list Dns.Question),
    Dns.Questions req = question :: rest ->
    answerable (Dns.Qtype question) = false ->
    FindRecord c (Dns.Name question) (Dns.Qtype question) = None /\
    (IsDomainConfigured c (Dns.Name question) = true ->
       HandleRequest Exchange c w req =
         (Dns.SetRcode (reply_start req) req Dns.RcodeSuccess, w) /\
       Dns.Answer (fst (HandleRequest Exchange c w req)) = [] /\
       Dns.Rcode (fst (HandleRequest Exchange c w req)) = Dns.RcodeSuccess).
Proof.
  intros World Exchange c w req question rest Hq Hty.
  apply answerable_false in Hty.
  assert (Hnone : FindRecord c (Dns.Name question) (Dns.Qtype question) = None).
  { destruct (FindRecord c (Dns.Name question) (Dns.Qtype question)) as [r|] eqn:Hf;
      [|reflexivity].
    apply FindRecord_type, exact_type_matches_true in Hf. intuition congruence. }
  split; [exact Hnone|]. intros Hc.
  rewrite (HandleRequest_configured Exchange c w req _ _ Hq Hc).
  unfold local_reply. rewrite Hnone. auto.
Qed.

(** X5 at a sample: an MX query (type 15) for a name that has an [A]
    record. *)
Lemma X5_other_query_types_get_no_data_witness :
  FindRecord only_an_A_record "a.test.com." 15 = None /\
  Dns.Answer (fst (HandleRequest dead_network only_an_A_record tt (query "a.test.com." 15))) = [].
Proof.
  destruct (X5_other_query_types_get_no_data unit dead_network only_an_A_record tt
              (query "a.test.com." 15)
              {| Dns.Name := "a.test.com."; Dns.Qtype := 15; Dns.Qclass := Dns.ClassINET |}
              [] eq_refl eq_refl) as [Hnone Hlocal].
  split; [exact Hnone|]. now apply Hlocal.
Defined.

Lemma find_ext {A} (f g : A -> bool) (l : list A) :
  (forall x, f x = g x) -> find f l = find g l.
Proof.
  intros Hfg. induction l as [|x l IH]; simpl; [reflexivity|].
  rewrite Hfg, IH. reflexivity.
Qed.

Lemma Match_normalized q1 q2 rule :
  normalize q1 = normalize q2 -> Match q1 rule = Match q2 rule.
Proof. intros H. unfold Match. now rewrite H. Qed.

(** X6.  The lookup reads the query name only through its normal form:
    two spellings that differ in letter case or in one trailing dot match
    the same rules, are configured together, and find the same record. *)
Theorem X6_lookup_ignores_case_and_trailing_dot :
  forall (c : Config) (q1 q2 : string) (qtype : Z),
    normalize q1 = normalize q2 ->
    (forall rule, Match q1 rule = Match q2 rule) /\
    IsDomainConfigured c q1 = IsDomainConfigured c q2 /\
    FindRecord c q1 qtype = FindRecord c q2 qtype.
Proof.
  intros c q1 q2 qtype Hn.
  assert (Hm : forall rule, Match q1 rule = Match q2 rule)
    by (intros rule; now apply Match_normalized).
  split; [exact Hm|]. split.
  - unfold IsDomainConfigured.
    induction (GetDomains c) as [|d ds IH]; simpl; [reflexivity|].
    rewrite IH. f_equal.
    induction (D_Records d) as [|r rs IHr]; simpl; [reflexivity|].
    now rewrite IHr, Hm.
  - unfold FindRecord.
    induction (GetDomains c) as [|d ds IH]; simpl; [reflexivity|].
    rewrite IH.
    rewrite (find_ext (exact_hit q1 qtype) (exact_hit q2 qtype))
      by (intros r; unfold exact_hit; now rewrite Hn).
    rewrite (find_ext (wildcard_hit q1 qtype) (wildcard_hit q2 qtype))
      by (intros r; unfold wildcard_hit; now rewrite Hm).
    reflexivity.
Qed.

Lemma X6_lookup_ignores_case_and_trailing_dot_witness :
  IsDomainConfigured only_an_A_record "A.Test.COM." =
    IsDomainConfigured only_an_A_record "a.test.com" /\
  FindRecord only_an_A_record "A.Test.COM." Dns.TypeA =
    FindRecord only_an_A_record "a.test.com" Dns.TypeA.
Proof.
  destruct (X6_lookup_ignores_case_and_trailing_dot only_an_A_record
              "A.Test.COM." "a.test.com" Dns.TypeA eq_refl) as [_ H].
  exact H.
Defined.

(** X7.  A query for a configured name never reaches the network: for
    every network the state is returned as it was, the reply is the same
    whatever the network would have answered, and its code is success. *)
Theorem X7_configured_names_are_never_forwarded :
  forall (World : Type) (Exchange : World -> Dns.Msg -> string -> ExchangeResult * World)
         (c : Config) (w : World) (req : Dns.Msg) (question : Dns.Question)
         (rest : list Dns.Question),
    Dns.Questions req = question :: rest ->
    IsDomainConfigured c (Dns.Name question) = true ->
    snd (HandleRequest Exchange c w req) = w /\
    Dns.Rcode (fst (HandleRequest Exchange c w req)) = Dns.RcodeSuccess /\
    forall Exchange' : World -> Dns.Msg -> string -> ExchangeResult * World,
      HandleRequest Exchange' c w req = HandleRequest Exchange c w req.
Proof.
  intros World Exchange c w req question rest Hq Hc.
  rewrite (HandleRequest_configured Exchange c w req _ _ Hq Hc). simpl.
  split; [reflexivity|]. split; [apply local_reply_Rcode|].
  intros E'. apply (HandleRequest_configured E' c w req _ _ Hq Hc).
Qed.

Lemma X7_configured_names_are_never_forwarded_witness :
  snd (HandleRequest logging_network three_upstreams [] (query "a.test.com." Dns.TypeTXT)) = [] /\
  Dns.Rcode (fst (HandleRequest logging_network three_upstreams []
                    (query "a.test.com." Dns.TypeTXT))) = Dns.RcodeSuccess.
Proof.
  destruct (X7_configured_names_are_never_forwarded (list string) logging_network
              three_upstreams [] (query "a.test.com." Dns.TypeTXT)
              {| Dns.Name := "a.test.com."; Dns.Qtype := Dns.TypeTXT;
                 Dns.Qclass := Dns.ClassINET |} [] eq_refl eq_refl) as [Hw [Hr _]].
  split; [exact Hw|exact Hr].
Defined.

Lemma string_app_assoc (a b c : string) : (a +:+ b) +:+ c = a +:+ (b +:+ c).
Proof. induction a as [|x a IH]; [reflexivity|]. now rewrite !app_cons, IH. Qed.

Lemma slice_from_app_ge p t n :
  Strings.slice_from (String.length p + n) (p +:+ t) = Strings.slice_from n t.
Proof. induction p as [|x p IH]; [reflexivity|]. rewrite app_cons. exact IH. Qed.

(** A suffix no longer than the second part is a suffix of the second
    part alone. *)
Lemma HasSuffix_app_r p t suffix :
  (String.length suffix <= String.length t)%nat ->
  Strings.HasSuffix (p +:+ t) suffix = Strings.HasSuffix t suffix.
Proof.
  intros Hlen. unfold Strings.HasSuffix. rewrite string_length_app.
  replace (String.length p + String.length t - String.length suffix)%nat
    with (String.length p + (String.length t - String.length suffix))%nat by lia.
  rewrite slice_from_app_ge.
  replace (String.length suffix <=? String.length p + String.length t)%nat with true
    by (symmetry; apply Nat.leb_le; lia).
  replace (String.length suffix <=? String.length t)%nat with true
    by (symmetry; apply Nat.leb_le; lia).
  reflexivity.
Qed.

Lemma TrimSuffix_star_dot zone :
  zone <> "" ->
  Strings.TrimSuffix ("*." +:+ zone) "." = "*." +:+ Strings.TrimSuffix zone ".".
Proof.
  intros Hz.
  assert (Hlen : (String.length "." <= String.length zone)%nat)
    by (destruct zone; [congruence|simpl; lia]).
  destruct (Strings.HasSuffix zone ".") eqn:Hs.
  - apply HasSuffix_spec in Hs as [p ->].
    now rewrite <- string_app_assoc, !TrimSuffix_app.
  - unfold Strings.TrimSuffix at 2. rewrite Hs.
    unfold Strings.TrimSuffix. now rewrite HasSuffix_app_r, Hs.
Qed.

Lemma normalize_with_star_dot ToLower zone :
  lowers_like_the_library ToLower ->
  zone <> "" ->
  normalize_with ToLower ("*." +:+ zone) = "*." +:+ normalize_with ToLower zone.
Proof.
  intros [_ [Hhead _]] Hz. unfold normalize_with.
  rewrite (TrimSuffix_star_dot zone Hz).
  change ("*." +:+ Strings.TrimSuffix zone ".")
    with (String "*" (String "." (Strings.TrimSuffix zone "."))).
  now rewrite !Hhead by reflexivity.
Qed.

(** X8.  For every lower-casing function that behaves as the library's
    does, a rule of the form [*.zone] matches exactly the names whose
    normal form ends with [.zone]: every depth of sub-domain is covered,
    and the zone name itself is not. *)
Theorem X8_wildcard_covers_subdomains_not_the_apex :
  forall (ToLower : string -> string) (zone qname : string),
    lowers_like_the_library ToLower ->
    zone <> "" ->
    (Match_with ToLower qname ("*." +:+ zone) = true <->
     exists pre, normalize_with ToLower qname =
                   pre +:+ "." +:+ normalize_with ToLower zone) /\
    Match_with ToLower zone ("*." +:+ zone) = false.
Proof.
  intros ToLower zone qname Hlib Hz.
  pose proof (normalize_with_star_dot ToLower zone Hlib Hz) as Hrule.
  assert (Hiff : forall q, Match_with ToLower q ("*." +:+ zone) = true <->
                           exists pre, normalize_with ToLower q =
                                         pre +:+ "." +:+ normalize_with ToLower zone).
  { intros q.
    apply (Match_with_star_iff ToLower q ("*." +:+ zone) ("." +:+ normalize_with ToLower zone)).
    exact Hrule. }
  split; [apply Hiff|].
  destruct (Match_with ToLower zone ("*." +:+ zone)) eqn:Hm; [|reflexivity].
  apply Hiff in Hm as [pre Hpre].
  apply (f_equal String.length) in Hpre.
  rewrite !string_length_app in Hpre. simpl in Hpre. lia.
Qed.

(** X8 at the byte-wise lower-casing: a name two labels below the zone, in
    mixed case and with a trailing dot, and the zone itself. *)
Lemma X8_wildcard_covers_subdomains_not_the_apex_witness :
  Match "a.b.Test.com." ("*." +:+ "test.com") = true /\
  Match "test.com" ("*." +:+ "test.com") = false.
Proof.
  destruct (X8_wildcard_covers_subdomains_not_the_apex Strings.ToLower "test.com"
              "a.b.Test.com." ToLower_lowers_like_the_library)
    as [Hiff Hapex]; [discriminate|].
  split; [|exact Hapex].
  apply Hiff. exists "a.b". reflexivity.
Defined.

(** X9.  [ForwardRequest] contacts the upstreams in the configured order,
    each at most once and each with the query itself, and nothing else: on
    a network that records its exchanges, the record grows by a prefix of
    the upstream list.  The whole list is contacted when the call fails;
    the call returns either a response and no error or an error and no
    response. *)
Theorem X9_forwarding_contacts_a_prefix_of_the_upstreams :
  forall (answer : list (string * Dns.Msg) -> string -> Dns.Msg -> ExchangeResult)
         (c : Config) (w : list (string * Dns.Msg)) (req : Dns.Msg),
  exists n : nat,
    (n <= length (GetUpstream c))%nat /\
    snd (ForwardRequest (recording answer) c w req) =
      w ++ map (fun upstream => (upstream, req)) (take n (GetUpstream c)) /\
    (((exists e, fst (ForwardRequest (recording answer) c w req) = (None, Some e)) /\
      n = length (GetUpstream c)) \/
     ((exists r, fst (ForwardRequest (recording answer) c w req) = (Some r, None)) /\
      (0 < n)%nat)).
Proof.
  intros answer c w req. unfold ForwardRequest.
  revert w. induction (GetUpstream c) as [|u ups IH]; intros w.
  - exists 0%nat. simpl. rewrite app_nil_r. split; [lia|]. split; [reflexivity|].
    left. eauto.
  - simpl. unfold recording at 1. unfold Dns.Copy.
    assert (Hrest : exists n : nat,
      (n <= S (length ups))%nat /\
      snd (ForwardRequest_loop (recording answer) ups (w ++ [(u, req)]) req) =
        w ++ map (fun upstream => (upstream, req)) (take n (u :: ups)) /\
      (((exists e, fst (ForwardRequest_loop (recording answer) ups (w ++ [(u, req)]) req)
                   = (None, Some e)) /\ n = S (length ups)) \/
       ((exists r, fst (ForwardRequest_loop (recording answer) ups (w ++ [(u, req)]) req)
                   = (Some r, None)) /\ (0 < n)%nat))).
    { destruct (IH (w ++ [(u, req)])) as (n & Hn & Hw & Hres).
      exists (S n). split; [lia|]. split.
      - rewrite Hw. simpl. now rewrite <- app_assoc.
      - destruct Hres as [[He ->]|[Hr _]]; [left|right]; split; auto; lia. }
    destruct (answer w u req) as [[r|] [e|]]; try exact Hrest.
    exists 1%nat. simpl. split; [lia|]. split; [reflexivity|].
    right. split; [eauto|lia].
Qed.

Lemma HasSuffix_dot_added value : Strings.HasSuffix (value +:+ ".") "." = true.
Proof. apply HasSuffix_spec. now exists value. Qed.

(** X10.  The answer to a [CNAME] query carries a target that always ends
    with a dot: the record's value as it is when it ends with a dot, and
    with one dot added otherwise; nothing else of the value is changed. *)
Theorem X10_CNAME_target_is_dot_terminated :
  forall (qname : string) (record : DnsRecord),
    R_Type record = "CNAME" ->
    exists target,
      synthesize qname Dns.TypeCNAME record =
        Some (Dns.CNAME (answer_header qname Dns.TypeCNAME record) target) /\
      Strings.HasSuffix target "." = true /\
      Strings.TrimSuffix target "." = Strings.TrimSuffix (R_Value record) "." /\
      (Strings.HasSuffix (R_Value record) "." = true -> target = R_Value record).
Proof.
  intros qname record Hty. unfold synthesize. rewrite Hty. simpl.
  destruct (Strings.HasSuffix (R_Value record) ".") eqn:Hs; simpl.
  - exists (R_Value record). auto.
  - exists (R_Value record +:+ "."). split; [reflexivity|].
    split; [apply HasSuffix_dot_added|]. split; [|discriminate].
    rewrite TrimSuffix_app. unfold Strings.TrimSuffix. now rewrite Hs.
Qed.

Lemma X10_CNAME_target_is_dot_terminated_witness :
  exists target,
    synthesize "www.test.com."  Dns.TypeCNAME
      {| R_Name := "www.test.com"; R_Type := "CNAME"; R_Value := "host.test.com";
         R_TTL := 60 |} =
      Some (Dns.CNAME
              (answer_header "www.test.com." Dns.TypeCNAME
                 {| R_Name := "www.test.com"; R_Type := "CNAME";
                    R_Value := "host.test.com"; R_TTL := 60 |}) target) /\
    Strings.HasSuffix target "." = true.
Proof.
  destruct (X10_CNAME_target_is_dot_terminated "www.test.com."
              {| R_Name := "www.test.com"; R_Type := "CNAME"; R_Value := "host.test.com";
                 R_TTL := 60 |} eq_refl) as [target [Hs [Hdot _]]].
  exists target. split; [exact Hs|exact Hdot].
Defined.

(** * Further properties of the record store *)

Lemma build_domainMap_snoc domains domain :
  build_domainMap (domains ++ [domain]) =
    <[D_Name domain := domain]> (build_domainMap domains).
Proof. unfold build_domainMap. now rewrite foldl_app. Qed.

Lemma build_domainMap_lookup_Some domains key domain :
  build_domainMap domains !! key = Some domain ->
  In domain domains /\ D_Name domain = key.
Proof.
  induction domains as [|d domains IH] using rev_ind; [discriminate|].
  rewrite build_domainMap_snoc.
  destruct (decide (D_Name d = key)) as [<-|Hne].
  - rewrite lookup_insert_eq. intros [= <-]. split; [apply in_or_app; simpl; auto|reflexivity].
  - rewrite lookup_insert_ne by exact Hne. intros H. destruct (IH H) as [Hin Hn].
    split; [apply in_or_app; auto|exact Hn].
Qed.

Lemma build_domainMap_last_wins before domain after :
  (forall d, In d after -> D_Name d <> D_Name domain) ->
  build_domainMap (before ++ domain :: after) !! D_Name domain = Some domain.
Proof.
  induction after as [|x after IH] using rev_ind; intros Hafter.
  - change (before ++ [domain]) with (before ++ [domain]).
    rewrite build_domainMap_snoc. apply lookup_insert_eq.
  - replace (before ++ domain :: after ++ [x]) with ((before ++ domain :: after) ++ [x])
      by (rewrite <- app_assoc; reflexivity).
    rewrite build_domainMap_snoc, lookup_insert_ne.
    + apply IH. intros d Hd. apply Hafter, in_or_app. auto.
    + apply Hafter, in_or_app. simpl. auto.
Qed.

Lemma build_domainMap_lookup_None domains key :
  (forall d, In d domains -> D_Name d <> key) -> build_domainMap domains !! key = None.
Proof.
  intros Hno. destruct (build_domainMap domains !! key) as [d|] eqn:Hl; [|reflexivity].
  apply build_domainMap_lookup_Some in Hl as [Hin Hn]. now destruct (Hno d Hin).
Qed.

(** X11.  [Load] replaces the in-memory map by the decoded domain list,
    every domain under its own name: a name that is listed is present, a
    name that is not listed is absent, whatever the map held before, and of
    two listed domains with the same name the later one wins.  When
    reading, parsing or decoding fails, the manager is returned as it
    was. *)
Theorem X11_Load_rebuilds_the_map :
  forall (m : ViperYAMLManager) (io : LoadOutcome),
    (ReadFile_ok io && yaml_Unmarshal_ok io && UnmarshalKey_ok io = false ->
       exists e, Load m io = (Some e, m)) /\
    (ReadFile_ok io && yaml_Unmarshal_ok io && UnmarshalKey_ok io = true ->
       fst (Load m io) = None /\
       keys_are_names (domainMap (snd (Load m io))) /\
       (forall before domain after,
          viperDomains m = before ++ domain :: after ->
          (forall d, In d after -> D_Name d <> D_Name domain) ->
          GetDomain (snd (Load m io)) (D_Name domain) = (domain, None)) /\
       (forall name,
          (forall d, In d (viperDomains m) -> D_Name d <> name) ->
          domainMap (snd (Load m io)) !! name = None)).
Proof.
  intros m io. unfold Load. split.
  - destruct (ReadFile_ok io), (yaml_Unmarshal_ok io), (UnmarshalKey_ok io);
      simpl; try discriminate; eauto.
  - intros Hok. apply andb_true_iff in Hok as [Hok ->].
    apply andb_true_iff in Hok as [-> ->]. simpl.
    split; [reflexivity|]. split; [|split].
    + intros key domain Hl. now apply build_domainMap_lookup_Some in Hl.
    + intros before domain after Hlist Hafter. unfold GetDomain. simpl.
      now rewrite Hlist, build_domainMap_last_wins.
    + intros name Hno. now apply build_domainMap_lookup_None.
Qed.

(** X11 at a sample: the document lists [test.com] twice. *)
Lemma X11_Load_rebuilds_the_map_witness :
  GetDomain
    (snd (Load (fresh_manager [ {| D_Name := "test.com"; D_Records := [rec_a_first] |};
                                {| D_Name := "test.com"; D_Records := [rec_b] |} ])
               load_ok)) "test.com" =
    ({| D_Name := "test.com"; D_Records := [rec_b] |}, None).
Proof.
  destruct (X11_Load_rebuilds_the_map
              (fresh_manager [ {| D_Name := "test.com"; D_Records := [rec_a_first] |};
                               {| D_Name := "test.com"; D_Records := [rec_b] |} ])
              load_ok) as [_ Hok].
  destruct (Hok eq_refl) as [_ [_ [Hlast _]]].
  apply (Hlast [ {| D_Name := "test.com"; D_Records := [rec_a_first] |} ]
               {| D_Name := "test.com"; D_Records := [rec_b] |} []); [reflexivity|].
  intros d [].
Defined.

Lemma keys_are_names_insert dm key domain :
  keys_are_names dm -> D_Name domain = key -> keys_are_names (<[key := domain]> dm).
Proof.
  intros Hinv Hname k d. destruct (decide (key = k)) as [<-|Hne].
  - rewrite lookup_insert_eq. now intros [= <-].
  - rewrite lookup_insert_ne by exact Hne. apply Hinv.
Qed.

Lemma keys_are_names_delete dm key :
  keys_are_names dm -> keys_are_names (delete key dm).
Proof.
  intros Hinv k d. destruct (decide (key = k)) as [<-|Hne].
  - now rewrite lookup_delete_eq.
  - rewrite lookup_delete_ne by exact Hne. apply Hinv.
Qed.

Lemma mutate_keys_are_names m fs mu :
  keys_are_names (domainMap m) -> keys_are_names (domainMap (snd (mutate m fs mu))).
Proof.
  intros Hinv.
  destruct mu as [domain|domainName|domainName record|domainName recordName newRecord
                 |domainName recordName]; simpl.
  - unfold AddOrUpdateDomain. destruct (String.eqb (D_Name domain) ""); [exact Hinv|].
    rewrite updateDomainsNode_domainMap. simpl. now apply keys_are_names_insert.
  - unfold DeleteDomain. destruct (domainMap m !! domainName); [|exact Hinv].
    rewrite updateDomainsNode_domainMap. simpl. now apply keys_are_names_delete.
  - unfold AddRecord. destruct (domainMap m !! domainName) as [d|] eqn:Hd; [|exact Hinv].
    destruct (existsb (same_name_type record) (D_Records d)); [exact Hinv|].
    rewrite updateDomainsNode_domainMap. simpl.
    apply keys_are_names_insert; [exact Hinv|]. simpl. now apply Hinv.
  - unfold UpdateRecord. destruct (domainMap m !! domainName) as [d|] eqn:Hd; [|exact Hinv].
    destruct (index_of_name recordName (D_Records d) 0); [|exact Hinv].
    rewrite updateDomainsNode_domainMap. simpl.
    apply keys_are_names_insert; [exact Hinv|]. simpl. now apply Hinv.
  - unfold DeleteRecord. destruct (domainMap m !! domainName) as [d|] eqn:Hd; [|exact Hinv].
    destruct (negb (existsb (fun r => String.eqb (R_Name r) recordName) (D_Records d)));
      [exact Hinv|].
    rewrite updateDomainsNode_domainMap. simpl.
    apply keys_are_names_insert; [exact Hinv|]. simpl. now apply Hinv.
Qed.

(** X12.  Every mutating call keeps each domain stored under its own
    name, whether it is rejected, persisted or fails to persist; and so
    does [Load], whatever it read. *)
Theorem X12_mutations_keep_domains_under_their_names :
  forall (m : ViperYAMLManager) (fs : FsOutcome) (io : LoadOutcome) (mu : Mutation),
    keys_are_names (domainMap m) ->
    keys_are_names (domainMap (snd (mutate m fs mu))) /\
    keys_are_names (domainMap (snd (Load m io))).
Proof.
  intros m fs io mu Hinv. split; [now apply mutate_keys_are_names|].
  unfold Load.
  destruct (ReadFile_ok io), (yaml_Unmarshal_ok io), (UnmarshalKey_ok io);
    simpl; try exact Hinv.
  intros key domain Hl. now apply build_domainMap_lookup_Some in Hl.
Qed.

Lemma sample_manager_keys_are_names : keys_are_names (domainMap sample_manager).
Proof.
  intros key domain. unfold sample_manager. simpl.
  destruct (decide ("test.com" = key)) as [<-|Hne].
  - rewrite lookup_singleton_eq. now intros [= <-].
  - now rewrite lookup_singleton_ne.
Qed.

Lemma X12_mutations_keep_domains_under_their_names_witness :
  keys_are_names
    (domainMap (snd (mutate sample_manager fs_read_only (MAddRecord "test.com" rec_b)))) /\
  keys_are_names (domainMap (snd (Load sample_manager load_ok))).
Proof.
  apply (X12_mutations_keep_domains_under_their_names sample_manager fs_read_only load_ok
           (MAddRecord "test.com" rec_b)).
  exact sample_manager_keys_are_names.
Defined.

Lemma build_domainMap_listed domains domain :
  In domain domains -> is_Some (build_domainMap domains !! D_Name domain).
Proof.
  induction domains as [|d domains IH] using rev_ind; [intros []|].
  intros Hin. rewrite build_domainMap_snoc.
  destruct (decide (D_Name d = D_Name domain)) as [He|Hne].
  - rewrite He, lookup_insert_eq. eauto.
  - rewrite lookup_insert_ne by exact Hne. apply IH.
    apply in_app_or in Hin as [Hin|[->|[]]]; [exact Hin|congruence].
Qed.

Lemma In_values (dm : gmap string Domain) domain :
  In domain (map_to_list dm).*2 <-> exists key, dm !! key = Some domain.
Proof.
  rewrite <- list_elem_of_In, list_elem_of_fmap. split.
  - intros [[k d] [-> Hin]]. apply elem_of_map_to_list in Hin. eauto.
  - intros [k Hk]. exists (k, domain). split; [reflexivity|].
    now apply elem_of_map_to_list.
Qed.

(** Rebuilding a map from its own domains gives the map back, provided
    every domain is stored under its own name. *)
Lemma build_domainMap_values (dm : gmap string Domain) :
  keys_are_names dm -> build_domainMap (map_to_list dm).*2 = dm.
Proof.
  intros Hinv. apply map_eq. intros key.
  destruct (dm !! key) as [d|] eqn:Hd.
  - assert (Hin : In d (map_to_list dm).*2) by (apply In_values; eauto).
    destruct (build_domainMap_listed _ _ Hin) as [d' Hd'].
    rewrite (Hinv _ _ Hd) in Hd'. rewrite Hd'.
    apply build_domainMap_lookup_Some in Hd' as [Hin' Hn'].
    apply In_values in Hin' as [key' Hk'].
    assert (key' = key) by (rewrite <- (Hinv _ _ Hk'); exact Hn'). subst key'.
    congruence.
  - apply build_domainMap_lookup_None. intros d Hin Hn.
    apply In_values in Hin as [key' Hk'].
    assert (key' = key) by (rewrite <- (Hinv _ _ Hk'); exact Hn). subst key'.
    congruence.
Qed.

Lemma updateDomainsNode_nil m fs :
  fst (updateDomainsNode m fs) = None ->
  snd (updateDomainsNode m fs) =
    {| domainMap := domainMap m;
       viperDomains := (range_domainMap m).*2;
       document := Some (range_domainMap m).*2 |}.
Proof.
  unfold updateDomainsNode.
  destruct (WriteConfig_ok fs), (SafeWriteConfig_ok fs), (MkdirAll_ok fs),
    (OpenFile_ok fs), (Encode_ok fs), (ReadInConfig_ok fs); simpl;
    try discriminate; reflexivity.
Qed.

(** A mutating call is either rejected, with the manager as it was, or
    ends in [updateDomainsNode] on a changed map. *)
Lemma mutate_cases m fs mu :
  (exists e, mutate m fs mu = (Some e, m)) \/
  (exists dm, mutate m fs mu = updateDomainsNode (with_domainMap m dm) fs).
Proof.
  destruct mu as [domain|domainName|domainName record|domainName recordName newRecord
                 |domainName recordName]; simpl.
  - unfold AddOrUpdateDomain. destruct (String.eqb (D_Name domain) ""); eauto.
  - unfold DeleteDomain. destruct (domainMap m !! domainName); eauto.
  - unfold AddRecord. destruct (domainMap m !! domainName) as [d|]; [|eauto].
    destruct (existsb (same_name_type record) (D_Records d)); eauto.
  - unfold UpdateRecord. destruct (domainMap m !! domainName) as [d|]; [|eauto].
    destruct (index_of_name recordName (D_Records d) 0); eauto.
  - unfold DeleteRecord. destruct (domainMap m !! domainName) as [d|]; [|eauto].
    destruct (negb (existsb (fun r => String.eqb (R_Name r) recordName) (D_Records d)));
      eauto.
Qed.

(** X13.  Persistence round trip.  When a mutating call returns no error
    on a store that keeps every domain under its own name, the document
    holds the domains of the new map, and loading it, in a new process or
    in the same manager, rebuilds exactly that map. *)
Theorem X13_persist_then_Load_round_trip :
  forall (m : ViperYAMLManager) (fs : FsOutcome) (mu : Mutation),
    keys_are_names (domainMap m) ->
    fst (mutate m fs mu) = None ->
    exists doc,
      document (snd (mutate m fs mu)) = Some doc /\
      Load (fresh_manager doc) load_ok =
        (None, {| domainMap := domainMap (snd (mutate m fs mu));
                  viperDomains := doc; document := Some doc |}) /\
      Load (snd (mutate m fs mu)) load_ok = (None, snd (mutate m fs mu)).
Proof.
  intros m fs mu Hinv Hnil.
  pose proof (mutate_keys_are_names m fs mu Hinv) as Hinv'.
  destruct (mutate_cases m fs mu) as [[e He]|[dm Hdm]].
  { rewrite He in Hnil. discriminate. }
  rewrite Hdm in *.
  pose proof (updateDomainsNode_nil _ _ Hnil) as Hsnd.
  rewrite Hsnd in *. simpl in *.
  exists (map_to_list dm).*2. split; [reflexivity|].
  unfold Load, fresh_manager, NewViperYAMLManager, with_domainMap, range_domainMap. simpl.
  rewrite (build_domainMap_values dm Hinv'). auto.
Qed.

(** X13 at the sample manager: a record is added and the write succeeds. *)
Lemma X13_persist_then_Load_round_trip_witness :
  exists doc,
    document (snd (mutate sample_manager fs_ok (MAddRecord "test.com" rec_b))) = Some doc /\
    Load (fresh_manager doc) load_ok =
      (None, {| domainMap :=
                  domainMap (snd (mutate sample_manager fs_ok (MAddRecord "test.com" rec_b)));
                viperDomains := doc; document := Some doc |}) /\
    Load (snd (mutate sample_manager fs_ok (MAddRecord "test.com" rec_b))) load_ok =
      (None, snd (mutate sample_manager fs_ok (MAddRecord "test.com" rec_b))).
Proof.
  apply (X13_persist_then_Load_round_trip sample_manager fs_ok (MAddRecord "test.com" rec_b)).
  - exact sample_manager_keys_are_names.
  - vm_compute. reflexivity.
Defined.

(** X14.  What the persistence step leaves behind.  It never touches the
    in-memory map and always hands the domains of the map to viper.  A nil
    error means the document holds those domains.  An error does not say
    whether it does: after a failed reload the document has been written in
    full, after a failed encoding the file has been truncated, and only
    after a failed directory creation or open is it what it was. *)
Theorem X14_what_the_persistence_step_leaves_behind :
  forall (m : ViperYAMLManager) (fs : FsOutcome),
    domainMap (snd (updateDomainsNode m fs)) = domainMap m /\
    viperDomains (snd (updateDomainsNode m fs)) = (range_domainMap m).*2 /\
    (fst (updateDomainsNode m fs) = None \/
     fst (updateDomainsNode m fs) = Some ErrReadInConfig ->
       document (snd (updateDomainsNode m fs)) = Some (range_domainMap m).*2) /\
    (fst (updateDomainsNode m fs) = Some ErrEncode ->
       document (snd (updateDomainsNode m fs)) = None) /\
    (fst (updateDomainsNode m fs) = Some ErrMkdirAll \/
     fst (updateDomainsNode m fs) = Some ErrOpenFile ->
       document (snd (updateDomainsNode m fs)) = document m) /\
    (fst (updateDomainsNode m fs) = None <->
       (WriteConfig_ok fs || SafeWriteConfig_ok fs
        || (MkdirAll_ok fs && OpenFile_ok fs && Encode_ok fs))
       && ReadInConfig_ok fs = true).
Proof.
  intros m fs. unfold updateDomainsNode.
  destruct (WriteConfig_ok fs), (SafeWriteConfig_ok fs), (MkdirAll_ok fs),
    (OpenFile_ok fs), (Encode_ok fs), (ReadInConfig_ok fs); simpl;
    repeat split; try reflexivity; try discriminate; intros [H|H]; discriminate.
Qed.

(** X15.  Insert, look up, delete.  After [AddOrUpdateDomain] of a domain
    with a name, whatever the persistence step did, [GetDomain] and
    [GetRecords] under that name return the domain and its records (the
    records it had before are gone) and every other name reads as before;
    a [DeleteDomain] that follows leaves the map as if the domain had
    never been stored. *)
Theorem X15_domain_insert_lookup_delete :
  forall (m : ViperYAMLManager) (fs fs' : FsOutcome) (domain : Domain),
    D_Name domain <> "" ->
    GetDomain (snd (AddOrUpdateDomain m fs domain)) (D_Name domain) = (domain, None) /\
    GetRecords (snd (AddOrUpdateDomain m fs domain)) (D_Name domain) =
      (Some (D_Records domain), None) /\
    (forall other, other <> D_Name domain ->
       GetDomain (snd (AddOrUpdateDomain m fs domain)) other = GetDomain m other) /\
    domainMap (snd (DeleteDomain (snd (AddOrUpdateDomain m fs domain)) fs' (D_Name domain))) =
      delete (D_Name domain) (domainMap m).
Proof.
  intros m fs fs' domain Hname. apply String.eqb_neq in Hname.
  unfold AddOrUpdateDomain. rewrite Hname.
  unfold GetDomain, GetRecords, DeleteDomain.
  rewrite !updateDomainsNode_domainMap. simpl.
  rewrite lookup_insert_eq.
  split; [reflexivity|]. split; [reflexivity|]. split.
  - intros other Hne. now rewrite lookup_insert_ne by congruence.
  - rewrite updateDomainsNode_domainMap. simpl. apply delete_insert_eq.
Qed.

Lemma X15_domain_insert_lookup_delete_witness :
  GetDomain (snd (AddOrUpdateDomain sample_manager fs_read_only domain_lab)) "lab" =
    (domain_lab, None) /\
  GetRecords (snd (AddOrUpdateDomain sample_manager fs_read_only domain_lab)) "lab" =
    (Some [rec_a_second], None).
Proof.
  destruct (X15_domain_insert_lookup_delete sample_manager fs_read_only fs_ok domain_lab)
    as [Hget [Hrec _]]; [discriminate|].
  split; [exact Hget|exact Hrec].
Defined.

(** X16.  After [DeleteDomain] of a stored domain, whatever the
    persistence step did, the name is gone: [GetDomain] and [GetRecords]
    fail with the not-found error, [ListDomains] lists the other names and
    only those, every other name reads as before, and a second
    [DeleteDomain] is rejected and changes nothing. *)
Theorem X16_DeleteDomain_removes_the_name :
  forall (m : ViperYAMLManager) (fs fs' : FsOutcome) (domainName : string) (domain : Domain),
    domainMap m !! domainName = Some domain ->
    GetDomain (snd (DeleteDomain m fs domainName)) domainName =
      (zero_Domain, Some (ErrDomainNotExist domainName)) /\
    GetRecords (snd (DeleteDomain m fs domainName)) domainName =
      (None, Some (ErrDomainNotExist domainName)) /\
    (forall other, other <> domainName ->
       GetDomain (snd (DeleteDomain m fs domainName)) other = GetDomain m other) /\
    (forall name, In name (ListDomains (snd (DeleteDomain m fs domainName))) <->
                  In name (ListDomains m) /\ name <> domainName) /\
    DeleteDomain (snd (DeleteDomain m fs domainName)) fs' domainName =
      (Some (ErrDomainNotExist domainName), snd (DeleteDomain m fs domainName)).
Proof.
  intros m fs fs' domainName domain Hd.
  assert (Hmap : domainMap (snd (DeleteDomain m fs domainName)) = delete domainName (domainMap m)).
  { unfold DeleteDomain. rewrite Hd. now rewrite updateDomainsNode_domainMap. }
  split; [|split; [|split; [|split]]].
  - unfold GetDomain. now rewrite Hmap, lookup_delete_eq.
  - unfold GetRecords. now rewrite Hmap, lookup_delete_eq.
  - intros other Hne. unfold GetDomain. now rewrite Hmap, lookup_delete_ne by congruence.
  - intros name. unfold ListDomains, range_domainMap. rewrite Hmap.
    rewrite <- !list_elem_of_In, !list_elem_of_fmap. split.
    + intros [[k d] [-> Hin]]. apply elem_of_map_to_list in Hin. simpl.
      destruct (decide (domainName = k)) as [->|Hne]; [now rewrite lookup_delete_eq in Hin|].
      rewrite lookup_delete_ne in Hin by exact Hne.
      split; [|congruence]. exists (k, d). split; [reflexivity|].
      now apply elem_of_map_to_list.
    + intros [[[k d] [-> Hin]] Hne]. apply elem_of_map_to_list in Hin. simpl in *.
      exists (k, d). split; [reflexivity|]. apply elem_of_map_to_list.
      now rewrite lookup_delete_ne by congruence.
  - generalize dependent (snd (DeleteDomain m fs domainName)). intros m' Hm'.
    unfold DeleteDomain. now rewrite Hm', lookup_delete_eq.
Qed.

Lemma X16_DeleteDomain_removes_the_name_witness :
  GetDomain (snd (DeleteDomain sample_manager fs_ok "test.com")) "test.com" =
    (zero_Domain, Some (ErrDomainNotExist "test.com")) /\
  DeleteDomain (snd (DeleteDomain sample_manager fs_ok "test.com")) fs_ok "test.com" =
    (Some (ErrDomainNotExist "test.com"), snd (DeleteDomain sample_manager fs_ok "test.com")).
Proof.
  destruct (X16_DeleteDomain_removes_the_name sample_manager fs_ok fs_ok "test.com"
              domain_test_com eq_refl) as [Hget [_ [_ [_ Hagain]]]].
  split; [exact Hget|exact Hagain].
Defined.

(** X17.  [ListDomains] returns the stored names, each once: a name is
    listed exactly when [GetDomain] finds it, and the list is as long as
    the total that [ListDomainsWithPagination] reports. *)
Theorem X17_ListDomains_lists_the_stored_names :
  forall (m : ViperYAMLManager),
    NoDup (ListDomains m) /\
    (forall name, In name (ListDomains m) <-> snd (GetDomain m name) = None) /\
    (forall name, In name (ListDomains m) <->
                  exists domain, GetDomain m name = (domain, None) /\
                                 domainMap m !! name = Some domain) /\
    length (ListDomains m) = size (domainMap m).
Proof.
  intros m. unfold ListDomains, range_domainMap, GetDomain.
  assert (Hin : forall name, In name (map_to_list (domainMap m)).*1 <->
                             exists domain, domainMap m !! name = Some domain).
  { intros name. rewrite <- list_elem_of_In, list_elem_of_fmap. split.
    - intros [[k d] [-> H]]. apply elem_of_map_to_list in H. eauto.
    - intros [d Hd]. exists (name, d). split; [reflexivity|].
      now apply elem_of_map_to_list. }
  split; [apply NoDup_fst_map_to_list|]. split; [|split].
  - intros name. rewrite Hin. destruct (domainMap m !! name) as [d|]; simpl.
    + split; eauto.
    + split; [intros [d Hd]; discriminate|discriminate].
  - intros name. rewrite Hin. destruct (domainMap m !! name) as [d|]; simpl.
    + split; intros _; eauto.
    + split; [intros [d Hd]; discriminate|intros [d [Hd _]]; discriminate].
  - now rewrite length_fmap, length_map_to_list.
Qed.

Lemma existsb_name records recordName :
  existsb (fun r => String.eqb (R_Name r) recordName) records = true <->
  exists r, In r records /\ R_Name r = recordName.
Proof.
  rewrite existsb_exists. split; intros [r [Hin H]]; exists r; split; auto.
  - now apply String.eqb_eq.
  - now apply String.eqb_eq.
Qed.

Lemma In_filter_name records recordName r :
  In r (List.filter (fun r => negb (String.eqb (R_Name r) recordName)) records) <->
  In r records /\ R_Name r <> recordName.
Proof.
  rewrite filter_In, negb_true_iff, String.eqb_neq. reflexivity.
Qed.

(** X18.  After [AddRecord] of a record whose name and type are new in
    the domain, whatever the persistence step did, [GetRecords] returns the
    former records followed by the new one; and a further [AddRecord] of
    any record with that name and type, whatever its value, is rejected
    with the conflict error and changes nothing. *)
Theorem X18_AddRecord_then_GetRecords :
  forall (m : ViperYAMLManager) (fs fs' : FsOutcome) (domainName : string)
         (domain : Domain) (record : DnsRecord),
    domainMap m !! domainName = Some domain ->
    (forall r, In r (D_Records domain) ->
               ~ (R_Name r = R_Name record /\ R_Type r = R_Type record)) ->
    GetRecords (snd (AddRecord m fs domainName record)) domainName =
      (Some (D_Records domain ++ [record]), None) /\
    forall again,
      R_Name again = R_Name record -> R_Type again = R_Type record ->
      AddRecord (snd (AddRecord m fs domainName record)) fs' domainName again =
        (Some (ErrRecordExists domainName (R_Name again) (R_Type again)),
         snd (AddRecord m fs domainName record)).
Proof.
  intros m fs fs' domainName domain record Hd Hfresh.
  assert (Hex : existsb (same_name_type record) (D_Records domain) = false).
  { destruct (existsb (same_name_type record) (D_Records domain)) eqn:Hex; [|reflexivity].
    apply existsb_same_name_type in Hex as [r [Hin Hr]]. now destruct (Hfresh r Hin). }
  assert (Hmap : domainMap (snd (AddRecord m fs domainName record)) !! domainName =
                 Some (append_record domain record)).
  { unfold AddRecord. rewrite Hd, Hex, updateDomainsNode_domainMap. simpl.
    apply lookup_insert_eq. }
  split.
  - unfold GetRecords. now rewrite Hmap.
  - intros again Hn Ht.
    generalize dependent (snd (AddRecord m fs domainName record)). intros m' Hm'.
    unfold AddRecord. rewrite Hm'.
    replace (existsb (same_name_type again) (D_Records (append_record domain record)))
      with true; [reflexivity|].
    symmetry. apply existsb_same_name_type. exists record. simpl.
    split; [apply in_or_app; simpl; auto|auto].
Qed.

Lemma X18_AddRecord_then_GetRecords_witness :
  GetRecords (snd (AddRecord sample_manager fs_read_only "test.com" rec_b)) "test.com" =
    (Some [rec_a_first; rec_b], None).
Proof.
  destruct (X18_AddRecord_then_GetRecords sample_manager fs_read_only fs_ok "test.com"
              domain_test_com rec_b eq_refl) as [Hget _].
  - intros r [<-|[]] [Hname _]. discriminate Hname.
  - exact Hget.
Defined.

(** X19.  [DeleteRecord] removes every record that has the name, of
    whatever type, and keeps the others in their order.  Afterwards,
    whatever the persistence step did, the domain has no record of that
    name: a second [DeleteRecord] and an [UpdateRecord] of the name are
    rejected with the not-found error and change nothing. *)
Theorem X19_DeleteRecord_removes_every_record_of_the_name :
  forall (m : ViperYAMLManager) (fs fs' : FsOutcome) (domainName recordName : string)
         (domain : Domain) (newRecord : DnsRecord),
    domainMap m !! domainName = Some domain ->
    (exists r, In r (D_Records domain) /\ R_Name r = recordName) ->
    GetRecords (snd (DeleteRecord m fs domainName recordName)) domainName =
      (Some (List.filter (fun r => negb (String.eqb (R_Name r) recordName))
                         (D_Records domain)), None) /\
    (forall remaining,
       GetRecords (snd (DeleteRecord m fs domainName recordName)) domainName =
         (Some remaining, None) ->
       forall r, In r remaining <-> In r (D_Records domain) /\ R_Name r <> recordName) /\
    DeleteRecord (snd (DeleteRecord m fs domainName recordName)) fs' domainName recordName =
      (Some (ErrRecordNotExist domainName recordName),
       snd (DeleteRecord m fs domainName recordName)) /\
    UpdateRecord (snd (DeleteRecord m fs domainName recordName)) fs' domainName recordName
                 newRecord =
      (Some (ErrRecordNotExist domainName recordName),
       snd (DeleteRecord m fs domainName recordName)).
Proof.
  intros m fs fs' domainName recordName domain newRecord Hd Hfound.
  apply existsb_name in Hfound.
  set (kept := List.filter (fun r => negb (String.eqb (R_Name r) recordName))
                           (D_Records domain)).
  assert (Hmap : domainMap (snd (DeleteRecord m fs domainName recordName)) !! domainName =
                 Some (with_records domain kept)).
  { unfold DeleteRecord. rewrite Hd, Hfound. simpl.
    rewrite updateDomainsNode_domainMap. simpl. apply lookup_insert_eq. }
  assert (Hget : GetRecords (snd (DeleteRecord m fs domainName recordName)) domainName =
                 (Some kept, None)).
  { unfold GetRecords. now rewrite Hmap. }
  assert (Hnone : forall r, In r kept -> R_Name r <> recordName).
  { intros r Hr. now apply In_filter_name in Hr. }
  split; [exact Hget|]. split; [|split].
  - intros remaining Hrem. rewrite Hget in Hrem. injection Hrem as <-.
    intros r. apply In_filter_name.
  - generalize dependent (snd (DeleteRecord m fs domainName recordName)). intros m' Hm' _.
    unfold DeleteRecord. rewrite Hm'. simpl.
    replace (existsb (fun r => String.eqb (R_Name r) recordName) kept) with false;
      [reflexivity|].
    symmetry. destruct (existsb _ kept) eqn:Hex; [|reflexivity].
    apply existsb_name in Hex as [r [Hin Hr]]. now destruct (Hnone r Hin).
  - generalize dependent (snd (DeleteRecord m fs domainName recordName)). intros m' Hm' _.
    unfold UpdateRecord. rewrite Hm'. simpl.
    apply (index_of_name_none recordName kept 0%nat) in Hnone. now rewrite Hnone.
Qed.

Lemma X19_DeleteRecord_removes_every_record_of_the_name_witness :
  GetRecords (snd (DeleteRecord two_records_manager fs_read_only "test.com" "a.test.com"))
             "test.com" = (Some [rec_b], None).
Proof.
  destruct (X19_DeleteRecord_removes_every_record_of_the_name two_records_manager
              fs_read_only fs_ok "test.com" "a.test.com"
              {| D_Name := "test.com"; D_Records := [rec_a_first; rec_b] |} rec_b eq_refl)
    as [Hget _].
  - exists rec_a_first. split; [left; reflexivity|reflexivity].
  - exact Hget.
Defined.

Lemma pairs_unique_app records record :
  pairs_unique records ->
  (forall r, In r records -> ~ (R_Name r = R_Name record /\ R_Type r = R_Type record)) ->
  pairs_unique (records ++ [record]).
Proof.
  unfold pairs_unique. intros Hu Hfresh. rewrite map_app. simpl.
  apply NoDup_app. split; [exact Hu|]. split; [|apply NoDup_singleton].
  intros pair Hin Hlast. apply list_elem_of_In in Hin. apply list_elem_of_In in Hlast.
  apply in_map_iff in Hin as [r [<- Hr]]. destruct Hlast as [Heq|[]].
  injection Heq as Hn Ht. now destruct (Hfresh r Hr).
Qed.

Lemma pairs_unique_filter (keep : DnsRecord -> bool) records :
  pairs_unique records -> pairs_unique (List.filter keep records).
Proof.
  unfold pairs_unique. induction records as [|r records IH]; simpl; [trivial|].
  intros Hu. apply NoDup_cons in Hu as [Hnotin Hu].
  destruct (keep r); simpl; [|now apply IH].
  apply NoDup_cons. split; [|now apply IH].
  intros Hin. apply Hnotin. apply list_elem_of_In in Hin. apply list_elem_of_In.
  apply in_map_iff in Hin as [x [Hx Hin]]. apply filter_In in Hin as [Hin _].
  apply in_map_iff. eauto.
Qed.

Lemma stored_pairs_unique_insert dm key domain :
  stored_pairs_unique dm -> pairs_unique (D_Records domain) ->
  stored_pairs_unique (<[key := domain]> dm).
Proof.
  intros Hinv Hu k d. destruct (decide (key = k)) as [<-|Hne].
  - rewrite lookup_insert_eq. now intros [= <-].
  - rewrite lookup_insert_ne by exact Hne. apply Hinv.
Qed.

(** X20.  Uniqueness of [(name, type)] within a domain is kept by
    [AddRecord], [DeleteRecord] and [DeleteDomain], and by
    [AddOrUpdateDomain] when the domain handed in has distinct pairs,
    whatever the persistence step does.  [UpdateRecord] does not check it:
    on the sample it renames one record onto another of the same type. *)
Theorem X20_which_calls_keep_pairs_unique :
  forall (m : ViperYAMLManager) (fs : FsOutcome) (mu : Mutation),
    stored_pairs_unique (domainMap m) ->
    keeps_pairs_unique mu ->
    stored_pairs_unique (domainMap (snd (mutate m fs mu))) /\
    stored_pairs_unique (domainMap two_records_manager) /\
    GetRecords (snd (mutate two_records_manager fs
                       (MUpdateRecord "test.com" "b.test.com" rec_a_second))) "test.com" =
      (Some [rec_a_first; rec_a_second], None) /\
    ~ pairs_unique [rec_a_first; rec_a_second].
Proof.
  intros m fs mu Hinv Hmu. split; [|split; [|split]].
  - destruct mu as [domain|domainName|domainName record|domainName recordName newRecord
                   |domainName recordName]; simpl in *.
    + unfold AddOrUpdateDomain. destruct (String.eqb (D_Name domain) ""); [exact Hinv|].
      rewrite updateDomainsNode_domainMap. simpl. now apply stored_pairs_unique_insert.
    + unfold DeleteDomain. destruct (domainMap m !! domainName) as [d0|]; [|exact Hinv].
      rewrite updateDomainsNode_domainMap. simpl.
      intros k dk. destruct (decide (domainName = k)) as [<-|Hne].
      * now rewrite lookup_delete_eq.
      * rewrite lookup_delete_ne by exact Hne. apply Hinv.
    + unfold AddRecord. destruct (domainMap m !! domainName) as [d|] eqn:Hd; [|exact Hinv].
      destruct (existsb (same_name_type record) (D_Records d)) eqn:Hex; [exact Hinv|].
      rewrite updateDomainsNode_domainMap. simpl.
      apply stored_pairs_unique_insert; [exact Hinv|]. simpl.
      apply pairs_unique_app; [now apply (Hinv _ _ Hd)|].
      intros r Hr Hsame.
      assert (Hyes : existsb (same_name_type record) (D_Records d) = true)
        by (apply existsb_same_name_type; eauto).
      congruence.
    + destruct Hmu.
    + unfold DeleteRecord. destruct (domainMap m !! domainName) as [d|] eqn:Hd; [|exact Hinv].
      destruct (negb (existsb (fun r => String.eqb (R_Name r) recordName) (D_Records d)));
        [exact Hinv|].
      rewrite updateDomainsNode_domainMap. simpl.
      apply stored_pairs_unique_insert; [exact Hinv|]. simpl.
      apply pairs_unique_filter. now apply (Hinv _ _ Hd).
  - intros key domain. unfold two_records_manager. simpl.
    destruct (decide ("test.com" = key)) as [<-|Hne].
    + rewrite lookup_singleton_eq. intros [= <-]. unfold pairs_unique. simpl.
      repeat constructor; simpl; intros Hin; apply list_elem_of_In in Hin;
        simpl in Hin; intuition congruence.
    + now rewrite lookup_singleton_ne.
  - unfold GetRecords. simpl. unfold UpdateRecord. simpl.
    rewrite lookup_singleton_eq. simpl. rewrite updateDomainsNode_domainMap. simpl.
    now rewrite lookup_insert_eq.
  - unfold pairs_unique. simpl. intros Hu. apply NoDup_cons in Hu as [Hnotin _].
    apply Hnotin. apply list_elem_of_In. simpl. auto.
Qed.

Lemma X20_which_calls_keep_pairs_unique_witness :
  stored_pairs_unique
    (domainMap (snd (mutate two_records_manager fs_ok
                       (MDeleteRecord "test.com" "a.test.com")))) /\
  GetRecords (snd (mutate two_records_manager fs_ok
                     (MUpdateRecord "test.com" "b.test.com" rec_a_second))) "test.com" =
    (Some [rec_a_first; rec_a_second], None).
Proof.
  assert (Hsample : stored_pairs_unique (domainMap two_records_manager)).
  { intros key domain. unfold two_records_manager. simpl.
    destruct (decide ("test.com" = key)) as [<-|Hne].
    - rewrite lookup_singleton_eq. intros [= <-]. unfold pairs_unique. simpl.
      repeat constructor; simpl; intros Hin; apply list_elem_of_In in Hin;
        simpl in Hin; intuition congruence.
    - now rewrite lookup_singleton_ne. }
  destruct (X20_which_calls_keep_pairs_unique two_records_manager fs_ok
              (MDeleteRecord "test.com" "a.test.com") Hsample I) as [Hkept [_ [Hupd _]]].
  split; [exact Hkept|exact Hupd].
Defined.

Lemma wrap64_le z : min_int <= z -> wrap64 z <= z.
Proof.
  unfold wrap64, min_int. intros H.
  pose proof (Z.mod_le (z + 2 ^ 63) (2 ^ 64)). lia.
Qed.

Lemma clamp_pageSize_range pageSize : 1 <= clamp_pageSize pageSize <= 100.
Proof.
  unfold clamp_pageSize.
  destruct (Z.ltb_spec pageSize 1), (Z.ltb_spec 100 pageSize); simpl; lia.
Qed.

Lemma clamp_page_range page : 1 <= clamp_page page.
Proof. unfold clamp_page. destruct (Z.ltb_spec page 1); lia. Qed.

Lemma ListDomainsWithPagination_from_sort_Slice m page pageSize :
  ListDomainsWithPagination_from m (sort_Slice (domainInfos m)) page pageSize =
    ListDomainsWithPagination m page pageSize.
Proof. reflexivity. Qed.

(** Within the range of [int] the page is the window of the slice, whatever
    the slice. *)
Lemma ListDomainsWithPagination_from_in_range m infos page pageSize :
  (clamp_page page - 1) * clamp_pageSize pageSize + clamp_pageSize pageSize <= max_int ->
  ListDomainsWithPagination_from m infos page pageSize =
    Returns
      ({| Total := Z.of_nat (size (domainMap m));
          Page_Domains :=
            take (Z.to_nat (clamp_pageSize pageSize))
                 (drop (Z.to_nat ((clamp_page page - 1) * clamp_pageSize pageSize))
                       infos) |}, None).
Proof.
  intros Hrange. unfold ListDomainsWithPagination_from.
  fold (clamp_page page). fold (clamp_pageSize pageSize).
  pose proof (clamp_page_range page) as Hp.
  pose proof (clamp_pageSize_range pageSize) as Hps.
  set (p := clamp_page page) in *. set (ps := clamp_pageSize pageSize) in *.
  assert (Hmax : max_int = 2 ^ 63 - 1) by reflexivity.
  assert (Hmin : min_int = - 2 ^ 63) by reflexivity.
  assert (Hstart : 0 <= (p - 1) * ps) by nia.
  unfold int_mul, int_sub, int_add.
  rewrite (wrap64_small (p - 1)) by nia.
  rewrite (wrap64_small ((p - 1) * ps)) by lia.
  rewrite (wrap64_small ((p - 1) * ps + ps)) by lia.
  set (start := (p - 1) * ps) in *.
  destruct (Z.leb_spec (Z.of_nat (length infos)) start) as [Hbeyond|Hin].
  - do 3 f_equal. rewrite drop_ge by lia. now rewrite take_nil.
  - unfold slice.
    destruct (Z.ltb_spec (Z.of_nat (length infos)) (start + ps)) as [Hcut|Hfull].
    + replace ((0 <=? start) && (start <=? Z.of_nat (length infos))
               && (Z.of_nat (length infos) <=? Z.of_nat (length infos))) with true
        by (symmetry; rewrite !andb_true_iff, !Z.leb_le; lia).
      do 3 f_equal.
      rewrite !take_ge; [reflexivity| |]; rewrite length_drop; lia.
    + replace ((0 <=? start) && (start <=? start + ps)
               && (start + ps <=? Z.of_nat (length infos))) with true
        by (symmetry; rewrite !andb_true_iff, !Z.leb_le; lia).
      do 4 f_equal. lia.
Qed.

Lemma Sorted_weaken {A} (R R' : A -> A -> Prop) l :
  (forall a b, R a b -> R' a b) -> Sorted R l -> Sorted R' l.
Proof.
  intros Himp Hs. induction Hs as [|a l Hs IH Hhd]; constructor; [exact IH|].
  destruct Hhd; constructor. now apply Himp.
Qed.

Lemma Sorted_drop {A} (R : A -> A -> Prop) n l : Sorted R l -> Sorted R (drop n l).
Proof.
  revert l. induction n as [|n IH]; intros [|a l] Hs; simpl; auto.
  apply IH. now apply Sorted_inv in Hs.
Qed.

Lemma Sorted_take {A} (R : A -> A -> Prop) n l : Sorted R l -> Sorted R (take n l).
Proof.
  revert n. induction l as [|a l IH]; intros [|n] Hs; simpl; try constructor.
  - apply IH. now apply Sorted_inv in Hs.
  - apply Sorted_inv in Hs as [_ Hhd].
    destruct Hhd as [|b l' Hab]; [destruct n; constructor|].
    destruct n; constructor. exact Hab.
Qed.

Lemma name_le_key_le a b : name_le a b -> key_le Strings.ToLower a b.
Proof.
  unfold name_le, key_le, String.ltb, String.leb.
  rewrite (String.compare_antisym (Strings.ToLower (DI_Name a))).
  now destruct (String.compare (Strings.ToLower (DI_Name b)) (Strings.ToLower (DI_Name a))).
Qed.

(** The slice the model sorts is one of the results [sort.Slice] may
    leave, for the byte-wise lower-casing. *)
Lemma sort_Slice_is_a_result m :
  sort_Slice_result Strings.ToLower m (sort_Slice (domainInfos m)).
Proof.
  split; [apply sort_Slice_perm|].
  apply (Sorted_weaken name_le); [apply name_le_key_le|apply sort_Slice_sorted].
Qed.

(** X21.  Pagination within the range of [int].  Take any slice that
    [sort.Slice] may leave: the entries of the map in some order, no key
    below the key before it, for whatever the library's lower-casing is.
    It holds every stored domain once with its record count.  When
    [(page-1)*pageSize + pageSize], taken after the parameter checks, does
    not exceed the largest [int], [ListDomainsWithPagination] returns, with
    a nil error, the number of stored domains and the window
    [[(page-1)*pageSize, page*pageSize)] of that slice; the window is
    sorted as the slice is, and it is empty when it starts at or beyond the
    end. *)
Theorem X21_pagination_within_the_range_of_int :
  forall (ToLower : string -> string) (m : ViperYAMLManager) (infos : list DomainInfo)
         (page pageSize : Z),
    sort_Slice_result ToLower m infos ->
    (clamp_page page - 1) * clamp_pageSize pageSize + clamp_pageSize pageSize <= max_int ->
    (forall name count,
       In {| DI_Name := name; RecordCount := count |} infos <->
       exists domain, domainMap m !! name = Some domain /\
                      count = Z.of_nat (length (D_Records domain))) /\
    ListDomainsWithPagination_from m infos page pageSize =
      Returns
        ({| Total := Z.of_nat (size (domainMap m));
            Page_Domains :=
              take (Z.to_nat (clamp_pageSize pageSize))
                   (drop (Z.to_nat ((clamp_page page - 1) * clamp_pageSize pageSize))
                         infos) |}, None) /\
    Sorted (key_le ToLower)
           (take (Z.to_nat (clamp_pageSize pageSize))
                 (drop (Z.to_nat ((clamp_page page - 1) * clamp_pageSize pageSize)) infos)) /\
    (Z.of_nat (size (domainMap m)) <= (clamp_page page - 1) * clamp_pageSize pageSize ->
       ListDomainsWithPagination_from m infos page pageSize =
         Returns ({| Total := Z.of_nat (size (domainMap m)); Page_Domains := [] |}, None)).
Proof.
  intros ToLower m infos page pageSize [Hperm Hsorted] Hrange.
  pose proof (ListDomainsWithPagination_from_in_range m infos page pageSize Hrange) as Hpage.
  split; [|split; [exact Hpage|split]].
  - intros name count. rewrite <- domainInfos_spec.
    split; apply Permutation_in; [|symmetry]; exact Hperm.
  - now apply Sorted_take, Sorted_drop.
  - intros Hbeyond. rewrite Hpage. do 3 f_equal.
    rewrite drop_ge; [now rewrite take_nil|].
    rewrite (Permutation_length Hperm), domainInfos_length.
    pose proof (clamp_page_range page). pose proof (clamp_pageSize_range pageSize). nia.
Qed.

(** X21 at the store of three domains, the byte-wise lower-casing and the
    slice the model sorts: the second page of size two. *)
Lemma X21_pagination_within_the_range_of_int_witness :
  ListDomainsWithPagination three_domains 2 2 =
    Returns ({| Total := 3;
                Page_Domains := [ {| DI_Name := "c.net"; RecordCount := 0 |} ] |}, None).
Proof.
  destruct (X21_pagination_within_the_range_of_int Strings.ToLower three_domains
              (sort_Slice (domainInfos three_domains)) 2 2
              (sort_Slice_is_a_result three_domains))
    as [_ [Hpage _]].
  - vm_compute. discriminate.
  - rewrite <- ListDomainsWithPagination_from_sort_Slice, Hpage.
    vm_compute. reflexivity.
Defined.

(** X22.  Pagination on every input.  Whatever slice [sort.Slice] left:
    whenever [ListDomainsWithPagination] returns, the error is nil, the
    total is the number of stored domains, and the page is a run of
    consecutive entries of that slice, no longer than the page size after
    the parameter checks.  It panics only when
    [(page-1)*pageSize + pageSize] leaves the range of [int]. *)
Theorem X22_pagination_on_every_input :
  forall (m : ViperYAMLManager) (infos : list DomainInfo) (page pageSize : Z),
    (forall result err,
       ListDomainsWithPagination_from m infos page pageSize = Returns (result, err) ->
       err = None /\
       Total result = Z.of_nat (size (domainMap m)) /\
       (length (Page_Domains result) <= Z.to_nat (clamp_pageSize pageSize))%nat /\
       exists first count,
         Page_Domains result = take count (drop first infos)) /\
    (ListDomainsWithPagination_from m infos page pageSize = Panics ->
       max_int < (clamp_page page - 1) * clamp_pageSize pageSize + clamp_pageSize pageSize).
Proof.
  intros m infos page pageSize. split.
  - intros result err. unfold ListDomainsWithPagination_from.
    fold (clamp_page page). fold (clamp_pageSize pageSize).
    pose proof (clamp_pageSize_range pageSize) as Hps.
    set (ps := clamp_pageSize pageSize) in *.
    set (start := int_mul (int_sub (clamp_page page) 1) ps).
    destruct (Z.leb_spec (Z.of_nat (length infos)) start) as [Hbeyond|Hin].
    { intros [= <- <-]. simpl. repeat split; try lia. now exists 0%nat, 0%nat. }
    unfold slice.
    set (end_ := if Z.of_nat (length infos) <? int_add start ps
                 then Z.of_nat (length infos) else int_add start ps).
    destruct ((0 <=? start) && (start <=? end_) && (end_ <=? Z.of_nat (length infos)))
      eqn:Hcheck; [|discriminate].
    intros [= <- <-]. simpl.
    apply andb_true_iff in Hcheck as [Hcheck _].
    apply andb_true_iff in Hcheck as [H0 _]. apply Z.leb_le in H0.
    assert (Hend : end_ <= start + ps).
    { subst end_. unfold int_add.
      pose proof (wrap64_le (start + ps)) as Hw. unfold min_int in Hw.
      destruct (Z.ltb_spec (Z.of_nat (length infos)) (wrap64 (start + ps))); lia. }
    repeat split.
    + rewrite length_take. lia.
    + now exists (Z.to_nat start), (Z.to_nat (end_ - start)).
  - intros Hpanic.
    destruct (Z.le_gt_cases
                ((clamp_page page - 1) * clamp_pageSize pageSize + clamp_pageSize pageSize)
                max_int) as [Hrange|Hover]; [|lia].
    rewrite (ListDomainsWithPagination_from_in_range m infos page pageSize Hrange) in Hpanic.
    discriminate.
Qed.

(** * Further properties of the management handlers *)

(** The store either rejects a call, with a not-found or a conflict error
    and no change, or goes on to the persistence step; the one validation
    error is that of [AddOrUpdateDomain] on an empty name. *)
Lemma mutate_rejects_or_persists m fs mu :
  (exists e, mutate m fs mu = (Some e, m) /\
             (kind e = NotFoundError \/ kind e = ConflictError \/
              kind e = ValidationError /\
              exists domain, mu = MAddOrUpdateDomain domain /\ D_Name domain = "")) \/
  (exists dm, mutate m fs mu = updateDomainsNode (with_domainMap m dm) fs).
Proof.
  destruct mu as [domain|domainName|domainName record|domainName recordName newRecord
                 |domainName recordName]; simpl;
    unfold AddOrUpdateDomain, DeleteDomain, AddRecord, UpdateRecord, DeleteRecord.
  - destruct (String.eqb_spec (D_Name domain) "") as [Hempty|_]; [|eauto].
    left. eexists. split; [reflexivity|]. right. right. eauto.
  - destruct (domainMap m !! domainName); [eauto|]. left. eexists. split; [reflexivity|]. now left.
  - destruct (domainMap m !! domainName) as [domain|];
      [|left; eexists; split; [reflexivity|]; now left].
    destruct (existsb _ _); [|eauto]. left. eexists. split; [reflexivity|]. right. now left.
  - destruct (domainMap m !! domainName) as [domain|];
      [|left; eexists; split; [reflexivity|]; now left].
    destruct (index_of_name _ _ _); [eauto|]. left. eexists. split; [reflexivity|]. now left.
  - destruct (domainMap m !! domainName) as [domain|];
      [|left; eexists; split; [reflexivity|]; now left].
    destruct (existsb _ _); simpl; [eauto|]. left. eexists. split; [reflexivity|]. now left.
Qed.

(** A mutating handler either refuses the request itself, or makes one
    store call and answers by its result. *)
Lemma serve_cases m fs request :
  (exists msg, Handler.serve m fs request = (Resp.RESP_PARAMS_ERROR msg, m)) \/
  (exists mu,
     (forall domain, mu = MAddOrUpdateDomain domain -> D_Name domain <> "") /\
     Handler.serve m fs request =
       (match fst (mutate m fs mu) with
        | Some err => Resp.RESP_ERROR StatusInternalServerError (ErrorOf err)
        | None => Resp.RESP_OK
        end, snd (mutate m fs mu))).
Proof.
  destruct request as [body|domainName|domainName body|domainName recordName body
                      |domainName recordName]; simpl.
  - unfold Handler.CreateDomain. destruct body as [req|detail]; [|eauto].
    destruct (String.eqb_spec (D_Name req) "") as [|Hname]; [eauto|].
    right. exists (MAddOrUpdateDomain req). split; [now intros ? [= <-]|].
    simpl. now destruct (AddOrUpdateDomain m fs req) as [[e|] m'].
  - unfold Handler.DeleteDomain. destruct (String.eqb domainName ""); [eauto|].
    right. exists (MDeleteDomain domainName). split; [discriminate|].
    simpl. now destruct (DeleteDomain m fs domainName) as [[e|] m'].
  - unfold Handler.AddRecord. destruct (String.eqb domainName ""); [eauto|].
    destruct body as [req|detail]; [|eauto].
    destruct (_ || _); [eauto|].
    right. exists (MAddRecord domainName req). split; [discriminate|].
    simpl. now destruct (AddRecord m fs domainName req) as [[e|] m'].
  - unfold Handler.UpdateRecord. destruct (_ || _); [eauto|].
    destruct body as [req|detail]; [|eauto].
    right. exists (MUpdateRecord domainName recordName req). split; [discriminate|].
    simpl. now destruct (UpdateRecord m fs domainName recordName req) as [[e|] m'].
  - unfold Handler.DeleteRecord. destruct (_ || _); [eauto|].
    right. exists (MDeleteRecord domainName recordName). split; [discriminate|].
    simpl. now destruct (DeleteRecord m fs domainName recordName) as [[e|] m'].
Qed.

(** X23.  What the response code of a mutating route tells.  The code is
    200, 400 or 500.  With 400 the store was not touched.  With 200 the
    response is the plain OK and the list held by viper and the one in the
    configuration file are the domains now in memory.  With 500 the message
    is the error of the store call, which is never the validation error;
    a missing domain or record and a duplicate record are reported with
    500 as well, and then nothing was changed. *)
Theorem X23_response_codes_of_the_mutating_routes :
  forall (m : ViperYAMLManager) (fs : FsOutcome) (request : Handler.MutatingRequest),
    let resp := fst (Handler.serve m fs request) in
    let m' := snd (Handler.serve m fs request) in
    (resp_code resp = 200 \/ resp_code resp = 400 \/ resp_code resp = 500) /\
    (resp_code resp = 400 -> m' = m) /\
    (resp_code resp = 200 ->
       resp = Resp.RESP_OK /\
       viperDomains m' = (range_domainMap m').*2 /\
       document m' = Some (range_domainMap m').*2) /\
    (resp_code resp = 500 ->
       exists err,
         resp = Resp.RESP_ERROR 500 (ErrorOf err) /\
         kind err <> ValidationError /\
         (kind err <> PersistenceError -> m' = m)).
Proof.
  intros m fs request resp m'. subst resp m'.
  destruct (serve_cases m fs request) as [[msg ->]|[mu [Hname ->]]]; simpl.
  { repeat split; auto; discriminate. }
  destruct (mutate_rejects_or_persists m fs mu) as [[e [-> Hkind]]|[dm ->]]; simpl.
  - repeat split; auto; try discriminate. intros _. exists e.
    split; [reflexivity|]. split; [|reflexivity].
    destruct Hkind as [->|[->|[_ [domain [-> Hempty]]]]]; try discriminate.
    now destruct (Hname domain eq_refl).
  - destruct (updateDomainsNode (with_domainMap m dm) fs) as [[e|] m'] eqn:Hrun; simpl.
    + apply updateDomainsNode_Some in Hrun.
      repeat split; auto; try discriminate. intros _. exists e.
      split; [reflexivity|]. rewrite Hrun. split; [discriminate|]. now intros [].
    + apply updateDomainsNode_None in Hrun.
      repeat split; auto; try discriminate; try apply Hrun.
Qed.

Lemma stored_records_filled_insert dm key domain :
  stored_records_filled dm ->
  (forall r, In r (D_Records domain) -> record_filled r) ->
  stored_records_filled (<[key := domain]> dm).
Proof.
  intros Hinv Hnew k d r Hlook Hin.
  destruct (decide (key = k)) as [->|Hne].
  - rewrite lookup_insert_eq in Hlook. injection Hlook as <-. now apply Hnew.
  - rewrite lookup_insert_ne in Hlook by exact Hne. now apply (Hinv k d).
Qed.

Lemma stored_records_filled_delete dm key :
  stored_records_filled dm -> stored_records_filled (delete key dm).
Proof.
  intros Hinv k d r Hlook Hin.
  destruct (decide (key = k)) as [->|Hne].
  - now rewrite lookup_delete_eq in Hlook.
  - rewrite lookup_delete_ne in Hlook by exact Hne. now apply (Hinv k d).
Qed.

Lemma eqb_empty_false s : String.eqb s "" = false <-> s <> "".
Proof. now destruct (String.eqb_spec s ""). Qed.

(** X24.  Records with an empty field.  The route that adds a record
    answers 200 only to a body whose name, type and value are all
    non-empty, sent under a non-empty domain name; if every stored record
    has the three fields before the call, so it is after it, whatever the
    answer.  The routes that delete a record or a domain keep this too. *)
Theorem X24_added_records_have_name_type_and_value :
  forall (m : ViperYAMLManager) (fs : FsOutcome),
    stored_records_filled (domainMap m) ->
    (forall domainName body,
       stored_records_filled (domainMap (snd (Handler.AddRecord m fs domainName body))) /\
       (resp_code (fst (Handler.AddRecord m fs domainName body)) = 200 ->
          domainName <> "" /\ exists req, body = Bound req /\ record_filled req)) /\
    (forall domainName recordName,
       stored_records_filled
         (domainMap (snd (Handler.DeleteRecord m fs domainName recordName)))) /\
    (forall domainName,
       stored_records_filled (domainMap (snd (Handler.DeleteDomain m fs domainName)))).
Proof.
  intros m fs Hinv. split; [|split].
  - intros domainName body. unfold Handler.AddRecord.
    destruct (String.eqb_spec domainName "") as [|Hdomain]; [now split|].
    destruct body as [req|detail]; [|now split].
    destruct (String.eqb_spec (R_Name req) "") as [|Hn]; [now split|].
    destruct (String.eqb_spec (R_Type req) "") as [|Ht]; [now split|].
    destruct (String.eqb_spec (R_Value req) "") as [|Hv]; [now split|]. simpl.
    assert (Hstored :
      stored_records_filled (domainMap (snd (AddRecord m fs domainName req)))).
    { unfold AddRecord. destruct (domainMap m !! domainName) as [domain|] eqn:Hlook; [|exact Hinv].
      destruct (existsb _ _); [exact Hinv|].
      rewrite updateDomainsNode_domainMap. simpl.
      apply stored_records_filled_insert; [exact Hinv|]. simpl.
      intros r [Hr|[<-|[]]]%in_app_or; [now apply (Hinv domainName domain)|].
      now repeat split. }
    destruct (AddRecord m fs domainName req) as [[e|] m']; simpl in *.
    + split; [exact Hstored|discriminate].
    + split; [exact Hstored|]. intros _. split; [exact Hdomain|].
      exists req. now repeat split.
  - intros domainName recordName. unfold Handler.DeleteRecord.
    destruct (_ || _); [exact Hinv|].
    assert (Hstored :
      stored_records_filled (domainMap (snd (DeleteRecord m fs domainName recordName)))).
    { unfold DeleteRecord. destruct (domainMap m !! domainName) as [domain|] eqn:Hlook; [|exact Hinv].
      destruct (existsb _ _); simpl; [|exact Hinv].
      rewrite updateDomainsNode_domainMap. simpl.
      apply stored_records_filled_insert; [exact Hinv|]. simpl.
      intros r [Hr _]%In_filter_name. now apply (Hinv domainName domain). }
    now destruct (DeleteRecord m fs domainName recordName) as [[e|] m'].
  - intros domainName. unfold Handler.DeleteDomain.
    destruct (String.eqb domainName ""); [exact Hinv|].
    assert (Hstored :
      stored_records_filled (domainMap (snd (DeleteDomain m fs domainName)))).
    { unfold DeleteDomain. destruct (domainMap m !! domainName) as [domain|]; [|exact Hinv].
      rewrite updateDomainsNode_domainMap. simpl.
      now apply stored_records_filled_delete. }
    now destruct (DeleteDomain m fs domainName) as [[e|] m'].
Qed.

Lemma sample_manager_filled : stored_records_filled (domainMap sample_manager).
Proof.
  intros key domain r Hlook Hin. simpl in Hlook.
  destruct (decide (key = "test.com")) as [->|Hne].
  - rewrite lookup_singleton_eq in Hlook. injection Hlook as <-.
    destruct Hin as [<-|[]]. now repeat split.
  - now rewrite lookup_singleton_ne in Hlook.
Qed.

(** X24 at the sample store: a record without a value is refused with
    code 400. *)
Lemma X24_added_records_have_name_type_and_value_witness :
  stored_records_filled
    (domainMap (snd (Handler.AddRecord sample_manager fs_ok "test.com"
                       (Bound {| R_Name := "x.test.com"; R_Type := "A";
                                 R_Value := ""; R_TTL := 60 |})))) /\
  resp_code (fst (Handler.AddRecord sample_manager fs_ok "test.com"
                    (Bound {| R_Name := "x.test.com"; R_Type := "A";
                              R_Value := ""; R_TTL := 60 |}))) = 400.
Proof.
  split; [|reflexivity].
  apply (X24_added_records_have_name_type_and_value sample_manager fs_ok
           sample_manager_filled).
Defined.

Lemma index_of_name_lt recordName records k i :
  index_of_name recordName records k = Some i -> (k <= i < k + length records)%nat.
Proof.
  revert k. induction records as [|r rest IH]; intros k; simpl; [discriminate|].
  destruct (String.eqb (R_Name r) recordName).
  - intros [= <-]. lia.
  - intros Hrest%IH. lia.
Qed.

Lemma In_insert (records : list DnsRecord) i r :
  (i < length records)%nat -> In r (<[i := r]> records).
Proof.
  intros Hi. apply list_elem_of_In, (list_elem_of_lookup_2 _ i).
  now apply list_lookup_insert_eq.
Qed.

(** X25.  The route that replaces a record takes any body.  For a stored
    domain and the name of one of its records, both non-empty, the body is
    not inspected: whatever its fields, it is stored in the domain, in
    memory, in place of a record, and the answer is the plain OK when the
    file is written.  A body with an empty field therefore ends the
    state in which every stored record has a name, a type and a value. *)
Theorem X25_replaced_records_are_not_validated :
  forall (m : ViperYAMLManager) (fs : FsOutcome) (domainName recordName : string)
         (domain : Domain) (req : DnsRecord),
    domainName <> "" ->
    recordName <> "" ->
    domainMap m !! domainName = Some domain ->
    (exists r, In r (D_Records domain) /\ R_Name r = recordName) ->
    let resp := fst (Handler.UpdateRecord m fs domainName recordName (Bound req)) in
    let m' := snd (Handler.UpdateRecord m fs domainName recordName (Bound req)) in
    (exists domain',
       domainMap m' !! domainName = Some domain' /\
       In req (D_Records domain') /\
       length (D_Records domain') = length (D_Records domain)) /\
    (WriteConfig_ok fs = true -> ReadInConfig_ok fs = true -> resp = Resp.RESP_OK) /\
    (~ record_filled req -> ~ stored_records_filled (domainMap m')).
Proof.
  intros m fs domainName recordName domain req Hdomain Hrecord Hlook Hexists resp m'.
  subst resp m'. unfold Handler.UpdateRecord.
  rewrite (proj2 (eqb_empty_false _) Hdomain), (proj2 (eqb_empty_false _) Hrecord). simpl.
  destruct (index_of_name recordName (D_Records domain) 0) as [i|] eqn:Hindex.
  2:{ destruct Hexists as [r [Hin Hname]].
      now destruct (proj1 (index_of_name_none _ _ _) Hindex r Hin). }
  set (domain' := {| D_Name := D_Name domain; D_Records := <[i := req]> (D_Records domain) |}).
  assert (Hrun : UpdateRecord m fs domainName recordName req =
                 updateDomainsNode
                   (with_domainMap m (<[domainName := domain']> (domainMap m))) fs).
  { unfold UpdateRecord. now rewrite Hlook, Hindex. }
  apply index_of_name_lt in Hindex.
  pose proof (updateDomainsNode_domainMap
                (with_domainMap m (<[domainName := domain']> (domainMap m))) fs) as Hmap.
  assert (Hwritten : WriteConfig_ok fs = true -> ReadInConfig_ok fs = true ->
                     fst (UpdateRecord m fs domainName recordName req) = None).
  { intros Hw Hr. now rewrite Hrun, updateDomainsNode_written. }
  rewrite <- Hrun in Hmap. simpl in Hmap.
  assert (Hstored : domainMap (snd (UpdateRecord m fs domainName recordName req)) !! domainName
                    = Some domain') by (rewrite Hmap; apply lookup_insert_eq).
  assert (Hin : In req (D_Records domain')) by (apply In_insert; lia).
  destruct (UpdateRecord m fs domainName recordName req) as [[e|] m']; simpl in *.
  - split; [|split].
    + exists domain'. split; [exact Hstored|]. split; [exact Hin|]. apply length_insert.
    + intros Hw Hr. now specialize (Hwritten Hw Hr).
    + intros Hempty Hinv. exact (Hempty (Hinv domainName domain' req Hstored Hin)).
  - split; [|split].
    + exists domain'. split; [exact Hstored|]. split; [exact Hin|]. apply length_insert.
    + reflexivity.
    + intros Hempty Hinv. exact (Hempty (Hinv domainName domain' req Hstored Hin)).
Qed.

(** X25 at the sample store: a record whose fields are all empty replaces
    [a.test.com]. *)
Lemma X25_replaced_records_are_not_validated_witness :
  Handler.UpdateRecord sample_manager fs_ok "test.com" "a.test.com" (Bound empty_record) =
    (Resp.RESP_OK,
     {| domainMap := {[ "test.com" := {| D_Name := "test.com"; D_Records := [empty_record] |} ]};
        viperDomains := [ {| D_Name := "test.com"; D_Records := [empty_record] |} ];
        document := Some [ {| D_Name := "test.com"; D_Records := [empty_record] |} ] |}) /\
  ~ stored_records_filled
      (domainMap (snd (Handler.UpdateRecord sample_manager fs_ok "test.com" "a.test.com"
                         (Bound empty_record)))).
Proof.
  split; [vm_compute; reflexivity|].
  apply (X25_replaced_records_are_not_validated sample_manager fs_ok "test.com" "a.test.com"
           {| D_Name := "test.com"; D_Records := [rec_a_first] |} empty_record).
  - discriminate.
  - discriminate.
  - reflexivity.
  - exists rec_a_first. split; [now left|reflexivity].
  - intros [H _]. now apply H.
Defined.

Lemma between_digit c :
  Net.between "0" "9" c = true -> 0 <= Net.code c - 48 <= 9.
Proof.
  unfold Net.between. intros H.
  apply andb_true_iff in H as [H1 H2].
  change (Net.code "0") with 48 in H1. change (Net.code "9") with 57 in H2. lia.
Qed.

Lemma digits_value_bound s acc n :
  0 <= acc ->
  digits_value s acc = Some n ->
  0 <= n < (acc + 1) * 10 ^ Z.of_nat (String.length s).
Proof.
  revert acc. induction s as [|c s IH]; intros acc Hacc.
  - simpl. intros [= <-]. lia.
  - cbn [digits_value String.length]. destruct (Net.between "0" "9" c) eqn:Hc; [|discriminate].
    apply between_digit in Hc. intros Hrest.
    apply IH in Hrest; [|lia].
    rewrite Nat2Z.inj_succ, Z.pow_succ_r by lia.
    assert (0 < 10 ^ Z.of_nat (String.length s)) by (apply Z.pow_pos_nonneg; lia).
    nia.
Qed.

(** A number [strconv.Atoi] accepts is smaller, in absolute value, than
    ten to the length of its text. *)
Lemma Atoi_bound s n :
  Atoi s = Some n -> - 10 ^ Z.of_nat (String.length s) < n < 10 ^ Z.of_nat (String.length s).
Proof.
  unfold Atoi.
  assert (Hbody : forall (negative : bool) body,
            (String.length body <= String.length s)%nat ->
            match body with
            | "" => None
            | String _ _ =>
                match digits_value body 0 with
                | Some n0 =>
                    let v := if negative then - n0 else n0 in
                    if (min_int <=? v) && (v <=? max_int) then Some v else None
                | None => None
                end
            end = Some n ->
            - 10 ^ Z.of_nat (String.length s) < n < 10 ^ Z.of_nat (String.length s)).
  { intros negative body Hlen. destruct body as [|c body]; [discriminate|].
    destruct (digits_value (String c body) 0) as [n0|] eqn:Hdigits; [|discriminate].
    apply digits_value_bound in Hdigits; [|lia].
    assert (10 ^ Z.of_nat (String.length (String c body)) <= 10 ^ Z.of_nat (String.length s))
      by (apply Z.pow_le_mono_r; lia).
    cbv zeta. destruct (_ && _); [|discriminate].
    intros [= <-]. destruct negative; lia. }
  destruct s as [|c s]; [discriminate|].
  destruct (Ascii.eqb c "-"); [|destruct (Ascii.eqb c "+")]; intros H.
  - apply (Hbody true s); [simpl; lia|exact H].
  - apply (Hbody false s); [simpl; lia|exact H].
  - apply (Hbody false (String c s)); [simpl; lia|exact H].
Qed.

Lemma Atoi_range s n : Atoi s = Some n -> min_int <= n <= max_int.
Proof.
  unfold Atoi.
  destruct (match s with
            | "" => (false, s)
            | String c rest =>
                if Ascii.eqb c "-" then (true, rest)
                else if Ascii.eqb c "+" then (false, rest) else (false, s)
            end) as [negative body].
  destruct body as [|c body]; [discriminate|].
  destruct (digits_value _ _) as [n0|]; [|discriminate].
  cbv zeta. destruct (_ && _) eqn:Hrange; [|discriminate].
  intros [= <-]. apply andb_true_iff in Hrange as [H1 H2]. lia.
Qed.

Lemma page_of_range pageStr : 1 <= Handler.page_of pageStr <= max_int.
Proof.
  unfold Handler.page_of. destruct (Atoi pageStr) as [n|] eqn:Hn; [|now vm_compute].
  apply Atoi_range in Hn. destruct (Z.ltb_spec n 1); [now vm_compute|lia].
Qed.

Lemma pageSize_of_range pageSizeStr : 1 <= Handler.pageSize_of pageSizeStr <= 100.
Proof.
  unfold Handler.pageSize_of. destruct (Atoi pageSizeStr) as [n|]; [|lia].
  destruct (Z.ltb_spec n 1), (Z.ltb_spec 100 n); simpl; lia.
Qed.

Lemma page_of_short pageStr :
  (String.length pageStr <= 16)%nat -> Handler.page_of pageStr <= 10 ^ 16.
Proof.
  intros Hlen. unfold Handler.page_of.
  destruct (Atoi pageStr) as [n|] eqn:Hn; [|lia].
  apply Atoi_bound in Hn.
  assert (10 ^ Z.of_nat (String.length pageStr) <= 10 ^ 16) by (apply Z.pow_le_mono_r; lia).
  destruct (Z.ltb_spec n 1); lia.
Qed.

Lemma QueryDomainWithPagination_from_sort_Slice m page page_size :
  Handler.QueryDomainWithPagination_from m (sort_Slice (domainInfos m)) page page_size =
    Handler.QueryDomainWithPagination m page page_size.
Proof. reflexivity. Qed.

(** X26.  The paginated route.  The page handed to the store is at least
    1 and the page size lies between 1 and 100; an absent parameter and a
    text [strconv.Atoi] rejects give page 1 and size 20.  Whatever slice
    [sort.Slice] left in the store call: whenever the handler answers, the
    code is 200 and the data carry the number of stored domains (the route
    never answers with an error), and with a page parameter of at most 16
    characters the handler answers, with the window of that slice that
    belongs to the page. *)
Theorem X26_paginated_route :
  forall (m : ViperYAMLManager) (infos : list DomainInfo) (page page_size : option string),
    let p := Handler.page_of (Handler.DefaultQuery page "1") in
    let ps := Handler.pageSize_of (Handler.DefaultQuery page_size "20") in
    1 <= p <= max_int /\
    1 <= ps <= 100 /\
    (page = None \/ (exists s, page = Some s /\ Atoi s = None) -> p = 1) /\
    (page_size = None \/ (exists s, page_size = Some s /\ Atoi s = None) -> ps = 20) /\
    (forall resp,
       Handler.QueryDomainWithPagination_from m infos page page_size = Returns resp ->
       resp_code resp = 200 /\
       exists result, resp_data resp = DomainPage result /\
                      Total result = Z.of_nat (size (domainMap m))) /\
    ((forall s, page = Some s -> (String.length s <= 16)%nat) ->
       Handler.QueryDomainWithPagination_from m infos page page_size =
         Returns (Resp.RESP_DATA (DomainPage
           {| Total := Z.of_nat (size (domainMap m));
              Page_Domains :=
                take (Z.to_nat ps) (drop (Z.to_nat ((p - 1) * ps)) infos) |}))).
Proof.
  intros m infos page page_size p ps.
  pose proof (page_of_range (Handler.DefaultQuery page "1")) as Hp.
  pose proof (pageSize_of_range (Handler.DefaultQuery page_size "20")) as Hps.
  fold p in Hp. fold ps in Hps.
  split; [exact Hp|]. split; [exact Hps|]. split; [|split; [|split]].
  - subst p. intros [->|[s [-> Hs]]]; simpl; [reflexivity|].
    unfold Handler.page_of. now rewrite Hs.
  - subst ps. intros [->|[s [-> Hs]]]; simpl; [reflexivity|].
    unfold Handler.pageSize_of. now rewrite Hs.
  - intros resp. unfold Handler.QueryDomainWithPagination_from. fold p ps.
    unfold ListDomainsWithPagination_from.
    destruct (_ <=? _).
    { intros [= <-]. simpl. split; [reflexivity|]. eauto. }
    destruct (slice _ _ _); [|discriminate].
    intros [= <-]. simpl. split; [reflexivity|]. eauto.
  - intros Hshort. unfold Handler.QueryDomainWithPagination_from. fold p ps.
    assert (Hp16 : p <= 10 ^ 16).
    { subst p. destruct page as [s|]; simpl; [|now vm_compute].
      apply page_of_short. now apply Hshort. }
    assert (Hcp : clamp_page p = p)
      by (unfold clamp_page; destruct (Z.ltb_spec p 1); lia).
    assert (Hcps : clamp_pageSize ps = ps)
      by (unfold clamp_pageSize; destruct (Z.ltb_spec ps 1), (Z.ltb_spec 100 ps); simpl; lia).
    rewrite (ListDomainsWithPagination_from_in_range m infos p ps).
    + now rewrite Hcp, Hcps.
    + rewrite Hcp, Hcps. unfold max_int. nia.
Qed.

(** X27.  The authentication middleware.  The next handler runs exactly
    when the [Authorization] header is the text [Bearer ] followed by a
    token the validator accepts, and then the context holds the user id and
    the user name of the token's claims.  In every other case the chain is
    aborted with code 401 and no data. *)
Theorem X27_Auth_lets_valid_bearer_tokens_through :
  forall (ValidateAccessToken : string -> CustomClaims + string) (authHeader : string),
    (forall user_id username,
       Auth ValidateAccessToken authHeader = Next user_id username <->
       exists tokenStr claims,
         authHeader = "Bearer " +:+ tokenStr /\
         ValidateAccessToken tokenStr = inl claims /\
         UserID claims = user_id /\ Username claims = username) /\
    (forall resp,
       Auth ValidateAccessToken authHeader = Abort resp ->
       resp_code resp = 401 /\ resp_data resp = NoData).
Proof.
  intros V authHeader. split.
  - intros user_id username. unfold Auth. split.
    + destruct (String.eqb authHeader ""); [discriminate|].
      destruct (Nat.ltb_spec (String.length authHeader) (String.length bearerPrefix));
        cbn [orb negb]; [discriminate|].
      destruct (Strings.HasPrefix authHeader bearerPrefix) eqn:Hprefix;
        cbn [orb negb]; [|discriminate].
      apply HasPrefix_spec in Hprefix as [tokenStr ->].
      rewrite slice_from_app.
      destruct (V tokenStr) as [claims|err] eqn:Hv; [|discriminate].
      intros [= <- <-]. now exists tokenStr, claims.
    + intros [tokenStr [claims [-> [Hv [<- <-]]]]].
      change ("Bearer " +:+ tokenStr) with (bearerPrefix +:+ tokenStr).
      rewrite slice_from_app, Hv.
      rewrite (proj2 (HasPrefix_spec _ _)) by eauto.
      rewrite string_length_app.
      destruct (Nat.ltb_spec (String.length bearerPrefix + String.length tokenStr)
                  (String.length bearerPrefix)); [lia|]. reflexivity.
  - intros resp. unfold Auth.
    destruct (String.eqb authHeader ""); [now intros [= <-]|].
    destruct (_ || _); [now intros [= <-]|].
    destruct (V _); [discriminate|now intros [= <-]].
Qed.

(** X27 with a validator that accepts the token [t0]: the header with
    the prefix passes, the one with a lower-case prefix does not reach the
    validator. *)
Lemma X27_Auth_lets_valid_bearer_tokens_through_witness :
  Auth one_token "Bearer t0" = Next "1" "admin" /\
  Auth one_token "bearer t0" =
    Abort (Resp.RESP_UNAUTHORIZED
             (Text "The token format is incorrect (need: Bearer <token>).")).
Proof.
  split; [|reflexivity].
  destruct (X27_Auth_lets_valid_bearer_tokens_through one_token "Bearer t0") as [Hnext _].
  apply Hnext. exists "t0", {| UserID := "1"; Username := "admin" |}. now repeat split.
Defined.
